(** * Table query pipeline of [ta_lib.mmx.eda.visualization_utils]

    A shallow embedding of the plotting helpers of
    [src/ta_lib/mmx/eda/visualization_utils.py]: the selector validation,
    the row filters, the group-and-sum aggregation and the cost-per-activity
    column, together with the pandas operations they are written with.

    Data frames live in a store and are handled through references, as in
    Python: [data[mask]], [groupby(...).sum().reset_index()] and [copy()]
    allocate a new frame, [df[c] = s] updates the frame behind the reference
    in place.  Printed output is part of the state; exceptions are results.

    What is modelled of pandas and plotly:
    - measure columns are float64 columns, with NaN for a missing value;
      text is a string of bytes and [str.lower] acts on ASCII letters; a date
      is its position on the time line;
    - [groupby] has its defaults [sort=True] and [dropna=True], and [sum]
      skips missing values; a float64 column is summed per group in row
      order by the compensated (Kahan) summation of pandas' [group_sum],
      whose compensation is reset to 0 when it is NaN, as it is after an
      infinite value; the [sum()] of lines 681 and 751 sums text columns by
      concatenation, as [sum(numeric_only=False)] does; the key columns
      of a [groupby] hold text, dates or missing values, as the date,
      quarter and description columns of the source do;
    - a figure is the list of its traces; layouts, titles, [plt.show()], the
      widgets and the server of the dashboards are left to the charting
      library and the UI runtime.  Of the [*_interact] functions the
      callbacks are modelled, and the part of
      [get_actual_vs_predicted_plot_interact] that prepares their table. *)

From Stdlib Require Import ZArith String Ascii List Bool Lia Permutation Sorted.
From Stdlib Require Import Floats.SpecFloat.
From stdpp Require Import gmap strings list fin_maps.

Local Open Scope Z_scope.
Local Open Scope string_scope.
Local Open Scope list_scope.

(** ** float64 *)

(** Measure columns are float64 columns: IEEE 754 binary64 as specified by
    the standard library's [SpecFloat], with NaN as pandas' marker of a
    missing value. *)
Module F64.
Definition prec : Z := 53.
Definition emax : Z := 1024.

Definition zero : spec_float := S754_zero false.
Definition nan : spec_float := S754_nan.
Definition pinf : spec_float := S754_infinity false.
Definition ninf : spec_float := S754_infinity true.

Definition add : spec_float -> spec_float -> spec_float := SFadd prec emax.
Definition sub : spec_float -> spec_float -> spec_float := SFsub prec emax.
Definition div : spec_float -> spec_float -> spec_float := SFdiv prec emax.
Definition eqb : spec_float -> spec_float -> bool := SFeqb.
Definition leb : spec_float -> spec_float -> bool := SFleb.

  (** The float64 nearest to an integer. *)
Definition of_Z (z : Z) : spec_float := binary_normalize prec emax z 0 false.

Definition is_nan (x : spec_float) : bool :=
    match x with S754_nan => true | _ => false end.

Definition is_inf (x : spec_float) : bool :=
    match x with S754_infinity _ => true | _ => false end.

Definition is_zero (x : spec_float) : bool :=
    match x with S754_zero _ => true | _ => false end.
End F64.

#[global] Instance spec_float_eq_dec : EqDecision spec_float.
Proof. solve_decision. Defined.

(** ** Text *)

Definition nl : string := String (ascii_of_nat 10) EmptyString.

(** [str.lower] on ASCII text: bytes outside [A-Z] are kept. *)
Definition lower_ascii (c : ascii) : ascii :=
  let n := nat_of_ascii c in
  if (Nat.leb 65 n && Nat.leb n 90)%bool then ascii_of_nat (n + 32) else c.

Fixpoint lower (s : string) : string :=
  match s with
  | EmptyString => EmptyString
  | String c s' => String (lower_ascii c) (lower s')
  end.

(** ** Cells, rows, frames *)

(** A cell of a frame: text, a float64 (NaN when missing) or a date, held
    as its position on the time line. *)
Inductive cell :=
| Str (s : string)
| Num (x : spec_float)
| Date (d : Z).

#[global] Instance cell_eq_dec : EqDecision cell.
Proof. solve_decision. Defined.

Definition NaN : cell := Num F64.nan.

Definition is_na (c : cell) : bool :=
  match c with Num x => F64.is_nan x | _ => false end.

(** What a caller can pass where a column name is expected: a name, the
    builtin type [str] (the default of [date_col] in
    [get_spend_vs_activity_plot]) or [None] (the default of [group_col]). *)
Inductive label :=
| Col (name : string)
| BuiltinStr
| PyNone.

#[global] Instance label_eq_dec : EqDecision label.
Proof. solve_decision. Defined.

Abbreviation row := (gmap string cell).

Record DataFrame := mkDataFrame {
  columns : list string;
  rows : list row
}.

Definition cell_at (c : string) (r : row) : cell := default NaN (r !! c).

(** Python's [==] on two scalars (NaN differs from itself, values of
    different kinds differ). *)
Definition py_eq (a b : cell) : bool :=
  match a, b with
  | Str x, Str y => bool_decide (x = y)
  | Num x, Num y => F64.eqb x y
  | Date x, Date y => bool_decide (x = y)
  | _, _ => false
  end.

(** ** Results and exceptions *)

Inductive exn :=
| KeyError (k : label)
| TypeError
| ValueError
| IndexError
| UnboundLocalError (name : string)
| SystemError.

Inductive result (A : Type) :=
| Ok (a : A)
| Raise (e : exn).
Arguments Ok {A} a.
Arguments Raise {A} e.

Definition rbind {A B} (m : result A) (k : A -> result B) : result B :=
  match m with
  | Ok a => k a
  | Raise e => Raise e
  end.

Notation "x <-? m ;; k" := (rbind m (fun x => k))
  (at level 62, m at next level, right associativity).

Fixpoint rmap {A B} (f : A -> result B) (l : list A) : result (list B) :=
  match l with
  | [] => Ok []
  | x :: t => y <-? f x ;; ys <-? rmap f t ;; Ok (y :: ys)
  end.

(** Python's [<=] on two scalars: defined within a kind, a [TypeError]
    across kinds. *)
Definition py_le (a b : cell) : result bool :=
  match a, b with
  | Str x, Str y => Ok (String.leb x y)
  | Num x, Num y => Ok (F64.leb x y)
  | Date x, Date y => Ok (Z.leb x y)
  | _, _ => Raise TypeError
  end.

Definition py_ge (a b : cell) : result bool := py_le b a.

(** ** Series operations *)

(** [s == v], elementwise. *)
Definition series_eq (s : list cell) (v : cell) : list bool :=
  map (fun c => py_eq c v) s.

(** [s >= v] and [s <= v], elementwise. *)
Definition series_ge (s : list cell) (v : cell) : result (list bool) :=
  rmap (fun c => py_ge c v) s.

Definition series_le (s : list cell) (v : cell) : result (list bool) :=
  rmap (fun c => py_le c v) s.

(** [m1 & m2] on boolean series of one frame. *)
Definition mask_and (m1 m2 : list bool) : list bool :=
  zip_with andb m1 m2.

(** [s.str.lower()]: text is lowered, any other cell of the column becomes
    NaN. *)
Definition series_str_lower (s : list cell) : list cell :=
  map (fun c => match c with Str x => Str (lower x) | _ => NaN end) s.

(** [s.unique()]: the distinct values in order of first appearance. *)
Definition unique (s : list cell) : list cell :=
  fold_left (fun acc c => if bool_decide (c ∈ acc) then acc else acc ++ [c]) s [].

(** [x in map(str.lower, xs)]: the iterator is consumed until the first
    match, and [str.lower] raises [TypeError] on a value that is not text. *)
Fixpoint in_map_lower (x : string) (xs : list cell) : result bool :=
  match xs with
  | [] => Ok false
  | Str s :: t => if bool_decide (lower s = x) then Ok true else in_map_lower x t
  | _ :: _ => Raise TypeError
  end.

(** [s.min()] and [s.max()]: missing values are skipped, an empty series
    gives NaN. *)
Definition series_extremum (better : cell -> cell -> result bool) (s : list cell)
  : result cell :=
  fold_left
    (fun acc c =>
       m <-? acc ;;
       if is_na c then Ok m
       else if is_na m then Ok c
       else b <-? better c m ;; Ok (if b then c else m))
    s (Ok NaN).

Definition series_min : list cell -> result cell := series_extremum py_le.
Definition series_max : list cell -> result cell := series_extremum py_ge.

(** [s1 / s2] on two columns of one frame: float64 division, a [TypeError]
    on a cell that is not a number. *)
Definition cell_div (a b : cell) : result cell :=
  match a, b with
  | Num x, Num y => Ok (Num (F64.div x y))
  | _, _ => Raise TypeError
  end.

Fixpoint series_div (s1 s2 : list cell) : result (list cell) :=
  match s1, s2 with
  | a :: t1, b :: t2 => q <-? cell_div a b ;; qs <-? series_div t1 t2 ;; Ok (q :: qs)
  | _, _ => Ok []
  end.

(** [s.fillna(0)]. *)
Definition fillna0 (s : list cell) : list cell :=
  map (fun c => if is_na c then Num F64.zero else c) s.

(** [s.replace([np.inf, -np.inf], 0)]. *)
Definition replace_inf0 (s : list cell) : list cell :=
  map (fun c => match c with
                | Num x => if F64.is_inf x then Num F64.zero else c
                | _ => c
                end) s.

(** ** Group and sum *)

(** The order in which [groupby] lists its groups (its default is
    [sort=True]): within a kind the order of the values; in a column that
    mixes kinds, values that are not text come before text. *)
Definition cell_rank (c : cell) : nat :=
  match c with Num _ => 0 | Date _ => 1 | Str _ => 2 end%nat.

Definition cell_compare (a b : cell) : comparison :=
  match a, b with
  | Str x, Str y => String.compare x y
  | Num x, Num y => default Eq (SFcompare x y)
  | Date x, Date y => Z.compare x y
  | _, _ => Nat.compare (cell_rank a) (cell_rank b)
  end.

Fixpoint key_compare (k1 k2 : list cell) : comparison :=
  match k1, k2 with
  | [], [] => Eq
  | [], _ :: _ => Lt
  | _ :: _, [] => Gt
  | a :: t1, b :: t2 =>
      match cell_compare a b with
      | Eq => key_compare t1 t2
      | c => c
      end
  end.

Fixpoint insert_key (k : list cell) (l : list (list cell)) : list (list cell) :=
  match l with
  | [] => [k]
  | h :: t =>
      match key_compare k h with
      | Lt => k :: h :: t
      | _ => h :: insert_key k t
      end
  end.

Definition sort_keys (l : list (list cell)) : list (list cell) :=
  fold_right insert_key [] l.

(** The distinct key tuples, in order of first appearance. *)
Definition unique_keys (l : list (list cell)) : list (list cell) :=
  fold_left (fun acc k => if bool_decide (k ∈ acc) then acc else acc ++ [k]) l [].

Definition key_of (ks : list string) (r : row) : list cell :=
  map (fun k => cell_at k r) ks.

(** [+] on two objects, as [sum] uses it on a column of objects: float64
    addition on numbers, concatenation on text. *)
Definition cell_add (a b : cell) : result cell :=
  match a, b with
  | Num x, Num y => Ok (Num (F64.add x y))
  | Str x, Str y => Ok (Str (x +:+ y))
  | _, _ => Raise TypeError
  end.

(** One step of pandas' [group_sum] on a float64 column, a compensated
    (Kahan) summation with the state [(sumx, compensation)]:
    [y = val - compensation], [t = sumx + y],
    [compensation = t - sumx - y], reset to 0 when it is NaN, and
    [sumx = t]. *)
Definition kahan_step (st : spec_float * spec_float) (val : spec_float)
  : spec_float * spec_float :=
  let '(sumx, compensation) := st in
  let y := F64.sub val compensation in
  let t := F64.add sumx y in
  let c := F64.sub (F64.sub t sumx) y in
  (t, if F64.is_nan c then F64.zero else c).

(** The step on a cell: a value that is not a number cannot be added. *)
Definition sum_step (acc : result (spec_float * spec_float)) (c : cell)
  : result (spec_float * spec_float) :=
  st <-? acc ;;
  match c with
  | Num val => Ok (kahan_step st val)
  | _ => Raise TypeError
  end.

(** The sum of a column over one group: missing values are skipped, an
    empty sum is 0, numbers are summed from [(0, 0)] in row order with the
    compensation, text is concatenated, dates cannot be summed. *)
Definition sum_cells (cs : list cell) : result cell :=
  match filter (fun c => negb (is_na c)) cs with
  | [] => Ok (Num F64.zero)
  | Date _ :: _ => Raise TypeError
  | Num x :: t =>
      st <-? fold_left sum_step (Num x :: t) (Ok (F64.zero, F64.zero)) ;;
      Ok (Num (fst st))
  | Str x :: t =>
      fold_left (fun acc c => a <-? acc ;; cell_add a c) t (Ok (Str x))
  end.

Definition key_name (df : DataFrame) (k : label) : result string :=
  match k with
  | Col n => if bool_decide (n ∈ columns df) then Ok n else Raise (KeyError k)
  | _ => Raise (KeyError k)
  end.

(** The rows of one group, in the order of the frame. *)
Definition members (ks : list string) (g : list cell) (rs : list row) : list row :=
  filter (fun r => key_of ks r = g) rs.

(** [df.groupby(keys).sum(numeric_only=False).reset_index()]: rows with a
    missing key are dropped, one row per distinct key tuple in sorted order,
    the key columns first, then every other column summed over the group. *)
Definition groupby_sum (df : DataFrame) (keys : list label) : result DataFrame :=
  ks <-? rmap (key_name df) keys ;;
  let live := filter (fun r => forallb (fun c => negb (is_na c)) (key_of ks r)) (rows df) in
  let groups := sort_keys (unique_keys (map (key_of ks) live)) in
  let vcols := filter (fun c => c ∉ ks) (columns df) in
  rs <-? rmap (fun g =>
                 vals <-? rmap (fun c => sum_cells (map (cell_at c) (members ks g live))) vcols ;;
                 Ok (list_to_map (zip ks g ++ zip vcols vals) : row))
              groups ;;
  Ok (mkDataFrame (ks ++ vcols) rs).

(** ** Frames *)

(** [df[c]]: the column as a series, a [KeyError] when there is none. *)
Definition column (df : DataFrame) (c : label) : result (list cell) :=
  n <-? key_name df c ;; Ok (map (cell_at n) (rows df)).

(** The rows kept by a boolean series. *)
Fixpoint select {A} (xs : list A) (mask : list bool) : list A :=
  match xs, mask with
  | x :: xs', b :: mask' => if b then x :: select xs' mask' else select xs' mask'
  | _, _ => []
  end.

(** [df[c] = s]: the column is replaced, or added as the last one. *)
Definition set_column (df : DataFrame) (c : string) (s : list cell) : DataFrame :=
  mkDataFrame
    (if bool_decide (c ∈ columns df) then columns df else columns df ++ [c])
    (zip_with (fun r v => <[c := v]> r) (rows df) s).

(** ** The store, printed output and the chart emitter *)

Inductive printed :=
| PText (s : string)
| PCell (c : cell)
| PFrame (df : DataFrame).

Abbreviation loc := nat.

Record world := mkWorld {
  heap : list DataFrame;
  stdout : list printed
}.

Definition M (A : Type) : Type := world -> result A * world.

Definition ret {A} (a : A) : M A := fun w => (Ok a, w).

Definition raise {A} (e : exn) : M A := fun w => (Raise e, w).

Definition bind {A B} (m : M A) (k : A -> M B) : M B :=
  fun w =>
    match m w with
    | (Ok a, w') => k a w'
    | (Raise e, w') => (Raise e, w')
    end.

Notation "x <- m ;; k" := (bind m (fun x => k))
  (at level 62, m at next level, right associativity).
Notation "m ;;; k" := (bind m (fun _ => k))
  (at level 62, right associativity).

(** [try: body except Exception: handler]. *)
Definition try_except {A} (body : M A) (handler : exn -> M A) : M A :=
  fun w =>
    match body w with
    | (Ok a, w') => (Ok a, w')
    | (Raise e, w') => handler e w'
    end.

Definition lift {A} (r : result A) : M A := fun w => (r, w).

Definition deref (l : loc) : M DataFrame :=
  fun w =>
    match heap w !! l with
    | Some df => (Ok df, w)
    | None => (Raise SystemError, w)
    end.

Definition alloc (df : DataFrame) : M loc :=
  fun w => (Ok (length (heap w)), mkWorld (heap w ++ [df]) (stdout w)).

Definition print (p : printed) : M unit :=
  fun w => (Ok tt, mkWorld (heap w) (stdout w ++ [p])).

Fixpoint for_each {A} (f : A -> M unit) (l : list A) : M unit :=
  match l with
  | [] => ret tt
  | x :: t => f x ;;; for_each f t
  end.

(** Reading a local variable that may not have been assigned. *)
Definition local {A} (name : string) (v : option A) : M A :=
  match v with
  | Some a => ret a
  | None => raise (UnboundLocalError name)
  end.

(** [df[c]]. *)
Definition getitem (l : loc) (c : label) : M (list cell) :=
  df <- deref l ;; lift (column df c).

(** [df[mask]]: boolean indexing gives a new frame; a mask of another
    length is a [ValueError]. *)
Definition getitem_mask (l : loc) (mask : list bool) : M loc :=
  df <- deref l ;;
  if bool_decide (length mask = length (rows df))
  then alloc (mkDataFrame (columns df) (select (rows df) mask))
  else raise ValueError.

(** [df[c] = s]: an update in place of the frame behind [l]. *)
Definition setitem (l : loc) (c : string) (s : list cell) : M unit :=
  df <- deref l ;;
  if bool_decide (length s = length (rows df))
  then fun w => (Ok tt, mkWorld (<[l := set_column df c s]> (heap w)) (stdout w))
  else raise ValueError.

(** [df.copy()]. *)
Definition copy (l : loc) : M loc :=
  df <- deref l ;; alloc df.

(** [df.groupby(keys).sum(...).reset_index()], a new frame. *)
Definition groupby_sum_reset_index (l : loc) (keys : list label) : M loc :=
  df <- deref l ;; g <- lift (groupby_sum df keys) ;; alloc g.

(** A figure is the list of its traces; a trace holds the series it was
    given.  Titles and axis labels do not read the table and are left out. *)
Record trace := mkTrace {
  trace_name : string;
  trace_x : list cell;
  trace_y : list cell
}.

Record figure := mkFigure { traces : list trace }.

(** [go.Scatter(x=..., y=..., name=...)]. *)
Definition go_Scatter (x y : list cell) (name : string) : trace := mkTrace name x y.

(** [fig.add_trace(t, ...)]. *)
Definition add_trace (fig : figure) (t : trace) : figure :=
  mkFigure (traces fig ++ [t]).

(** [make_subplots(...)]: a figure without traces. *)
Definition make_subplots : figure := mkFigure [].

(** The [y] argument of [px.line]: one column name, or a list of them. *)
Inductive y_columns :=
| OneColumn (y : label)
| ColumnList (ys : list label).

Definition label_text (c : label) : string :=
  match c with Col n => n | _ => "" end.

(** One trace of a plotly express figure: the two columns over the frame's
    rows, a [ValueError] when a column is not in the frame. *)
Definition px_trace (df : DataFrame) (name : string) (x y : label) : result trace :=
  match column df x, column df y with
  | Ok sx, Ok sy => Ok (mkTrace name sx sy)
  | _, _ => Raise ValueError
  end.

(** [px.line(df, x=x, y=y)]: for a single column one trace without a name,
    for a list of columns one trace per column, named after it. *)
Definition px_traces (df : DataFrame) (x : label) (y : y_columns) : result (list trace) :=
  match y with
  | OneColumn c => t <-? px_trace df "" x c ;; Ok [t]
  | ColumnList cs => rmap (fun c => px_trace df (label_text c) x c) cs
  end.

Definition px_line (l : loc) (x : label) (y : y_columns) : M figure :=
  df <- deref l ;;
  ts <- lift (px_traces df x y) ;;
  ret (mkFigure ts).

(** [px.scatter(df, x=x, y=y)] reads the table as [px.line] does. *)
Definition px_scatter (l : loc) (x y : label) : M figure := px_line l x (OneColumn y).

(** ** The plotting functions *)

(** The cost-per-activity column, written the same way at lines 90-93,
    233-236 and 391-392:
    [temp["cost_per_act"] = temp["Spend"] / temp["Activity"]] and then
    [temp["cost_per_act"] = temp["cost_per_act"].fillna(0).replace([np.inf, -np.inf], 0)]. *)
Definition add_cost_per_act (temp : loc) : M unit :=
  spend <- getitem temp (Col "Spend") ;;
  activity <- getitem temp (Col "Activity") ;;
  q <- lift (series_div spend activity) ;;
  setitem temp "cost_per_act" q ;;;
  c <- getitem temp (Col "cost_per_act") ;;
  setitem temp "cost_per_act" (replace_inf0 (fillna0 c)).

(** The two charts of the dashboard callbacks (lines 95-133 and 238-276);
    [fig] is assigned in neither branch for another [plot_type]. *)
Definition spend_activity_figures (temp : loc) (date_col : label) (plot_type : string)
  : M (figure * figure) :=
  cpm_fig <- px_line temp date_col (OneColumn (Col "cost_per_act")) ;;
  fig <- (if bool_decide (plot_type = "Time Series") then
            x1 <- getitem temp date_col ;;
            y1 <- getitem temp (Col "Spend") ;;
            x2 <- getitem temp date_col ;;
            y2 <- getitem temp (Col "Activity") ;;
            ret (Some (add_trace (add_trace make_subplots (go_Scatter x1 y1 "Spends"))
                                 (go_Scatter x2 y2 "Activity")))
          else if bool_decide (plot_type = "Scatter Plot") then
            f <- px_scatter temp (Col "Activity") (Col "Spend") ;;
            ret (Some f)
          else ret None) ;;
  fig <- local "fig" fig ;;
  ret (fig, cpm_fig).

(** The mask of lines 84-87 (and 195-198, 214-217): exact equality on the
    two text columns and the inclusive date range. *)
Definition exact_mask (data : loc) (date_col : label)
    (touchpoint activity start_date end_date : cell) : M (list bool) :=
  vd <- getitem data (Col "variable_description") ;;
  act <- getitem data (Col "activity_type") ;;
  d1 <- getitem data date_col ;;
  ge <- lift (series_ge d1 start_date) ;;
  d2 <- getitem data date_col ;;
  le <- lift (series_le d2 end_date) ;;
  ret (mask_and (mask_and (mask_and (series_eq vd touchpoint) (series_eq act activity)) ge) le).

Module get_spend_vs_activity_plot_interact.

Definition group_keys (date_col : label) : list label :=
    [date_col; Col "variable_activity_root"; Col "variable_description"; Col "activity_type"].

  (** The callback registered when [group_col is None] (lines 82-133);
      [working_table] is its Row Filter (lines 83-88). *)
Module no_group.
Definition working_table (data : loc) (date_col : label)
        (touchpoint activity start_date end_date : cell) : M loc :=
      mask <- exact_mask data date_col touchpoint activity start_date end_date ;;
      getitem_mask data mask.

Definition update_graph1 (data : loc) (date_col : label)
        (touchpoint activity : cell) (plot_type : string) (start_date end_date : cell)
      : M (figure * figure) :=
      temp <- working_table data date_col touchpoint activity start_date end_date ;;
      add_cost_per_act temp ;;;
      spend_activity_figures temp date_col plot_type.
End no_group.

  (** The callback registered for a group column (lines 192-276);
      [working_table] is its Row Filter and Aggregator (lines 193-231). *)
Module with_group.
Definition working_table (data : loc) (date_col group_col : label)
        (touchpoint activity geo start_date end_date : cell) : M loc :=
      if py_eq geo (Str "all_values") then
        mask <- exact_mask data date_col touchpoint activity start_date end_date ;;
        temp <- getitem_mask data mask ;;
        groupby_sum_reset_index temp (group_keys date_col)
      else
        mask <- exact_mask data date_col touchpoint activity start_date end_date ;;
        temp <- getitem_mask data mask ;;
        g <- getitem temp group_col ;;
        temp <- getitem_mask temp (series_eq g geo) ;;
        groupby_sum_reset_index temp (group_keys date_col).

Definition update_graph1 (data : loc) (date_col group_col : label)
        (touchpoint activity : cell) (plot_type : string) (geo start_date end_date : cell)
      : M (figure * figure) :=
      temp <- working_table data date_col group_col touchpoint activity geo
                start_date end_date ;;
      add_cost_per_act temp ;;;
      spend_activity_figures temp date_col plot_type.
End with_group.

End get_spend_vs_activity_plot_interact.

(** The validator's message (lines 335-340, 353-358); line 588 spells the
    second line differently. *)
Definition not_available (value second_line : string) : string :=
  "'" +:+ value +:+ "' activity type is not available for the given variable"
      +:+ nl +:+ second_line.

Definition availabale : string := "        The availabale activities are: ".
Definition available : string := "        The available activities are: ".

(** [t[i]] on a tuple. *)
Definition tuple_get {A} (t : list A) (i : nat) : M A :=
  match t !! i with
  | Some a => ret a
  | None => raise IndexError
  end.

(** The mask of lines 365-374 (and 378-387): equality of the lowered text
    columns with the lowered selectors and the inclusive date range. *)
Definition lower_mask (data : loc) (date_col : label)
    (variable_description activity_type : string) (start_date end_date : cell)
  : M (list bool) :=
  vd <- getitem data (Col "variable_description") ;;
  act <- getitem data (Col "activity_type") ;;
  d1 <- getitem data date_col ;;
  ge <- lift (series_ge d1 start_date) ;;
  d2 <- getitem data date_col ;;
  le <- lift (series_le d2 end_date) ;;
  ret (mask_and
         (mask_and
            (mask_and (series_eq (series_str_lower vd) (Str (lower variable_description)))
                      (series_eq (series_str_lower act) (Str (lower activity_type))))
            ge)
         le).

(** The date range of [get_spend_vs_activity_plot] (lines 326-331). *)
Definition date_bounds (spend_activity_data : loc) (date_range : list cell)
    (date_col : label) : M (cell * cell) :=
  if bool_decide (length date_range = 0%nat) then
    d1 <- getitem spend_activity_data date_col ;;
    start_date <- lift (series_min d1) ;;
    d2 <- getitem spend_activity_data date_col ;;
    end_date <- lift (series_max d2) ;;
    ret (start_date, end_date)
  else
    start_date <- tuple_get date_range 0 ;;
    end_date <- tuple_get date_range 1 ;;
    ret (start_date, end_date).

(** The Row Filter of [get_spend_vs_activity_plot] (lines 363-389). *)
Definition spend_activity_working_table (spend_activity_data : loc)
    (variable_description activity_type : string) (start_date end_date : cell)
    (date_col group_col : label) (group_value : option cell) : M loc :=
  match group_value with
  | None =>
      mask <- lower_mask spend_activity_data date_col
                variable_description activity_type start_date end_date ;;
      getitem_mask spend_activity_data mask
  | Some v =>
      mask <- lower_mask spend_activity_data date_col
                variable_description activity_type start_date end_date ;;
      g <- getitem spend_activity_data group_col ;;
      getitem_mask spend_activity_data (mask_and mask (series_eq g v))
  end.

(** [get_spend_vs_activity_plot] (lines 282-449).  [date_range] is the
    tuple, [group_value = None] is Python's [None]. *)
Definition get_spend_vs_activity_plot (spend_activity_data : loc)
    (variable_description activity_type : string) (date_range : list cell)
    (date_col group_col : label) (group_value : option cell) : M (option figure) :=
  range <- date_bounds spend_activity_data date_range date_col ;;
  let '(start_date, end_date) := range in
  vd <- getitem spend_activity_data (Col "variable_description") ;;
  let variable_descriptions := unique vd in
  found <- lift (in_map_lower (lower variable_description) variable_descriptions) ;;
  if negb found then
    print (PText (not_available variable_description availabale)) ;;;
    for_each (fun variable => print (PCell variable)) variable_descriptions ;;;
    ret None
  else
    vd <- getitem spend_activity_data (Col "variable_description") ;;
    sub <- getitem_mask spend_activity_data
             (series_eq (series_str_lower vd) (Str (lower variable_description))) ;;
    acts <- getitem sub (Col "activity_type") ;;
    let unique_activities := unique acts in
    found <- lift (in_map_lower (lower activity_type) unique_activities) ;;
    if negb found then
      print (PText (not_available activity_type availabale)) ;;;
      for_each (fun activity => print (PCell activity)) unique_activities ;;;
      ret None
    else
      temp <- spend_activity_working_table spend_activity_data
                variable_description activity_type start_date end_date
                date_col group_col group_value ;;
      add_cost_per_act temp ;;;
      x1 <- getitem temp date_col ;;
      y1 <- getitem temp (Col "Spend") ;;
      let fig := add_trace make_subplots (go_Scatter x1 y1 "Spends") in
      x2 <- getitem temp date_col ;;
      y2 <- getitem temp (Col "Activity") ;;
      let fig := add_trace fig (go_Scatter x2 y2 ("Activity (" +:+ activity_type +:+ ")")) in
      x3 <- getitem temp date_col ;;
      y3 <- getitem temp (Col "cost_per_act") ;;
      let fig := add_trace fig (go_Scatter x3 y3 "Cost_Per_Activity") in
      ret (Some fig).

(** The default of [date_col] at line 287 is the builtin [str]; the
    default of [date_range] is the empty tuple, of [group_col] and
    [group_value] it is [None]. *)
Definition date_col_default : label := BuiltinStr.

Module get_quarterly_spends_plot_interact.

  (** The callback registered when [group_col is None] (lines 495-503);
      [working_table] is line 496. *)
Module no_group.
Definition working_table (data : loc) (touchpoint : cell) : M loc :=
      vd <- getitem data (Col "variable_description") ;;
      getitem_mask data (series_eq vd touchpoint).

Definition update_graph1 (data : loc) (touchpoint : cell) : M figure :=
      temp <- working_table data touchpoint ;;
      px_line temp (Col "YEAR_QTR") (OneColumn (Col "value")).
End no_group.

  (** The callback registered for a group column (lines 534-548);
      [working_table] is lines 535-541. *)
Module with_group.
Definition working_table (data : loc) (group_col : label) (touchpoint geo : cell)
      : M loc :=
      if py_eq geo (Str "all_values") then
        vd <- getitem data (Col "variable_description") ;;
        temp <- getitem_mask data (series_eq vd touchpoint) ;;
        groupby_sum_reset_index temp [Col "YEAR_QTR"]
      else
        vd <- getitem data (Col "variable_description") ;;
        temp <- getitem_mask data (series_eq vd touchpoint) ;;
        g <- getitem temp group_col ;;
        temp <- getitem_mask temp (series_eq g geo) ;;
        groupby_sum_reset_index temp [Col "YEAR_QTR"].

Definition update_graph1 (data : loc) (group_col : label) (touchpoint geo : cell)
      : M figure :=
      temp <- working_table data group_col touchpoint geo ;;
      px_line temp (Col "YEAR_QTR") (OneColumn (Col "value")).
End with_group.

End get_quarterly_spends_plot_interact.

(** The Row Filter and Aggregator of [get_quarterly_spends_plot]
    (lines 598-609). *)
Definition quarterly_working_table (quarterly_spend_data : loc) (group_col : label)
    (spend_variable_description : string) (group_value : option cell) : M loc :=
  match group_value with
  | None =>
      vd <- getitem quarterly_spend_data (Col "variable_description") ;;
      temp <- getitem_mask quarterly_spend_data
                (series_eq vd (Str spend_variable_description)) ;;
      groupby_sum_reset_index temp [Col "YEAR_QTR"]
  | Some v =>
      vd <- getitem quarterly_spend_data (Col "variable_description") ;;
      temp <- getitem_mask quarterly_spend_data
                (series_eq vd (Str spend_variable_description)) ;;
      g <- getitem temp group_col ;;
      temp <- getitem_mask temp (series_eq g v) ;;
      groupby_sum_reset_index temp [Col "YEAR_QTR"]
  end.

(** [get_quarterly_spends_plot] (lines 554-617). *)
Definition get_quarterly_spends_plot (quarterly_spend_data : loc) (group_col : label)
    (spend_variable_description : string) (group_value : option cell) : M (option figure) :=
  vd <- getitem quarterly_spend_data (Col "variable_description") ;;
  let spend_variables := unique vd in
  found <- lift (in_map_lower (lower spend_variable_description) spend_variables) ;;
  if negb found then
    print (PText (not_available spend_variable_description available)) ;;;
    for_each (fun variable => print (PCell variable)) spend_variables ;;;
    ret None
  else
    temp <- quarterly_working_table quarterly_spend_data group_col
              spend_variable_description group_value ;;
    fig <- px_line temp (Col "YEAR_QTR") (OneColumn (Col "value")) ;;
    ret (Some fig).

(** [np.exp] on a float64 is a library function; the functions that call
    it take it as their first argument. *)
Definition series_exp (np_exp : spec_float -> spec_float) (s : list cell)
  : result (list cell) :=
  rmap (fun c => match c with
                 | Num x => Ok (Num (np_exp x))
                 | _ => Raise TypeError
                 end) s.

(** Lines 655-657 and 746-748. *)
Definition exp_columns (np_exp : spec_float -> spec_float) (data : loc) : M unit :=
  a <- getitem data (Col "actuals") ;;
  a' <- lift (series_exp np_exp a) ;;
  setitem data "actuals" a' ;;;
  p <- getitem data (Col "preds") ;;
  p' <- lift (series_exp np_exp p) ;;
  setitem data "preds" p'.

Module get_actual_vs_predicted_plot_interact.

  (** The part of [get_actual_vs_predicted_plot_interact] that is run
      before the server is started (lines 653-675): the copy the callback
      closes over; the dropdown reads the group column. *)
Definition setup (np_exp : spec_float -> spec_float)
      (act_vs_preds : loc) (group_col : label) (is_log : bool) : M loc :=
    data <- copy act_vs_preds ;;
    (if is_log then exp_columns np_exp data else ret tt) ;;;
    _ <- getitem data group_col ;;
    ret data.

  (** The callback (lines 679-696); [working_table] is lines 680-683. *)
Definition working_table (data : loc) (date_col group_col : label) (selected_g : cell)
    : M loc :=
    if py_eq selected_g (Str "select_all") then
      groupby_sum_reset_index data [date_col]
    else
      g <- getitem data group_col ;;
      getitem_mask data (series_eq g selected_g).

Definition update_figure (data : loc) (date_col group_col : label) (selected_g : cell)
    : M figure :=
    filtered_df <- working_table data date_col group_col selected_g ;;
    px_line filtered_df date_col (ColumnList [Col "actuals"; Col "preds"]).

End get_actual_vs_predicted_plot_interact.

(** Lines 750-757 of [get_actual_vs_predicted_plot]: the value of the
    local variable [filtered_df] afterwards, [None] when it was left
    unassigned.  The test of line 750,
    [group_value == "all" or group_value is None], is the first two cases of
    the match. *)
Definition actual_vs_predicted_working_table (data : loc) (date_col group_col : label)
    (group_value : option cell) : M (option loc) :=
  match group_value with
  | None =>
      f <- groupby_sum_reset_index data [date_col] ;; ret (Some f)
  | Some v =>
      if py_eq v (Str "all") then
        f <- groupby_sum_reset_index data [date_col] ;; ret (Some f)
      else
        try_except
          (g <- getitem data group_col ;;
           f <- getitem_mask data (series_eq g v) ;;
           df <- deref f ;;
           print (PFrame df) ;;;
           ret (Some f))
          (fun e => print (PText "Please enter a valid group column name") ;;;
                    ret None)
  end.

(** [get_actual_vs_predicted_plot] (lines 701-770). *)
Definition get_actual_vs_predicted_plot (np_exp : spec_float -> spec_float)
    (act_vs_preds : loc) (date_col : label)
    (dv_col : string) (is_log : bool) (group_col : label) (group_value : option cell)
  : M (option figure) :=
  data <- copy act_vs_preds ;;
  (if is_log then exp_columns np_exp data else ret tt) ;;;
  filtered_df <- actual_vs_predicted_working_table data date_col group_col group_value ;;
  filtered_df <- local "filtered_df" filtered_df ;;
  fig <- px_line filtered_df date_col (ColumnList [Col "actuals"; Col "preds"]) ;;
  ret (Some fig).

(** ** Vocabulary of the statements *)

(** *** Rows and masks *)

(** The float64 in a cell, NaN for a cell that holds no number. *)
Definition num_at (c : string) (r : row) : spec_float :=
  match cell_at c r with Num x => x | _ => F64.nan end.

(** The truth value of a comparison that may raise. *)
Definition holds (r : result bool) : bool :=
  match r with Ok b => b | Raise _ => false end.

(** The date cell of a row can be compared with both bounds. *)
Definition comparable (date : string) (start_date end_date : cell) (r : row) : Prop :=
  (exists b, py_ge (cell_at date r) start_date = Ok b) /\
  (exists b, py_le (cell_at date r) end_date = Ok b).

(** What [.str.lower()] makes of a cell. *)
Definition lowered (c : cell) : cell :=
  match c with Str x => Str (lower x) | _ => NaN end.

(** The row-wise reading of the mask of the dashboard callbacks. *)
Definition exact_pred (date : string) (touchpoint activity start_date end_date : cell)
    (r : row) : bool :=
  py_eq (cell_at "variable_description" r) touchpoint
  && py_eq (cell_at "activity_type" r) activity
  && holds (py_ge (cell_at date r) start_date)
  && holds (py_le (cell_at date r) end_date).

(** The row-wise reading of the mask of [get_spend_vs_activity_plot]. *)
Definition lower_pred (date : string) (variable_description activity_type : string)
    (start_date end_date : cell) (r : row) : bool :=
  py_eq (lowered (cell_at "variable_description" r)) (Str (lower variable_description))
  && py_eq (lowered (cell_at "activity_type" r)) (Str (lower activity_type))
  && holds (py_ge (cell_at date r) start_date)
  && holds (py_le (cell_at date r) end_date).

(** Equality with the requested group, as line 219 and its siblings test
    it. *)
Definition in_group (group : string) (v : cell) (r : row) : bool :=
  py_eq (cell_at group r) v.

(** Exact equality of the variable description (lines 496, 536, 600). *)
Definition has_description (v : cell) (r : row) : bool :=
  py_eq (cell_at "variable_description" r) v.

(** The rows whose variable description is the requested one up to case
    (lines 345-350). *)
Definition described (variable_description : string) (r : row) : bool :=
  py_eq (lowered (cell_at "variable_description" r)) (Str (lower variable_description)).

(** The frame with the rows of [df] that satisfy [p]. *)
Definition restrict (p : row -> bool) (df : DataFrame) : DataFrame :=
  mkDataFrame (columns df) (filter (fun r => p r) (rows df)).

(** *** Runs *)

(** The table a computation returns: the frame behind the reference it
    evaluates to, or the exception it raises. *)
Definition frame_of (m : M loc) (w : world) : result DataFrame :=
  match m w with
  | (Ok l, w') =>
      match heap w' !! l with
      | Some df => Ok df
      | None => Raise SystemError
      end
  | (Raise e, _) => Raise e
  end.

(** The frame [get_actual_vs_predicted_plot] plots: the value of
    [filtered_df] when line 759 reads it. *)
Definition plotted_table (data : loc) (date_col group_col : label)
    (group_value : option cell) : M loc :=
  filtered_df <- actual_vs_predicted_working_table data date_col group_col group_value ;;
  local "filtered_df" filtered_df.

(** [group_value == "all" or group_value is None]. *)
Definition all_groups (group_value : option cell) : bool :=
  match group_value with
  | None => true
  | Some v => py_eq v (Str "all")
  end.

(** The frames that exist below reference [n] are the same in [w'] as in
    [w], and no frame was removed. *)
Definition frames_kept (n : nat) (w w' : world) : Prop :=
  (length (heap w) <= length (heap w'))%nat /\
  forall l, (l < n)%nat -> heap w' !! l = heap w !! l.

(** A computation that leaves every frame below [n] as it is, whatever
    its outcome, and whose value satisfies [Q] when it returns. *)
Definition keeps {A} (n : nat) (m : M A) (Q : A -> Prop) : Prop :=
  forall w, (n <= length (heap w))%nat ->
    frames_kept n w (snd (m w)) /\ forall a, fst (m w) = Ok a -> Q a.

(** A reference that was allocated at or after [n]. *)
Definition fresh (n : nat) (l : loc) : Prop := (n <= l)%nat.

Definition anything {A} (a : A) : Prop := True.

(** *** The derived metric *)

(** The value [fillna(0).replace([inf, -inf], 0)] leaves for a quotient. *)
Definition cleaned (q : spec_float) : spec_float :=
  if F64.is_nan q then F64.zero else if F64.is_inf q then F64.zero else q.

(** A row after lines 391-392. *)
Definition with_cost_per_act (r : row) : row :=
  <["cost_per_act" := Num (cleaned (F64.div (num_at "Spend" r) (num_at "Activity" r)))]> r.

(** *** Groups and sums *)

(** A key tuple without a missing value. *)
Definition no_missing (k : list cell) : bool :=
  forallb (fun c => negb (is_na c)) k.

(** The float64 values of a column that are not missing, in row order. *)
Definition present (cs : list cell) : list spec_float :=
  omap (fun c => match c with
                 | Num x => if F64.is_nan x then None else Some x
                 | _ => None
                 end) cs.

(** The compensated float64 sum of a list of values in the order of the
    list, and the plain left-to-right sum it is compared with. *)
Definition group_sum (xs : list spec_float) : spec_float :=
  fst (fold_left kahan_step xs (F64.zero, F64.zero)).

Definition plain_sum (xs : list spec_float) : spec_float :=
  fold_left F64.add xs F64.zero.

(** A column that [sum] accepts: numbers only, or text only. *)
Definition summable (c : string) (rs : list row) : Prop :=
  (forall r, r ∈ rs -> exists x, cell_at c r = Num x) \/
  (forall r, r ∈ rs -> exists s, cell_at c r = Str s).

(** One step of [unique]: a value is appended unless it was seen. *)
Definition distinct_step {A} `{EqDecision A} (acc : list A) (x : A) : list A :=
  if bool_decide (x ∈ acc) then acc else acc ++ [x].

(** The rows [groupby] keeps: those without a missing key. *)
Definition live_rows (ks : list string) (df : DataFrame) : list row :=
  filter (fun r => forallb (fun c => negb (is_na c)) (key_of ks r)) (rows df).

(** The groups of a frame, in the order of the result. *)
Definition group_list (ks : list string) (df : DataFrame) : list (list cell) :=
  sort_keys (unique_keys (map (key_of ks) (live_rows ks df))).

(** The columns that are summed. *)
Definition value_columns (ks : list string) (df : DataFrame) : list string :=
  filter (fun c => c ∉ ks) (columns df).

(** *** The exponential transform *)

(** A row after lines 747-748. *)
Definition exp_row (np_exp : spec_float -> spec_float) (r : row) : row :=
  <["preds" := Num (np_exp (num_at "preds" r))]>
    (<["actuals" := Num (np_exp (num_at "actuals" r))]> r).

Definition exp_frame (np_exp : spec_float -> spec_float) (df : DataFrame) : DataFrame :=
  mkDataFrame (columns df) (map (exp_row np_exp) (rows df)).

(** The copy of the table after lines 746-748. *)
Definition scaled (np_exp : spec_float -> spec_float) (is_log : bool) (df : DataFrame)
  : DataFrame :=
  if is_log then exp_frame np_exp df else df.

(** The value that is summed for a row. *)
Definition scaled_value (np_exp : spec_float -> spec_float) (is_log : bool)
    (c : string) (r : row) : cell :=
  Num (if is_log then np_exp (num_at c r) else num_at c r).

(** The chart of line 759 for the table [g]. *)
Definition fit_figure (date : string) (g : DataFrame) : figure :=
  mkFigure [mkTrace "actuals" (map (cell_at date) (rows g)) (map (cell_at "actuals") (rows g));
            mkTrace "preds" (map (cell_at date) (rows g)) (map (cell_at "preds") (rows g))].

(** A stand-in for [np.exp] that is right at 0, where [np.exp] is 1. *)
Definition exp_at_zero (x : spec_float) : spec_float :=
  if F64.is_zero x then F64.of_Z 1 else x.

(** ** Example tables *)

(** The end-to-end scenario of the specification: three rows of TV
    impressions with Spend 100, 0, 50 and Activity 10, 0, 0. *)
Definition scenario_row (d spend activity : Z) : row :=
  list_to_map [("date", Date d); ("variable_description", Str "TV");
               ("activity_type", Str "Impressions");
               ("Spend", Num (F64.of_Z spend)); ("Activity", Num (F64.of_Z activity))].

Definition scenario_frame : DataFrame :=
  mkDataFrame ["date"; "variable_description"; "activity_type"; "Spend"; "Activity"]
              [scenario_row 1 100 10; scenario_row 2 0 0; scenario_row 3 50 0].

Definition scenario_world : world := mkWorld [scenario_frame] [].

(** A finite Spend of 2^1023 over a finite, non-zero Activity of 1/2. *)
Definition overflow_frame : DataFrame :=
  mkDataFrame ["Spend"; "Activity"]
    [list_to_map [("Spend", Num (SFldexp F64.prec F64.emax (F64.of_Z 1) 1023));
                  ("Activity", Num (SFldexp F64.prec F64.emax (F64.of_Z 1) (-1)))]].

(** A table with two variables and an activity type for each. *)
Definition media_row (d : Z) (variable activity : string) (spend act : Z) : row :=
  list_to_map [("date", Date d); ("variable_description", Str variable);
               ("activity_type", Str activity);
               ("Spend", Num (F64.of_Z spend)); ("Activity", Num (F64.of_Z act))].

Definition media_frame : DataFrame :=
  mkDataFrame ["date"; "variable_description"; "activity_type"; "Spend"; "Activity"]
              [media_row 1 "TV" "Impressions" 100 10; media_row 1 "Radio" "Spots" 40 8].

Definition media_world : world := mkWorld [media_frame] [].

(** Two rows with identical keys, (Spend=10, Activity=2) and (Spend=5,
    Activity=3), and the row they collapse to. *)
Definition spend_row (d : Z) (spend activity : Z) : row :=
  list_to_map [("date", Date d); ("variable_activity_root", Str "tv_imp");
               ("variable_description", Str "TV"); ("activity_type", Str "Impressions");
               ("Spend", Num (F64.of_Z spend)); ("Activity", Num (F64.of_Z activity))].

Definition spend_columns : list string :=
  ["date"; "variable_activity_root"; "variable_description"; "activity_type";
   "Spend"; "Activity"].

Definition two_rows_frame : DataFrame :=
  mkDataFrame spend_columns [spend_row 1 10 2; spend_row 1 5 3].

Definition one_row_frame : DataFrame :=
  mkDataFrame spend_columns [spend_row 1 15 5].

(** A quarterly table: two groups in the first quarter, one in the second. *)
Definition quarter_row (q region : string) (value : Z) : row :=
  list_to_map [("YEAR_QTR", Str q); ("variable_description", Str "TV");
               ("region", Str region); ("value", Num (F64.of_Z value))].

Definition quarterly_frame : DataFrame :=
  mkDataFrame ["YEAR_QTR"; "variable_description"; "region"; "value"]
              [quarter_row "2021Q1" "north" 10; quarter_row "2021Q1" "north" 5;
               quarter_row "2021Q1" "south" 7; quarter_row "2021Q2" "north" 1].

Definition quarterly_world : world := mkWorld [quarterly_frame] [].

(** A table of actuals and predictions on the log scale, with a [region]
    column. *)
Definition fit_row (d : Z) (region : string) (actual pred : Z) : row :=
  list_to_map [("date", Date d); ("region", Str region);
               ("actuals", Num (F64.of_Z actual)); ("preds", Num (F64.of_Z pred))].

Definition fit_frame : DataFrame :=
  mkDataFrame ["date"; "region"; "actuals"; "preds"]
              [fit_row 1 "north" 0 0; fit_row 1 "south" 0 0; fit_row 2 "north" 0 0].

Definition fit_world : world := mkWorld [fit_frame] [].

(** ** Vocabulary of the further properties *)

(** A column of a frame, as a series. *)
Definition column_of (c : string) (t : DataFrame) : list cell :=
  map (cell_at c) (rows t).

(** The working table after the Derived Metric Calculator. *)
Definition derived (t : DataFrame) : DataFrame :=
  mkDataFrame (if bool_decide ("cost_per_act" ∈ columns t) then columns t
               else columns t ++ ["cost_per_act"])
              (map with_cost_per_act (rows t)).

(** The figure of lines 393-426 over the table [t]. *)
Definition spend_activity_figure (date activity_type : string) (t : DataFrame) : figure :=
  mkFigure [mkTrace "Spends" (column_of date t) (column_of "Spend" t);
            mkTrace ("Activity (" +:+ activity_type +:+ ")")
                    (column_of date t) (column_of "Activity" t);
            mkTrace "Cost_Per_Activity" (column_of date t) (column_of "cost_per_act" t)].

(** The filter of [get_spend_vs_activity_plot] as a predicate on rows,
    for a group value or for [None]. *)
Definition static_pred (date : string) (variable_description activity_type : string)
    (start_date end_date : cell) (group_col : label) (group_value : option cell)
    (r : row) : bool :=
  match group_value with
  | None => lower_pred date variable_description activity_type start_date end_date r
  | Some v =>
      lower_pred date variable_description activity_type start_date end_date r
      && in_group (label_text group_col) v r
  end.

(** Spend and Activity hold numbers in every row. *)
Definition numeric_measures (rs : list row) : Prop :=
  forall r, r ∈ rs -> exists s a, cell_at "Spend" r = Num s /\ cell_at "Activity" r = Num a.


(** A column that holds text in every row. *)
Definition text_column (c : string) (rs : list row) : Prop :=
  forall r, r ∈ rs -> exists s, cell_at c r = Str s.

(** The group column is a column of the table when a group is requested. *)
Definition group_column_ok (df : DataFrame) (group_col : label) (group_value : option cell)
  : Prop :=
  match group_value with
  | None => True
  | Some _ => exists g, group_col = Col g /\ g ∈ columns df
  end.

(** The date column holds dates in every row. *)
Definition date_column (c : string) (rs : list row) : Prop :=
  forall r, r ∈ rs -> exists z, cell_at c r = Date z.

(** The two text predicates of the filter of [get_spend_vs_activity_plot],
    without the date range. *)
Definition text_pred (variable_description activity_type : string) (r : row) : bool :=
  py_eq (lowered (cell_at "variable_description" r)) (Str (lower variable_description))
  && py_eq (lowered (cell_at "activity_type" r)) (Str (lower activity_type)).


(** The date in a cell, 0 for a cell that holds no date. *)
Definition date_at (c : string) (r : row) : Z :=
  match cell_at c r with Date z => z | _ => 0 end.


(** The figures of the dashboard callback over the table [t]: the
    cost-per-activity line (lines 95-97), the time series (lines 100-111)
    and the scatter plot (lines 124-128). *)
Definition cost_figure (date : string) (t : DataFrame) : figure :=
  mkFigure [mkTrace "" (column_of date t) (column_of "cost_per_act" t)].

Definition time_series_figure (date : string) (t : DataFrame) : figure :=
  mkFigure [mkTrace "Spends" (column_of date t) (column_of "Spend" t);
            mkTrace "Activity" (column_of date t) (column_of "Activity" t)].

Definition scatter_figure (t : DataFrame) : figure :=
  mkFigure [mkTrace "" (column_of "Activity" t) (column_of "Spend" t)].


(** A cell that is not text, such as a missing value. *)
Definition not_text (c : cell) : Prop := forall s, c <> Str s.

(** A table whose variable description is missing in its second row. *)
Definition gap_frame : DataFrame :=
  mkDataFrame ["YEAR_QTR"; "variable_description"; "value"]
    [list_to_map [("YEAR_QTR", Str "2021Q1"); ("variable_description", Str "TV");
                  ("value", Num (F64.of_Z 10))];
     list_to_map [("YEAR_QTR", Str "2021Q1"); ("variable_description", NaN);
                  ("value", Num (F64.of_Z 5))];
     list_to_map [("YEAR_QTR", Str "2021Q2"); ("variable_description", Str "Radio");
                  ("value", Num (F64.of_Z 1))]].


(** Two keys in the order of the result, and two cells in that order. *)
Definition key_le (k1 k2 : list cell) : Prop := key_compare k1 k2 <> Gt.
Definition cell_le (a b : cell) : Prop := cell_compare a b <> Gt.
Definition cell_lt (a b : cell) : Prop := cell_compare a b = Lt.

(** A cell that holds text or a date. *)
Definition text_or_date (c : cell) : Prop :=
  (exists s, c = Str s) \/ (exists z, c = Date z).


(** The chart of line 610 over the table [g]. *)
Definition quarterly_figure (g : DataFrame) : figure :=
  mkFigure [mkTrace "" (column_of "YEAR_QTR" g) (column_of "value" g)].


(** Actuals and predictions hold numbers in every row. *)
Definition numeric_fit (rs : list row) : Prop :=
  forall r, r ∈ rs -> exists a p, cell_at "actuals" r = Num a /\ cell_at "preds" r = Num p.


(** The dropdown value of the dashboard that corresponds to a
    [group_value] of the static function. *)
Definition dropdown_value (group_value : option cell) : cell :=
  match group_value with
  | None => Str "all_values"
  | Some v => v
  end.

(** The outcome of a callback, as the static function returns it. *)
Definition as_optional {A} (x : result A * world) : result (option A) * world :=
  match x with
  | (Ok a, w) => (Ok (Some a), w)
  | (Raise e, w) => (Raise e, w)
  end.

(** The filter of the grouped callback of the spend dashboard (lines
    193-231) as a predicate on rows. *)
Definition grouped_pred (date : string) (tp act sd ed : cell) (group : string) (geo : cell)
    (r : row) : bool :=
  if py_eq geo (Str "all_values") then exact_pred date tp act sd ed r
  else exact_pred date tp act sd ed r && in_group group geo r.

(** The key columns of the grouped callback. *)
Definition group_key_names (date : string) : list string :=
  [date; "variable_activity_root"; "variable_description"; "activity_type"].


(** A cell of a key column: text, a date or a missing value. *)
Definition key_cell (c : cell) : Prop := text_or_date c \/ is_na c = true.

(** The key columns [ks] of a table hold key cells. *)
Definition key_columns (ks : list string) (rs : list row) : Prop :=
  forall r k, r ∈ rs -> k ∈ ks -> key_cell (cell_at k r).

(** Three rows of one quarter whose values 10^16, 1 and 1 add up to
    10^16 + 2, which a plain left-to-right float64 sum rounds to 10^16. *)
Definition rounding_frame : DataFrame :=
  mkDataFrame ["YEAR_QTR"; "variable_description"; "value"]
    [list_to_map [("YEAR_QTR", Str "2021Q1"); ("variable_description", Str "TV");
                  ("value", Num (F64.of_Z (10 ^ 16)))];
     list_to_map [("YEAR_QTR", Str "2021Q1"); ("variable_description", Str "TV");
                  ("value", Num (F64.of_Z 1))];
     list_to_map [("YEAR_QTR", Str "2021Q1"); ("variable_description", Str "TV");
                  ("value", Num (F64.of_Z 1))]].

(** What a call hands to the chart: the traces of its figure, when it
    returns one. *)
Definition traces_drawn (r : result (option figure)) : result (option (list trace)) :=
  match r with
  | Ok (Some f) => Ok (Some (traces f))
  | Ok None => Ok None
  | Raise e => Raise e
  end.
(** * Reasoning about runs *)

Lemma bind_ok {A B} (m : M A) (k : A -> M B) w a w' :
  m w = (Ok a, w') -> bind m k w = k a w'.
Proof. intros H. unfold bind. now rewrite H. Qed.

Lemma bind_raise {A B} (m : M A) (k : A -> M B) w e w' :
  m w = (Raise e, w') -> bind m k w = (Raise e, w').
Proof. intros H. unfold bind. now rewrite H. Qed.

Lemma deref_ok w l df : heap w !! l = Some df -> deref l w = (Ok df, w).
Proof. intros H. unfold deref. now rewrite H. Qed.

Lemma column_ok df n :
  n ∈ columns df -> column df (Col n) = Ok (map (cell_at n) (rows df)).
Proof.
  intros H. unfold column, key_name. now rewrite bool_decide_eq_true_2.
Qed.

Lemma getitem_ok w l df n :
  heap w !! l = Some df -> n ∈ columns df ->
  getitem l (Col n) w = (Ok (map (cell_at n) (rows df)), w).
Proof.
  intros Hl Hn. unfold getitem. rewrite (bind_ok _ _ _ _ _ (deref_ok _ _ _ Hl)).
  unfold lift. now rewrite column_ok.
Qed.

Lemma setitem_ok w l df c s :
  heap w !! l = Some df -> length s = length (rows df) ->
  setitem l c s w = (Ok tt, mkWorld (<[l := set_column df c s]> (heap w)) (stdout w)).
Proof.
  intros Hl Hs. unfold setitem. rewrite (bind_ok _ _ _ _ _ (deref_ok _ _ _ Hl)).
  now rewrite bool_decide_eq_true_2.
Qed.

Lemma set_column_map df c (f : row -> cell) :
  set_column df c (map f (rows df)) =
  mkDataFrame (if bool_decide (c ∈ columns df) then columns df else columns df ++ [c])
              (map (fun r => <[c := f r]> r) (rows df)).
Proof.
  unfold set_column. f_equal.
  induction (rows df) as [|r rs IH]; simpl; [reflexivity | now rewrite IH].
Qed.

Lemma cell_at_insert c v (r : row) : cell_at c (<[c := v]> r) = v.
Proof. unfold cell_at. now rewrite lookup_insert_eq. Qed.

Lemma cell_at_insert_ne c c' v (r : row) : c ≠ c' -> cell_at c' (<[c := v]> r) = cell_at c' r.
Proof. intros H. unfold cell_at. now rewrite lookup_insert_ne. Qed.

(** * The cost-per-activity column *)

Lemma series_div_columns (rs : list row) :
  (forall r, r ∈ rs -> exists s a, cell_at "Spend" r = Num s /\ cell_at "Activity" r = Num a) ->
  series_div (map (cell_at "Spend") rs) (map (cell_at "Activity") rs)
  = Ok (map (fun r => Num (F64.div (num_at "Spend" r) (num_at "Activity" r))) rs).
Proof.
  induction rs as [|r rs IH]; intros H; simpl; [reflexivity|].
  destruct (H r) as (s & a & Hs & Ha); [left|].
  unfold num_at. rewrite Hs, Ha. simpl.
  rewrite IH; [reflexivity|]. intros r' Hr'. apply H. now right.
Qed.

Lemma clean_series (f : row -> spec_float) (rs : list row) :
  replace_inf0 (fillna0 (map (fun r => Num (f r)) rs)) = map (fun r => Num (cleaned (f r))) rs.
Proof.
  unfold replace_inf0, fillna0. rewrite !map_map. apply map_ext. intros r.
  unfold cleaned. simpl. destruct (f r); simpl; reflexivity.
Qed.

Lemma add_cost_per_act_run w temp df :
  heap w !! temp = Some df ->
  "Spend" ∈ columns df -> "Activity" ∈ columns df ->
  (forall r, r ∈ rows df -> exists s a, cell_at "Spend" r = Num s /\ cell_at "Activity" r = Num a) ->
  add_cost_per_act temp w =
  (Ok tt,
   mkWorld (<[temp := mkDataFrame
                (if bool_decide ("cost_per_act" ∈ columns df) then columns df
                 else columns df ++ ["cost_per_act"])
                (map with_cost_per_act (rows df))]> (heap w))
           (stdout w)).
Proof.
  intros Hl HS HA Hnum. unfold add_cost_per_act.
  rewrite (bind_ok _ _ _ _ _ (getitem_ok _ _ _ _ Hl HS)).
  rewrite (bind_ok _ _ _ _ _ (getitem_ok _ _ _ _ Hl HA)).
  unfold lift at 1. unfold bind at 1. rewrite (series_div_columns _ Hnum).
  erewrite bind_ok; [|apply setitem_ok; [exact Hl | now rewrite length_map]].
  rewrite set_column_map.
  set (q := fun r : row => Num (F64.div (num_at "Spend" r) (num_at "Activity" r))).
  set (cols' := if bool_decide ("cost_per_act" ∈ columns df) then columns df
                else columns df ++ ["cost_per_act"]).
  assert (Hin : "cost_per_act" ∈ cols').
  { subst cols'. case_bool_decide; [assumption|]. apply elem_of_app. right. constructor. }
  assert (Hlt : (temp < length (heap w))%nat) by (eapply lookup_lt_Some; eassumption).
  erewrite bind_ok; [|apply getitem_ok; [simpl; now apply list_lookup_insert_eq | exact Hin]].
  simpl rows. rewrite map_map.
  erewrite setitem_ok; [| simpl; now apply list_lookup_insert_eq | ].
  2:{ simpl. unfold replace_inf0, fillna0. now rewrite !length_map. }
  simpl. f_equal. f_equal. rewrite list_insert_insert_eq.
  f_equal. unfold set_column. simpl. rewrite bool_decide_eq_true_2 by exact Hin.
  f_equal.
  erewrite (map_ext _ (fun r => Num (F64.div (num_at "Spend" r) (num_at "Activity" r)))).
  2:{ intros r. subst q. simpl. apply cell_at_insert. }
  rewrite clean_series.
  subst q. clear. induction (rows df) as [|r rs IH]; simpl; [reflexivity|].
  rewrite IH. f_equal. unfold with_cost_per_act.
  now rewrite insert_insert_eq.
Qed.

Lemma map_lookup_Some {A B} (f : A -> B) (l : list A) i x :
  l !! i = Some x -> map f l !! i = Some (f x).
Proof.
  revert i. induction l as [|a l IH]; intros [|i] H; simpl in *; try discriminate.
  - now inversion H.
  - now apply IH.
Qed.

Lemma div_by_zero_not_finite s a :
  F64.is_zero a = true -> cleaned (F64.div s a) = F64.zero.
Proof. destruct a; try discriminate. intros _. destruct s; reflexivity. Qed.

Lemma div_missing_operand s a :
  F64.is_nan s = true \/ F64.is_nan a = true -> cleaned (F64.div s a) = F64.zero.
Proof.
  intros [H|H]; [destruct s | destruct a]; try discriminate; [reflexivity|].
  destruct s; reflexivity.
Qed.

Lemma cleaned_finite q : F64.is_nan (cleaned q) = false /\ F64.is_inf (cleaned q) = false.
Proof. destruct q; split; reflexivity. Qed.

(** C1 (amended): after the Derived Metric Calculator has run on a working
    table with numeric Spend and Activity columns, every row carries a
    cost_per_act cell that is the float64 quotient Spend / Activity when
    that quotient is a finite number, and exactly zero when Activity is
    zero, when either operand is missing, or when the quotient is infinite
    (an infinite operand, or overflow of the division); it is never
    infinite and never missing. *)
Theorem cost_per_act_finite_ratio_or_zero (w : world) (temp : loc) (df : DataFrame) :
  heap w !! temp = Some df ->
  "Spend" ∈ columns df -> "Activity" ∈ columns df ->
  (forall r, r ∈ rows df ->
             exists s a, cell_at "Spend" r = Num s /\ cell_at "Activity" r = Num a) ->
  exists df',
    add_cost_per_act temp w = (Ok tt, mkWorld (<[temp := df']> (heap w)) (stdout w)) /\
    length (rows df') = length (rows df) /\
    forall i r, rows df !! i = Some r ->
      exists c,
        rows df' !! i = Some (<["cost_per_act" := Num c]> r) /\
        (F64.is_nan (F64.div (num_at "Spend" r) (num_at "Activity" r)) = false ->
         F64.is_inf (F64.div (num_at "Spend" r) (num_at "Activity" r)) = false ->
         c = F64.div (num_at "Spend" r) (num_at "Activity" r)) /\
        (F64.is_zero (num_at "Activity" r) = true \/
         F64.is_nan (num_at "Spend" r) = true \/
         F64.is_nan (num_at "Activity" r) = true \/
         F64.is_inf (F64.div (num_at "Spend" r) (num_at "Activity" r)) = true ->
         c = F64.zero) /\
        F64.is_nan c = false /\ F64.is_inf c = false.
Proof.
  intros Hl HS HA Hnum. eexists. split; [exact (add_cost_per_act_run _ _ _ Hl HS HA Hnum)|].
  simpl. split; [now rewrite length_map|].
  intros i r Hi. eexists. split; [exact (map_lookup_Some with_cost_per_act _ _ _ Hi)|].
  repeat split.
  - intros Hn Hi'. unfold cleaned. now rewrite Hn, Hi'.
  - intros [H|[H|[H|H]]].
    + now apply div_by_zero_not_finite.
    + apply div_missing_operand. now left.
    + apply div_missing_operand. now right.
    + unfold cleaned. rewrite H. now destruct (F64.is_nan _).
  - apply cleaned_finite.
  - apply cleaned_finite.
Qed.

Lemma cost_per_act_finite_ratio_or_zero_witness :
  exists df',
    add_cost_per_act 0%nat scenario_world
    = (Ok tt, mkWorld (<[0%nat := df']> (heap scenario_world)) (stdout scenario_world)) /\
    length (rows df') = length (rows scenario_frame).
Proof.
  destruct (cost_per_act_finite_ratio_or_zero scenario_world 0%nat scenario_frame)
    as (df' & Hrun & Hlen & _).
  - reflexivity.
  - apply (bool_decide_unpack _). vm_compute. exact I.
  - apply (bool_decide_unpack _). vm_compute. exact I.
  - intros r Hr. apply list_elem_of_In in Hr. simpl in Hr.
    destruct Hr as [<-|[<-|[<-|[]]]]; eexists _, _; split; vm_compute; reflexivity.
  - exists df'. split; [exact Hrun | exact Hlen].
Defined.

(** The scenario's derived column is 10, 0, 0. *)
Example scenario_cost_per_act :
  exists df',
    add_cost_per_act 0%nat scenario_world = (Ok tt, mkWorld [df'] []) /\
    map (cell_at "cost_per_act") (rows df')
    = [Num (F64.of_Z 10); Num F64.zero; Num F64.zero].
Proof. eexists. split; vm_compute; reflexivity. Qed.

(** C1 as stated fails: Activity is non-zero and both operands are present,
    yet cost_per_act is zero and not the quotient Spend / Activity. *)
Lemma cost_per_act_overflow_counterexample :
  exists df' r,
    add_cost_per_act 0%nat (mkWorld [overflow_frame] []) = (Ok tt, mkWorld [df'] []) /\
    rows df' = [r] /\
    F64.is_zero (num_at "Activity" r) = false /\
    is_na (cell_at "Spend" r) = false /\ is_na (cell_at "Activity" r) = false /\
    cell_at "cost_per_act" r = Num F64.zero /\
    cell_at "cost_per_act" r <> Num (F64.div (num_at "Spend" r) (num_at "Activity" r)).
Proof.
  eexists _, _. split; [vm_compute; reflexivity|].
  split; [reflexivity|]. repeat split; try (vm_compute; reflexivity).
  vm_compute. discriminate.
Qed.

(** * Frames are never updated in place below the allocation point *)

Lemma frames_kept_refl n w : frames_kept n w w.
Proof. split; [lia | reflexivity]. Qed.

Lemma frames_kept_trans n w1 w2 w3 :
  frames_kept n w1 w2 -> frames_kept n w2 w3 -> frames_kept n w1 w3.
Proof.
  intros [L1 F1] [L2 F2]. split; [lia|]. intros l Hl. now rewrite F2, F1.
Qed.

Lemma keeps_weaken {A} n (m : M A) (Q R : A -> Prop) :
  keeps n m Q -> (forall a, Q a -> R a) -> keeps n m R.
Proof. intros H HQR w Hw. destruct (H w Hw) as [F V]. split; auto. Qed.

Lemma keeps_ret {A} n (a : A) (Q : A -> Prop) : Q a -> keeps n (ret a) Q.
Proof.
  intros HQ w _. split; [apply frames_kept_refl|]. simpl. intros a' [= <-]. exact HQ.
Qed.

Lemma keeps_raise {A} n e (Q : A -> Prop) : keeps n (raise e) Q.
Proof. intros w _. split; [apply frames_kept_refl|]. simpl. discriminate. Qed.

Lemma keeps_lift {A} n (r : result A) : keeps n (lift r) anything.
Proof. intros w _. split; [apply frames_kept_refl|]. intros; exact I. Qed.

Lemma keeps_bind {A B} n (m : M A) (k : A -> M B) (Q : A -> Prop) (R : B -> Prop) :
  keeps n m Q -> (forall a, Q a -> keeps n (k a) R) -> keeps n (bind m k) R.
Proof.
  intros Hm Hk w Hw. destruct (Hm w Hw) as [F V]. unfold bind.
  destruct (m w) as [[a|e] w1]; simpl in *.
  - assert (Hw1 : (n <= length (heap w1))%nat) by (destruct F; lia).
    destruct (Hk a (V a eq_refl) w1 Hw1) as [F' V'].
    split; [eapply frames_kept_trans; eassumption | exact V'].
  - split; [exact F | discriminate].
Qed.

Lemma keeps_try_except {A} n (body : M A) (handler : exn -> M A) (Q : A -> Prop) :
  keeps n body Q -> (forall e, keeps n (handler e) Q) -> keeps n (try_except body handler) Q.
Proof.
  intros Hm Hh w Hw. destruct (Hm w Hw) as [F V]. unfold try_except.
  destruct (body w) as [[a|e] w1]; simpl in *.
  - split; [exact F | exact V].
  - assert (Hw1 : (n <= length (heap w1))%nat) by (destruct F; lia).
    destruct (Hh e w1 Hw1) as [F' V'].
    split; [eapply frames_kept_trans; eassumption | exact V'].
Qed.

Lemma keeps_deref n l : keeps n (deref l) anything.
Proof.
  intros w _. unfold deref. destruct (heap w !! l); simpl;
    (split; [apply frames_kept_refl | intros; exact I]).
Qed.

Lemma keeps_alloc n df : keeps n (alloc df) (fresh n).
Proof.
  intros w Hw. unfold alloc. simpl. split.
  - split; simpl; [rewrite length_app; lia|].
    intros l Hl. apply lookup_app_l. lia.
  - intros a [= <-]. exact Hw.
Qed.

Lemma keeps_print n p : keeps n (print p) anything.
Proof.
  intros w _. split; [|intros; exact I]. split; simpl; [lia | reflexivity].
Qed.

Lemma keeps_local {A} n name (v : option A) (Q : A -> Prop) :
  (forall a, v = Some a -> Q a) -> keeps n (local name v) Q.
Proof.
  intros H. destruct v; simpl; [apply keeps_ret; auto | apply keeps_raise].
Qed.

Lemma keeps_tuple_get {A} n (t : list A) i : keeps n (tuple_get t i) anything.
Proof.
  unfold tuple_get. destruct (t !! i); [now apply keeps_ret | apply keeps_raise].
Qed.

Lemma keeps_for_each {A} n (f : A -> M unit) (l : list A) :
  (forall a, keeps n (f a) anything) -> keeps n (for_each f l) anything.
Proof.
  intros Hf. induction l as [|a l IH]; simpl.
  - now apply keeps_ret.
  - eapply keeps_bind; [apply Hf | intros _ _; exact IH].
Qed.

Lemma keeps_getitem n l c : keeps n (getitem l c) anything.
Proof.
  unfold getitem. eapply keeps_bind; [apply keeps_deref | intros df _; apply keeps_lift].
Qed.

Lemma keeps_getitem_mask n l mask : keeps n (getitem_mask l mask) (fresh n).
Proof.
  unfold getitem_mask. eapply keeps_bind; [apply keeps_deref | intros df _].
  case_bool_decide; [apply keeps_alloc | apply keeps_raise].
Qed.

Lemma keeps_setitem n l c s : (n <= l)%nat -> keeps n (setitem l c s) anything.
Proof.
  intros Hl. unfold setitem. eapply keeps_bind; [apply keeps_deref | intros df _].
  case_bool_decide; [|apply keeps_raise].
  intros w Hw. simpl. split; [|intros; exact I].
  split; simpl; [rewrite length_insert; lia|].
  intros l' Hl'. apply list_lookup_insert_ne. lia.
Qed.

Lemma keeps_copy n l : keeps n (copy l) (fresh n).
Proof.
  unfold copy. eapply keeps_bind; [apply keeps_deref | intros df _; apply keeps_alloc].
Qed.

Lemma keeps_groupby_sum_reset_index n l keys :
  keeps n (groupby_sum_reset_index l keys) (fresh n).
Proof.
  unfold groupby_sum_reset_index.
  eapply keeps_bind; [apply keeps_deref | intros df _].
  eapply keeps_bind; [apply keeps_lift | intros g _; apply keeps_alloc].
Qed.

Lemma keeps_px_line n l x ys : keeps n (px_line l x ys) anything.
Proof.
  unfold px_line. eapply keeps_bind; [apply keeps_deref | intros df _].
  eapply keeps_bind; [apply keeps_lift | intros ts _; now apply keeps_ret].
Qed.

Lemma keeps_anything {A} n (m : M A) (Q : A -> Prop) : keeps n m Q -> keeps n m anything.
Proof. intros H. eapply keeps_weaken; [exact H | intros; exact I]. Qed.

(** One step of the frame argument: the rule of the primitive at the head
    of the computation. *)
Ltac keeps_prim :=
  first
    [ apply keeps_getitem | apply keeps_getitem_mask | apply keeps_copy
    | apply keeps_groupby_sum_reset_index | apply keeps_px_line
    | apply keeps_print | apply keeps_deref | apply keeps_lift
    | apply keeps_tuple_get | apply keeps_raise
    | apply keeps_setitem; assumption
    | apply keeps_ret; first [exact I | assumption] ].

Ltac keeps_go :=
  repeat
    match goal with
    | |- keeps _ (bind _ _) _ => eapply keeps_bind; [| intros ? ?]
    | |- keeps _ (if ?b then _ else _) _ => destruct b
    | |- keeps _ (let '(_, _) := ?p in _) _ => destruct p
    | |- keeps _ _ anything =>
        first [ keeps_prim | eapply keeps_anything; keeps_prim ]
    | |- keeps _ _ _ => keeps_prim
    end.

Lemma keeps_add_cost_per_act n temp : (n <= temp)%nat -> keeps n (add_cost_per_act temp) anything.
Proof. intros H. unfold add_cost_per_act. keeps_go. Qed.

Lemma keeps_px_scatter n l x y : keeps n (px_scatter l x y) anything.
Proof. apply keeps_px_line. Qed.

Lemma keeps_exact_mask n data date_col tp act sd ed :
  keeps n (exact_mask data date_col tp act sd ed) anything.
Proof. unfold exact_mask. keeps_go. Qed.

Lemma keeps_lower_mask n data date_col vd act sd ed :
  keeps n (lower_mask data date_col vd act sd ed) anything.
Proof. unfold lower_mask. keeps_go. Qed.

Lemma keeps_spend_activity_figures n temp date_col plot_type :
  keeps n (spend_activity_figures temp date_col plot_type) anything.
Proof.
  unfold spend_activity_figures.
  eapply keeps_bind; [apply keeps_px_line | intros cpm_fig _].
  eapply keeps_bind with (Q := anything).
  - repeat case_bool_decide; keeps_go.
  - intros fig _. eapply keeps_bind; [apply keeps_local; intros; exact I | intros; now apply keeps_ret].
Qed.

Section KeepsSpendVsActivityInteract.
Import get_spend_vs_activity_plot_interact.

Lemma keeps_spend_activity_no_group n data date_col tp act pt sd ed :
    keeps n (no_group.update_graph1 data date_col tp act pt sd ed) anything.
Proof.
    unfold no_group.update_graph1, no_group.working_table.
    eapply keeps_bind with (Q := fresh n).
    { eapply keeps_bind; [apply keeps_exact_mask | intros mask _].
      apply keeps_getitem_mask. }
    intros temp Htemp.
    eapply keeps_bind; [now apply keeps_add_cost_per_act | intros _ _].
    apply keeps_spend_activity_figures.
Qed.

Lemma keeps_spend_activity_with_group n data date_col group_col tp act pt geo sd ed :
    keeps n (with_group.update_graph1 data date_col group_col tp act pt geo sd ed) anything.
Proof.
    unfold with_group.update_graph1, with_group.working_table.
    eapply keeps_bind with (Q := fresh n).
    - destruct (py_eq geo (Str "all_values")).
      + eapply keeps_bind; [apply keeps_exact_mask | intros mask _].
        eapply keeps_bind; [apply keeps_getitem_mask | intros temp _].
        apply keeps_groupby_sum_reset_index.
      + eapply keeps_bind; [apply keeps_exact_mask | intros mask _].
        eapply keeps_bind; [apply keeps_getitem_mask | intros temp _].
        eapply keeps_bind; [apply keeps_getitem | intros g _].
        eapply keeps_bind; [apply keeps_getitem_mask | intros temp' _].
        apply keeps_groupby_sum_reset_index.
    - intros temp Htemp.
      eapply keeps_bind; [now apply keeps_add_cost_per_act | intros _ _].
      apply keeps_spend_activity_figures.
Qed.
End KeepsSpendVsActivityInteract.

Lemma keeps_validator_report n value line (values : list cell) :
  keeps n (print (PText (not_available value line)) ;;;
           for_each (fun v => print (PCell v)) values ;;;
           ret (@None figure)) anything.
Proof.
  eapply keeps_bind; [apply keeps_print | intros _ _].
  eapply keeps_bind; [apply keeps_for_each; intros; apply keeps_print | intros _ _].
  now apply keeps_ret.
Qed.

Lemma keeps_get_spend_vs_activity_plot n data vd act date_range date_col group_col gv :
  keeps n (get_spend_vs_activity_plot data vd act date_range date_col group_col gv) anything.
Proof.
  unfold get_spend_vs_activity_plot, date_bounds, spend_activity_working_table.
  eapply keeps_bind with (Q := anything).
  { case_bool_decide; keeps_go. }
  intros [start_date end_date] _.
  eapply keeps_bind; [apply keeps_getitem | intros vds _].
  eapply keeps_bind; [apply keeps_lift | intros found _].
  destruct found; simpl; [|apply keeps_validator_report].
  eapply keeps_bind; [apply keeps_getitem | intros vds' _].
  eapply keeps_bind; [apply keeps_getitem_mask | intros sub _].
  eapply keeps_bind; [apply keeps_getitem | intros acts _].
  eapply keeps_bind; [apply keeps_lift | intros found _].
  destruct found; simpl; [|apply keeps_validator_report].
  eapply keeps_bind with (Q := fresh n).
  { destruct gv.
    - eapply keeps_bind; [apply keeps_lower_mask | intros mask _].
      eapply keeps_bind; [apply keeps_getitem | intros g _].
      apply keeps_getitem_mask.
    - eapply keeps_bind; [apply keeps_lower_mask | intros mask _].
      apply keeps_getitem_mask. }
  intros temp Htemp.
  eapply keeps_bind; [now apply keeps_add_cost_per_act | intros _ _].
  keeps_go.
Qed.

Section KeepsQuarterlyInteract.
Import get_quarterly_spends_plot_interact.

Lemma keeps_quarterly_no_group n data tp : keeps n (no_group.update_graph1 data tp) anything.
Proof.
    unfold no_group.update_graph1, no_group.working_table.
    eapply keeps_bind with (Q := fresh n); [keeps_go | intros; apply keeps_px_line].
Qed.

Lemma keeps_quarterly_with_group n data group_col tp geo :
    keeps n (with_group.update_graph1 data group_col tp geo) anything.
Proof.
    unfold with_group.update_graph1, with_group.working_table.
    eapply keeps_bind with (Q := fresh n); [|intros; apply keeps_px_line].
    destruct (py_eq geo (Str "all_values")); keeps_go.
Qed.
End KeepsQuarterlyInteract.

Lemma keeps_get_quarterly_spends_plot n data group_col vd gv :
  keeps n (get_quarterly_spends_plot data group_col vd gv) anything.
Proof.
  unfold get_quarterly_spends_plot, quarterly_working_table.
  eapply keeps_bind; [apply keeps_getitem | intros vds _].
  eapply keeps_bind; [apply keeps_lift | intros found _].
  destruct found; simpl; [|apply keeps_validator_report].
  eapply keeps_bind with (Q := fresh n).
  { destruct gv; keeps_go. }
  intros temp _. keeps_go.
Qed.

Lemma keeps_exp_columns n np_exp data : (n <= data)%nat -> keeps n (exp_columns np_exp data) anything.
Proof. intros H. unfold exp_columns. keeps_go. Qed.

Lemma keeps_setup n np_exp l group_col is_log :
  keeps n (get_actual_vs_predicted_plot_interact.setup np_exp l group_col is_log) (fresh n).
Proof.
  unfold get_actual_vs_predicted_plot_interact.setup.
  eapply keeps_bind; [apply keeps_copy | intros data Hdata].
  eapply keeps_bind with (Q := anything).
  { destruct is_log; [now apply keeps_exp_columns | now apply keeps_ret]. }
  intros _ _. eapply keeps_bind; [apply keeps_getitem | intros _ _; now apply keeps_ret].
Qed.

Lemma keeps_update_figure n data date_col group_col g :
  keeps n (get_actual_vs_predicted_plot_interact.update_figure data date_col group_col g)
        anything.
Proof.
  unfold get_actual_vs_predicted_plot_interact.update_figure,
    get_actual_vs_predicted_plot_interact.working_table.
  eapply keeps_bind with (Q := fresh n); [|intros; apply keeps_px_line].
  destruct (py_eq g (Str "select_all")); keeps_go.
Qed.

Lemma keeps_get_actual_vs_predicted_plot n np_exp l date_col dv is_log group_col gv :
  keeps n (get_actual_vs_predicted_plot np_exp l date_col dv is_log group_col gv) anything.
Proof.
  unfold get_actual_vs_predicted_plot, actual_vs_predicted_working_table.
  eapply keeps_bind; [apply keeps_copy | intros data Hdata].
  eapply keeps_bind with (Q := anything).
  { destruct is_log; [now apply keeps_exp_columns | now apply keeps_ret]. }
  intros _ _.
  eapply keeps_bind with (Q := anything).
  { destruct gv as [v|]; [destruct (py_eq v (Str "all"))|].
    - keeps_go.
    - apply keeps_try_except; [|intros e]; keeps_go.
    - keeps_go. }
  intros o _. eapply keeps_bind; [apply keeps_local; intros; exact I | intros f _].
  keeps_go.
Qed.

Lemma keeps_frame {A} (m : M A) (Q : A -> Prop) w l df :
  keeps (length (heap w)) m Q -> heap w !! l = Some df -> heap (snd (m w)) !! l = Some df.
Proof.
  intros H Hl. destruct (H w (le_n _)) as [[_ F] _].
  rewrite F; [exact Hl|]. eapply lookup_lt_Some. exact Hl.
Qed.

(** C8: whatever plotting function or dashboard callback is invoked, with
    whatever arguments and whatever its outcome, a table that exists when
    the call is made (the caller's Observation Table in particular) is the
    same table afterwards: filtering, aggregation, the exponential
    transform and the derived column work on frames allocated by the call. *)
Theorem input_table_unchanged (np_exp : spec_float -> spec_float)
    (w : world) (l : loc) (df : DataFrame) :
  heap w !! l = Some df ->
  (forall data date_col tp act pt sd ed,
      heap (snd (get_spend_vs_activity_plot_interact.no_group.update_graph1
                   data date_col tp act pt sd ed w)) !! l = Some df) /\
  (forall data date_col group_col tp act pt geo sd ed,
      heap (snd (get_spend_vs_activity_plot_interact.with_group.update_graph1
                   data date_col group_col tp act pt geo sd ed w)) !! l = Some df) /\
  (forall data vd act date_range date_col group_col gv,
      heap (snd (get_spend_vs_activity_plot
                   data vd act date_range date_col group_col gv w)) !! l = Some df) /\
  (forall data tp,
      heap (snd (get_quarterly_spends_plot_interact.no_group.update_graph1
                   data tp w)) !! l = Some df) /\
  (forall data group_col tp geo,
      heap (snd (get_quarterly_spends_plot_interact.with_group.update_graph1
                   data group_col tp geo w)) !! l = Some df) /\
  (forall data group_col vd gv,
      heap (snd (get_quarterly_spends_plot data group_col vd gv w)) !! l = Some df) /\
  (forall data group_col is_log,
      heap (snd (get_actual_vs_predicted_plot_interact.setup
                   np_exp data group_col is_log w)) !! l = Some df) /\
  (forall data date_col group_col g,
      heap (snd (get_actual_vs_predicted_plot_interact.update_figure
                   data date_col group_col g w)) !! l = Some df) /\
  (forall data date_col dv is_log group_col gv,
      heap (snd (get_actual_vs_predicted_plot
                   np_exp data date_col dv is_log group_col gv w)) !! l = Some df).
Proof.
  intros Hl. repeat split; intros; (eapply keeps_frame; [|exact Hl]).
  - apply keeps_spend_activity_no_group.
  - apply keeps_spend_activity_with_group.
  - apply keeps_get_spend_vs_activity_plot.
  - apply keeps_quarterly_no_group.
  - apply keeps_quarterly_with_group.
  - apply keeps_get_quarterly_spends_plot.
  - apply keeps_setup.
  - apply keeps_update_figure.
  - apply keeps_get_actual_vs_predicted_plot.
Qed.

Lemma input_table_unchanged_witness :
  heap (snd (get_spend_vs_activity_plot 0%nat "tv" "impressions" [] (Col "date") PyNone None
               scenario_world)) !! 0%nat = Some scenario_frame.
Proof.
  apply (input_table_unchanged (fun x => x) scenario_world 0%nat scenario_frame).
  reflexivity.
Defined.

(** * Runs of the primitives *)

Lemma column_missing df c :
  (forall n, c = Col n -> n ∉ columns df) -> column df c = Raise (KeyError c).
Proof.
  intros H. unfold column, key_name. destruct c as [n| |]; try reflexivity.
  rewrite bool_decide_eq_false_2; [reflexivity | now apply H].
Qed.

Lemma getitem_missing w l df c :
  heap w !! l = Some df -> (forall n, c = Col n -> n ∉ columns df) ->
  getitem l c w = (Raise (KeyError c), w).
Proof.
  intros Hl Hc. unfold getitem. rewrite (bind_ok _ _ _ _ _ (deref_ok _ _ _ Hl)).
  unfold lift. now rewrite column_missing.
Qed.

Lemma copy_ok w l df :
  heap w !! l = Some df ->
  copy l w = (Ok (length (heap w)), mkWorld (heap w ++ [df]) (stdout w)).
Proof. intros Hl. unfold copy. now rewrite (bind_ok _ _ _ _ _ (deref_ok _ _ _ Hl)). Qed.

Lemma lookup_last_alloc (h : list DataFrame) df : (h ++ [df]) !! length h = Some df.
Proof. rewrite lookup_app_r by lia. now rewrite Nat.sub_diag. Qed.

(** * The default of [date_col] *)

(** C9 (amended): a call to get_spend_vs_activity_plot that omits date_col
    and leaves date_range empty fails with the lookup error of the builtin
    [str] before any validation or filtering: no figure, nothing printed,
    no frame allocated. *)
Theorem omitted_date_col_lookup_error (w : world) (data : loc) (df : DataFrame)
    (variable_description activity_type : string) (group_col : label)
    (group_value : option cell) :
  heap w !! data = Some df ->
  get_spend_vs_activity_plot data variable_description activity_type []
    date_col_default group_col group_value w
  = (Raise (KeyError BuiltinStr), w).
Proof.
  intros Hl. unfold get_spend_vs_activity_plot, date_bounds, date_col_default. simpl.
  erewrite bind_raise; [reflexivity|].
  erewrite bind_raise; [reflexivity|].
  apply (getitem_missing _ _ _ _ Hl). discriminate.
Qed.

Lemma omitted_date_col_lookup_error_witness :
  get_spend_vs_activity_plot 0%nat "TV" "Impressions" [] date_col_default PyNone None
    scenario_world
  = (Raise (KeyError BuiltinStr), scenario_world).
Proof.
  apply (omitted_date_col_lookup_error scenario_world 0%nat scenario_frame).
  reflexivity.
Defined.

(** C9 as stated fails: with a date range given, the call that omits
    date_col reaches the validator, which prints its message and the list
    of values, and the call returns without a lookup error. *)
Lemma omitted_date_col_validator_counterexample :
  get_spend_vs_activity_plot 0%nat "Radio" "Impressions" [Date 1; Date 3]
    date_col_default PyNone None scenario_world
  = (Ok None,
     mkWorld [scenario_frame]
             [PText (not_available "Radio" availabale); PCell (Str "TV")]).
Proof. vm_compute. reflexivity. Qed.

(** * An invalid group column in [get_actual_vs_predicted_plot] *)

(** C2 (the code at the failing inputs): when the group column is not a
    column of the table and a specific group is requested, the message is
    printed, and then reading the unassigned [filtered_df] raises
    [UnboundLocalError], which reaches the caller. *)
Theorem invalid_group_col_raises (np_exp : spec_float -> spec_float)
    (w : world) (act_vs_preds : loc) (df : DataFrame)
    (date_col : label) (dv_col : string) (group_col : label) (v : cell) :
  heap w !! act_vs_preds = Some df ->
  (forall n, group_col = Col n -> n ∉ columns df) ->
  py_eq v (Str "all") = false ->
  get_actual_vs_predicted_plot np_exp act_vs_preds date_col dv_col false group_col (Some v) w
  = (Raise (UnboundLocalError "filtered_df"),
     mkWorld (heap w ++ [df])
             (stdout w ++ [PText "Please enter a valid group column name"])).
Proof.
  intros Hl Hc Hv. unfold get_actual_vs_predicted_plot.
  rewrite (bind_ok _ _ _ _ _ (copy_ok _ _ _ Hl)).
  unfold bind at 1. simpl.
  unfold actual_vs_predicted_working_table. rewrite Hv.
  unfold bind at 1. unfold try_except.
  erewrite bind_raise.
  2:{ apply getitem_missing with (df := df); [apply lookup_last_alloc | exact Hc]. }
  reflexivity.
Qed.

Lemma invalid_group_col_raises_witness :
  get_actual_vs_predicted_plot (fun x => x) 0%nat (Col "date") "sales" false
    (Col "country") (Some (Str "north")) fit_world
  = (Raise (UnboundLocalError "filtered_df"),
     mkWorld [fit_frame; fit_frame] [PText "Please enter a valid group column name"]).
Proof.
  apply (invalid_group_col_raises (fun x => x) fit_world 0%nat fit_frame).
  - reflexivity.
  - intros n [= <-]. apply (bool_decide_eq_false_1 _). vm_compute. reflexivity.
  - reflexivity.
Defined.

(** * Boolean indexing is a filter on rows *)

Lemma select_map {A} (p : A -> bool) (xs : list A) :
  select xs (map p xs) = filter (fun x => p x) xs.
Proof.
  induction xs as [|x xs IH]; [reflexivity|].
  simpl. rewrite filter_cons, IH. destruct (p x); simpl; reflexivity.
Qed.

Lemma mask_and_map {A} (p q : A -> bool) (xs : list A) :
  mask_and (map p xs) (map q xs) = map (fun x => p x && q x) xs.
Proof.
  unfold mask_and. induction xs as [|x xs IH]; simpl; [reflexivity | now rewrite IH].
Qed.

Lemma rmap_holds {A} (f : A -> result bool) (xs : list A) :
  (forall x, x ∈ xs -> exists b, f x = Ok b) ->
  rmap f xs = Ok (map (fun x => holds (f x)) xs).
Proof.
  induction xs as [|x xs IH]; intros H; simpl; [reflexivity|].
  destruct (H x) as [b Hb]; [left|]. rewrite Hb. simpl.
  rewrite IH; [reflexivity|]. intros y Hy. apply H. now right.
Qed.

Lemma series_ge_column date v (rs : list row) :
  (forall r, r ∈ rs -> exists b, py_ge (cell_at date r) v = Ok b) ->
  series_ge (map (cell_at date) rs) v
  = Ok (map (fun r => holds (py_ge (cell_at date r) v)) rs).
Proof.
  intros H. unfold series_ge.
  rewrite (rmap_holds (fun c => py_ge c v)).
  - now rewrite map_map.
  - intros c Hc. apply list_elem_of_In, in_map_iff in Hc as (r & <- & Hr).
    apply H. now apply list_elem_of_In.
Qed.

Lemma series_le_column date v (rs : list row) :
  (forall r, r ∈ rs -> exists b, py_le (cell_at date r) v = Ok b) ->
  series_le (map (cell_at date) rs) v
  = Ok (map (fun r => holds (py_le (cell_at date r) v)) rs).
Proof.
  intros H. unfold series_le.
  rewrite (rmap_holds (fun c => py_le c v)).
  - now rewrite map_map.
  - intros c Hc. apply list_elem_of_In, in_map_iff in Hc as (r & <- & Hr).
    apply H. now apply list_elem_of_In.
Qed.

Lemma series_eq_column c v (rs : list row) :
  series_eq (map (cell_at c) rs) v = map (fun r => py_eq (cell_at c r) v) rs.
Proof. unfold series_eq. now rewrite map_map. Qed.

Lemma series_eq_lower_column c v (rs : list row) :
  series_eq (series_str_lower (map (cell_at c) rs)) v
  = map (fun r => py_eq (lowered (cell_at c r)) v) rs.
Proof. unfold series_eq, series_str_lower. now rewrite !map_map. Qed.

Lemma getitem_mask_ok w l df (p : row -> bool) :
  heap w !! l = Some df ->
  getitem_mask l (map p (rows df)) w
  = (Ok (length (heap w)), mkWorld (heap w ++ [restrict p df]) (stdout w)).
Proof.
  intros Hl. unfold getitem_mask. rewrite (bind_ok _ _ _ _ _ (deref_ok _ _ _ Hl)).
  rewrite bool_decide_eq_true_2 by now rewrite length_map.
  unfold alloc, restrict. now rewrite select_map.
Qed.

Lemma exact_mask_run w data df date tp act sd ed :
  heap w !! data = Some df ->
  "variable_description" ∈ columns df -> "activity_type" ∈ columns df ->
  date ∈ columns df ->
  (forall r, r ∈ rows df -> comparable date sd ed r) ->
  exact_mask data (Col date) tp act sd ed w
  = (Ok (map (exact_pred date tp act sd ed) (rows df)), w).
Proof.
  intros Hl Hv Ha Hd Hc. unfold exact_mask.
  rewrite (bind_ok _ _ _ _ _ (getitem_ok _ _ _ _ Hl Hv)).
  rewrite (bind_ok _ _ _ _ _ (getitem_ok _ _ _ _ Hl Ha)).
  rewrite (bind_ok _ _ _ _ _ (getitem_ok _ _ _ _ Hl Hd)).
  unfold lift at 1, bind at 1.
  rewrite series_ge_column by (intros r Hr; apply (Hc r Hr)).
  rewrite (bind_ok _ _ _ _ _ (getitem_ok _ _ _ _ Hl Hd)).
  unfold lift at 1, bind at 1.
  rewrite series_le_column by (intros r Hr; apply (Hc r Hr)).
  unfold ret. rewrite !series_eq_column, !mask_and_map. reflexivity.
Qed.

Lemma lower_mask_run w data df date vd act sd ed :
  heap w !! data = Some df ->
  "variable_description" ∈ columns df -> "activity_type" ∈ columns df ->
  date ∈ columns df ->
  (forall r, r ∈ rows df -> comparable date sd ed r) ->
  lower_mask data (Col date) vd act sd ed w
  = (Ok (map (lower_pred date vd act sd ed) (rows df)), w).
Proof.
  intros Hl Hv Ha Hd Hc. unfold lower_mask.
  rewrite (bind_ok _ _ _ _ _ (getitem_ok _ _ _ _ Hl Hv)).
  rewrite (bind_ok _ _ _ _ _ (getitem_ok _ _ _ _ Hl Ha)).
  rewrite (bind_ok _ _ _ _ _ (getitem_ok _ _ _ _ Hl Hd)).
  unfold lift at 1, bind at 1.
  rewrite series_ge_column by (intros r Hr; apply (Hc r Hr)).
  rewrite (bind_ok _ _ _ _ _ (getitem_ok _ _ _ _ Hl Hd)).
  unfold lift at 1, bind at 1.
  rewrite series_le_column by (intros r Hr; apply (Hc r Hr)).
  unfold ret. rewrite !series_eq_lower_column, !mask_and_map. reflexivity.
Qed.

Lemma elem_of_restrict (p : row -> bool) df r :
  r ∈ rows (restrict p df) <-> p r = true /\ r ∈ rows df.
Proof.
  unfold restrict. simpl. rewrite list_elem_of_filter.
  split.
  - intros [H1 H2]. split; [now apply Is_true_eq_true | exact H2].
  - intros [H1 H2]. split; [now apply Is_true_eq_left | exact H2].
Qed.

Lemma restrict_restrict (p q : row -> bool) df :
  restrict q (restrict p df) = restrict (fun r => p r && q r) df.
Proof.
  unfold restrict. simpl. f_equal.
  induction (rows df) as [|r rs IH]; [reflexivity|].
  rewrite !filter_cons. destruct (p r) eqn:Hp; simpl.
  - rewrite filter_cons. destruct (q r); simpl; now rewrite IH.
  - exact IH.
Qed.

(** * The working tables *)

Lemma frame_of_bind_ok {A} (m : M A) (k : A -> M loc) w a w' :
  m w = (Ok a, w') -> frame_of (bind m k) w = frame_of (k a) w'.
Proof. intros H. unfold frame_of. now rewrite (bind_ok _ _ _ _ _ H). Qed.

Lemma frame_of_getitem_mask w l df (p : row -> bool) :
  heap w !! l = Some df ->
  frame_of (getitem_mask l (map p (rows df))) w = Ok (restrict p df).
Proof.
  intros Hl. unfold frame_of. rewrite (getitem_mask_ok _ _ _ _ Hl). simpl.
  now rewrite lookup_last_alloc.
Qed.

Lemma frame_of_groupby w l df keys :
  heap w !! l = Some df ->
  frame_of (groupby_sum_reset_index l keys) w = groupby_sum df keys.
Proof.
  intros Hl. unfold frame_of, groupby_sum_reset_index.
  rewrite (bind_ok _ _ _ _ _ (deref_ok _ _ _ Hl)).
  unfold lift at 1, bind at 1. destruct (groupby_sum df keys) as [g|e]; [|reflexivity].
  simpl. now rewrite lookup_last_alloc.
Qed.

Section SpendVsActivityTables.
Import get_spend_vs_activity_plot_interact.

Context (w : world) (data : loc) (df : DataFrame) (date : string)
        (start_date end_date : cell).
Hypothesis Hdata : heap w !! data = Some df.
Hypothesis Hvd : "variable_description" ∈ columns df.
Hypothesis Hact : "activity_type" ∈ columns df.
Hypothesis Hdate : date ∈ columns df.
Hypothesis Hcmp : forall r, r ∈ rows df -> comparable date start_date end_date r.

Lemma no_group_working_table_run tp act :
  frame_of (no_group.working_table data (Col date) tp act start_date end_date) w
  = Ok (restrict (exact_pred date tp act start_date end_date) df).
Proof.
  unfold no_group.working_table.
  rewrite (frame_of_bind_ok _ _ _ _ _
             (exact_mask_run _ _ _ _ tp act _ _ Hdata Hvd Hact Hdate Hcmp)).
  now apply frame_of_getitem_mask.
Qed.

Lemma with_group_all_run group_col tp act :
  frame_of (with_group.working_table data (Col date) group_col tp act
              (Str "all_values") start_date end_date) w
  = groupby_sum (restrict (exact_pred date tp act start_date end_date) df)
                (group_keys (Col date)).
Proof.
  unfold with_group.working_table. simpl.
  rewrite (frame_of_bind_ok _ _ _ _ _
             (exact_mask_run _ _ _ _ tp act _ _ Hdata Hvd Hact Hdate Hcmp)).
  rewrite (frame_of_bind_ok _ _ _ _ _ (getitem_mask_ok _ _ _ _ Hdata)).
  apply frame_of_groupby. simpl. apply lookup_last_alloc.
Qed.

Lemma with_group_one_run group tp act geo :
  group ∈ columns df ->
  py_eq geo (Str "all_values") = false ->
  frame_of (with_group.working_table data (Col date) (Col group) tp act
              geo start_date end_date) w
  = groupby_sum
      (restrict (fun r => exact_pred date tp act start_date end_date r
                          && in_group group geo r) df)
      (group_keys (Col date)).
Proof.
  intros Hg Hgeo. unfold with_group.working_table. rewrite Hgeo.
  rewrite (frame_of_bind_ok _ _ _ _ _
             (exact_mask_run _ _ _ _ tp act _ _ Hdata Hvd Hact Hdate Hcmp)).
  rewrite (frame_of_bind_ok _ _ _ _ _ (getitem_mask_ok _ _ _ _ Hdata)).
  erewrite frame_of_bind_ok.
  2:{ apply getitem_ok with (df := restrict (exact_pred date tp act start_date end_date) df);
      [apply lookup_last_alloc | exact Hg]. }
  rewrite series_eq_column.
  erewrite frame_of_bind_ok.
  2:{ apply getitem_mask_ok. apply lookup_last_alloc. }
  rewrite restrict_restrict.
  apply frame_of_groupby. simpl. apply lookup_last_alloc.
Qed.

Lemma spend_activity_working_table_all_run vd act group_col :
  frame_of (spend_activity_working_table data vd act start_date end_date
              (Col date) group_col None) w
  = Ok (restrict (lower_pred date vd act start_date end_date) df).
Proof.
  unfold spend_activity_working_table.
  rewrite (frame_of_bind_ok _ _ _ _ _
             (lower_mask_run _ _ _ _ vd act _ _ Hdata Hvd Hact Hdate Hcmp)).
  now apply frame_of_getitem_mask.
Qed.

Lemma spend_activity_working_table_one_run vd act group v :
  group ∈ columns df ->
  frame_of (spend_activity_working_table data vd act start_date end_date
              (Col date) (Col group) (Some v)) w
  = Ok (restrict (fun r => lower_pred date vd act start_date end_date r
                           && in_group group v r) df).
Proof.
  intros Hg. unfold spend_activity_working_table.
  rewrite (frame_of_bind_ok _ _ _ _ _
             (lower_mask_run _ _ _ _ vd act _ _ Hdata Hvd Hact Hdate Hcmp)).
  rewrite (frame_of_bind_ok _ _ _ _ _ (getitem_ok _ _ _ _ Hdata Hg)).
  rewrite series_eq_column, mask_and_map.
  now apply frame_of_getitem_mask.
Qed.

End SpendVsActivityTables.

Section QuarterlyTables.
Import get_quarterly_spends_plot_interact.

Context (w : world) (data : loc) (df : DataFrame).
Hypothesis Hdata : heap w !! data = Some df.
Hypothesis Hvd : "variable_description" ∈ columns df.

Lemma filter_then_groupby_run (m : loc -> M loc) v keys :
  (forall w' l, frame_of (m l) w' = frame_of (groupby_sum_reset_index l keys) w') ->
  frame_of (vd <- getitem data (Col "variable_description") ;;
            temp <- getitem_mask data (series_eq vd v) ;;
            m temp) w
  = groupby_sum (restrict (has_description v) df) keys.
Proof.
  intros Hm.
  rewrite (frame_of_bind_ok _ _ _ _ _ (getitem_ok _ _ _ _ Hdata Hvd)).
  rewrite series_eq_column.
  rewrite (frame_of_bind_ok _ _ _ _ _ (getitem_mask_ok _ _ _ _ Hdata)).
  rewrite Hm. apply frame_of_groupby. simpl. apply lookup_last_alloc.
Qed.

Lemma filter_group_then_groupby_run group v g keys :
  group ∈ columns df ->
  frame_of (vd <- getitem data (Col "variable_description") ;;
            temp <- getitem_mask data (series_eq vd v) ;;
            s <- getitem temp (Col group) ;;
            temp <- getitem_mask temp (series_eq s g) ;;
            groupby_sum_reset_index temp keys) w
  = groupby_sum (restrict (fun r => has_description v r && in_group group g r) df) keys.
Proof.
  intros Hg.
  rewrite (frame_of_bind_ok _ _ _ _ _ (getitem_ok _ _ _ _ Hdata Hvd)).
  rewrite series_eq_column.
  rewrite (frame_of_bind_ok _ _ _ _ _ (getitem_mask_ok _ _ _ _ Hdata)).
  erewrite frame_of_bind_ok.
  2:{ apply getitem_ok with (df := restrict (has_description v) df);
      [apply lookup_last_alloc | exact Hg]. }
  rewrite series_eq_column.
  erewrite frame_of_bind_ok.
  2:{ apply getitem_mask_ok. apply lookup_last_alloc. }
  rewrite restrict_restrict.
  apply frame_of_groupby. simpl. apply lookup_last_alloc.
Qed.

Lemma quarterly_no_group_run tp :
  frame_of (no_group.working_table data tp) w = Ok (restrict (has_description tp) df).
Proof.
  unfold no_group.working_table.
  rewrite (frame_of_bind_ok _ _ _ _ _ (getitem_ok _ _ _ _ Hdata Hvd)).
  rewrite series_eq_column. now apply frame_of_getitem_mask.
Qed.

Lemma quarterly_with_group_all_run group_col tp :
  frame_of (with_group.working_table data group_col tp (Str "all_values")) w
  = groupby_sum (restrict (has_description tp) df) [Col "YEAR_QTR"].
Proof.
  unfold with_group.working_table. simpl.
  now apply (filter_then_groupby_run (fun l => groupby_sum_reset_index l [Col "YEAR_QTR"])).
Qed.

Lemma quarterly_with_group_one_run group tp geo :
  group ∈ columns df -> py_eq geo (Str "all_values") = false ->
  frame_of (with_group.working_table data (Col group) tp geo) w
  = groupby_sum (restrict (fun r => has_description tp r && in_group group geo r) df)
                [Col "YEAR_QTR"].
Proof.
  intros Hg Hgeo. unfold with_group.working_table. rewrite Hgeo.
  now apply filter_group_then_groupby_run.
Qed.

Lemma quarterly_working_table_all_run group_col vd :
  frame_of (quarterly_working_table data group_col vd None) w
  = groupby_sum (restrict (has_description (Str vd)) df) [Col "YEAR_QTR"].
Proof.
  unfold quarterly_working_table.
  now apply (filter_then_groupby_run (fun l => groupby_sum_reset_index l [Col "YEAR_QTR"])).
Qed.

Lemma quarterly_working_table_one_run group vd v :
  group ∈ columns df ->
  frame_of (quarterly_working_table data (Col group) vd (Some v)) w
  = groupby_sum (restrict (fun r => has_description (Str vd) r && in_group group v r) df)
                [Col "YEAR_QTR"].
Proof.
  intros Hg. unfold quarterly_working_table. now apply filter_group_then_groupby_run.
Qed.

End QuarterlyTables.

(** * Group and sum *)

Section Distinct.
Context {A : Type} `{EqDecision A}.

Lemma distinct_fold (l acc : list A) :
  NoDup acc ->
  NoDup (fold_left distinct_step l acc) /\
  forall x, x ∈ fold_left distinct_step l acc <-> x ∈ acc \/ x ∈ l.
Proof.
  revert acc. induction l as [|a l IH]; intros acc Hacc; simpl.
  - split; [exact Hacc|]. intros x. rewrite elem_of_nil. tauto.
  - unfold distinct_step at 2 4. case_bool_decide as Ha.
    + destruct (IH acc Hacc) as [N M]. split; [exact N|].
      intros x. rewrite M, elem_of_cons. split; [tauto|].
      intros [H|[->|H]]; auto.
    + assert (Hacc' : NoDup (acc ++ [a])).
      { apply NoDup_app. split; [exact Hacc|]. split; [|apply NoDup_singleton].
        intros x Hx Hx'. apply list_elem_of_singleton in Hx'. now subst. }
      destruct (IH _ Hacc') as [N M]. split; [exact N|].
      intros x. rewrite M, elem_of_app, list_elem_of_singleton, elem_of_cons. tauto.
Qed.
End Distinct.

Lemma unique_keys_spec (l : list (list cell)) :
  NoDup (unique_keys l) /\ forall k, k ∈ unique_keys l <-> k ∈ l.
Proof.
  destruct (distinct_fold l [] (NoDup_nil_2)) as [N M]. split; [exact N|].
  intros k. unfold unique_keys. fold (@distinct_step (list cell) _).
  rewrite M, elem_of_nil. tauto.
Qed.

Lemma unique_spec (l : list cell) :
  NoDup (unique l) /\ forall c, c ∈ unique l <-> c ∈ l.
Proof.
  destruct (distinct_fold l [] (NoDup_nil_2)) as [N M]. split; [exact N|].
  intros k. unfold unique. fold (@distinct_step cell _).
  rewrite M, elem_of_nil. tauto.
Qed.

Lemma insert_key_perm k l : Permutation (insert_key k l) (k :: l).
Proof.
  induction l as [|h t IH]; simpl; [reflexivity|].
  destruct (key_compare k h); try reflexivity.
  - rewrite IH. apply perm_swap.
  - rewrite IH. apply perm_swap.
Qed.

Lemma sort_keys_perm l : Permutation (sort_keys l) l.
Proof.
  induction l as [|k l IH]; simpl; [reflexivity|].
  rewrite insert_key_perm. now rewrite IH.
Qed.

Lemma rmap_Forall2 {A B} (f : A -> result B) (l : list A) (ys : list B) :
  rmap f l = Ok ys -> Forall2 (fun x y => f x = Ok y) l ys.
Proof.
  revert ys. induction l as [|x l IH]; simpl; intros ys H.
  - injection H as <-. constructor.
  - destruct (f x) as [y|e] eqn:Hx; simpl in H; [|discriminate].
    destruct (rmap f l) as [ys'|e]; simpl in H; [|discriminate].
    injection H as <-. constructor; [exact Hx | now apply IH].
Qed.

Lemma rmap_total {A B} (f : A -> result B) (l : list A) :
  (forall x, x ∈ l -> exists y, f x = Ok y) -> exists ys, rmap f l = Ok ys.
Proof.
  induction l as [|x l IH]; intros H; simpl; [eauto|].
  destruct (H x) as [y Hy]; [left|]. rewrite Hy. simpl.
  destruct IH as [ys Hys]; [intros z Hz; apply H; now right|].
  rewrite Hys. simpl. eauto.
Qed.

(** The sum of a numeric column. *)
Lemma sum_cells_fold (t : list cell) (st : spec_float * spec_float) :
  (forall c, c ∈ t -> exists x, c = Num x /\ F64.is_nan x = false) ->
  fold_left sum_step t (Ok st) = Ok (fold_left kahan_step (present t) st).
Proof.
  revert st. induction t as [|c t IH]; intros st H; [reflexivity|].
  destruct (H c) as (x & -> & Hx); [left|].
  simpl. rewrite Hx. simpl. apply IH. intros c' Hc'. apply H. now right.
Qed.

Lemma present_filter (cs : list cell) :
  (forall c, c ∈ cs -> exists x, c = Num x) ->
  present (filter (fun c => negb (is_na c)) cs) = present cs /\
  forall c, c ∈ filter (fun c => negb (is_na c)) cs ->
            exists x, c = Num x /\ F64.is_nan x = false.
Proof.
  intros H. split.
  - induction cs as [|c cs IH]; [reflexivity|].
    destruct (H c) as [x ->]; [left|].
    rewrite filter_cons. simpl. destruct (F64.is_nan x) eqn:Hx; simpl.
    + apply IH. intros c' Hc'. apply H. now right.
    + rewrite Hx. f_equal. apply IH. intros c' Hc'. apply H. now right.
  - intros c Hc. apply list_elem_of_filter in Hc as [Hna Hc].
    destruct (H c Hc) as [x ->]. exists x. split; [reflexivity|].
    simpl in Hna. now destruct (F64.is_nan x).
Qed.

Lemma sum_cells_numeric (cs : list cell) :
  (forall c, c ∈ cs -> exists x, c = Num x) ->
  sum_cells cs = Ok (Num (group_sum (present cs))).
Proof.
  intros H. destruct (present_filter cs H) as [Hp Hall].
  unfold sum_cells. rewrite <- Hp.
  destruct (filter (fun c => negb (is_na c)) cs) as [|c t]; [reflexivity|].
  destruct (Hall c) as (x & -> & Hx); [left|].
  now rewrite (sum_cells_fold (Num x :: t) _ Hall).
Qed.

(** The sum of a group is compensated: 10^16, 1 and 1 add up to 10^16 + 2,
    where the plain sum loses both units; get_quarterly_spends_plot plots
    that value for three such rows of one quarter. *)
Example group_sum_is_compensated :
  group_sum [F64.of_Z (10 ^ 16); F64.of_Z 1; F64.of_Z 1] = F64.of_Z (10 ^ 16 + 2) /\
  plain_sum [F64.of_Z (10 ^ 16); F64.of_Z 1; F64.of_Z 1] = F64.of_Z (10 ^ 16) /\
  fst (get_quarterly_spends_plot 0%nat PyNone "TV" None (mkWorld [rounding_frame] []))
  = Ok (Some (mkFigure [mkTrace "" [Str "2021Q1"] [Num (F64.of_Z (10 ^ 16 + 2))]])).
Proof. repeat split; vm_compute; reflexivity. Qed.

(** An infinite value does not turn the sum of a group into NaN. *)
Example group_sum_of_infinities :
  group_sum [F64.pinf; F64.pinf; F64.of_Z 1] = F64.pinf.
Proof. vm_compute. reflexivity. Qed.

Lemma concat_fold (t : list cell) (acc : string) :
  (forall c, c ∈ t -> exists s, c = Str s) ->
  exists s, fold_left (fun acc c => a <-? acc ;; cell_add a c) t (Ok (Str acc)) = Ok (Str s).
Proof.
  revert acc. induction t as [|c t IH]; intros acc H; [simpl; eauto|].
  destruct (H c) as (s & ->); [left|].
  simpl. apply IH. intros c' Hc'. apply H. now right.
Qed.

Lemma sum_cells_text (cs : list cell) :
  (forall c, c ∈ cs -> exists s, c = Str s) -> exists v, sum_cells cs = Ok v.
Proof.
  intros H. unfold sum_cells.
  assert (Hf : forall c, c ∈ filter (fun c => negb (is_na c)) cs -> exists s, c = Str s).
  { intros c Hc. apply list_elem_of_filter in Hc as [_ Hc]. now apply H. }
  destruct (filter (fun c => negb (is_na c)) cs) as [|c t]; [eauto|].
  destruct (Hf c) as [s ->]; [left|].
  destruct (concat_fold t s) as [s' Hs']; [intros c' Hc'; apply Hf; now right|].
  rewrite Hs'. eauto.
Qed.

Lemma cells_of_row (ns : list string) (cs : list cell) (m : row) :
  length ns = length cs ->
  (forall n c, (n, c) ∈ zip ns cs -> m !! n = Some c) ->
  map (fun n => cell_at n m) ns = cs.
Proof.
  revert cs. induction ns as [|n ns IH]; intros [|c cs] Hlen H; try discriminate;
    [reflexivity|].
  simpl. f_equal.
  - unfold cell_at. rewrite (H n c); [reflexivity | left].
  - apply IH; [now injection Hlen|]. intros n' c' Hin. apply H. now right.
Qed.

Lemma sums_of_row (vcols : list string) (vals : list cell) (m : row)
    (f : string -> result cell) :
  Forall2 (fun c v => f c = Ok v) vcols vals ->
  (forall n c, (n, c) ∈ zip vcols vals -> m !! n = Some c) ->
  forall c, c ∈ vcols -> f c = Ok (cell_at c m).
Proof.
  induction 1 as [|c v vcols vals Hcv HF IH]; intros H c' Hc'.
  - now apply elem_of_nil in Hc'.
  - apply elem_of_cons in Hc' as [->|Hc'].
    + unfold cell_at. rewrite (H c v); [exact Hcv | left].
    + apply IH; [|exact Hc']. intros n x Hin. apply H. now right.
Qed.

Lemma key_names_are_columns df keys ks :
  rmap (key_name df) keys = Ok ks -> forall k, k ∈ ks -> k ∈ columns df.
Proof.
  intros H. apply rmap_Forall2 in H. induction H as [|l n keys ks Hl HF IH]; intros k Hk.
  - now apply elem_of_nil in Hk.
  - apply elem_of_cons in Hk as [->|Hk]; [|now apply IH].
    unfold key_name in Hl. destruct l as [n'| |]; try discriminate.
    case_bool_decide; [|discriminate]. now injection Hl as <-.
Qed.

Lemma NoDup_group_columns ks df :
  NoDup ks -> NoDup (columns df) -> NoDup (ks ++ value_columns ks df).
Proof.
  intros Hks Hcols. apply NoDup_app. split; [exact Hks|]. split.
  - intros c Hc Hc'. unfold value_columns in Hc'.
    apply list_elem_of_filter in Hc' as [Hn _]. now apply Hn.
  - unfold value_columns. now apply NoDup_filter.
Qed.

Lemma group_row_cells ks df (k vals : list cell) (r : row) :
  NoDup ks -> NoDup (columns df) ->
  length k = length ks ->
  Forall2 (fun c v => sum_cells (map (cell_at c) (members ks k (live_rows ks df))) = Ok v)
          (value_columns ks df) vals ->
  r = list_to_map (zip ks k ++ zip (value_columns ks df) vals) ->
  key_of ks r = k /\
  forall c, c ∈ value_columns ks df ->
            sum_cells (map (cell_at c) (members ks k (live_rows ks df))) = Ok (cell_at c r).
Proof.
  intros Hks Hcols Hlen HF ->.
  assert (Hlen' : length (value_columns ks df) = length vals)
    by (eapply Forall2_length; exact HF).
  assert (Hnd : NoDup ((zip ks k ++ zip (value_columns ks df) vals).*1)).
  { rewrite fmap_app, !fst_zip by lia. now apply NoDup_group_columns. }
  split.
  - apply cells_of_row; [now symmetry|]. intros n c Hin.
    apply elem_of_list_to_map_1; [exact Hnd|]. apply elem_of_app. now left.
  - apply (sums_of_row _ vals); [exact HF|]. intros n c Hin.
    apply elem_of_list_to_map_1; [exact Hnd|]. apply elem_of_app. now right.
Qed.

Lemma groupby_sum_unfold df keys ks :
  rmap (key_name df) keys = Ok ks ->
  groupby_sum df keys =
  (rs <-? rmap (fun g =>
                  vals <-? rmap (fun c => sum_cells (map (cell_at c)
                                                       (members ks g (live_rows ks df))))
                                (value_columns ks df) ;;
                  Ok (list_to_map (zip ks g ++ zip (value_columns ks df) vals) : row))
               (group_list ks df) ;;
   Ok (mkDataFrame (ks ++ value_columns ks df) rs)).
Proof. intros H. unfold groupby_sum. rewrite H. reflexivity. Qed.

Lemma group_list_spec ks df :
  NoDup (group_list ks df) /\
  forall k, k ∈ group_list ks df <->
            exists r, r ∈ rows df /\ key_of ks r = k /\ no_missing k = true.
Proof.
  unfold group_list.
  destruct (unique_keys_spec (map (key_of ks) (live_rows ks df))) as [N M].
  split.
  - now rewrite sort_keys_perm.
  - intros k. rewrite sort_keys_perm, M. rewrite list_elem_of_fmap.
    unfold live_rows. split.
    + intros (r & -> & Hr). apply list_elem_of_filter in Hr as [Hk Hr].
      exists r. repeat split; [exact Hr | now apply Is_true_eq_true].
    + intros (r & Hr & <- & Hk). exists r. split; [reflexivity|].
      apply list_elem_of_filter. split; [now apply Is_true_eq_left | exact Hr].
Qed.

Lemma group_list_length ks df k : k ∈ group_list ks df -> length k = length ks.
Proof.
  intros Hk. apply group_list_spec in Hk as (r & _ & <- & _).
  unfold key_of. now rewrite length_map.
Qed.

(** The rows of the result, against the list of groups. *)
Lemma groupby_sum_rows df keys ks g :
  rmap (key_name df) keys = Ok ks -> NoDup ks -> NoDup (columns df) ->
  groupby_sum df keys = Ok g ->
  columns g = ks ++ value_columns ks df /\
  Forall2 (fun k r =>
             key_of ks r = k /\
             forall c, c ∈ value_columns ks df ->
                       sum_cells (map (cell_at c) (members ks k (live_rows ks df)))
                       = Ok (cell_at c r))
          (group_list ks df) (rows g).
Proof.
  intros Hkeys Hks Hcols Hg. rewrite (groupby_sum_unfold _ _ _ Hkeys) in Hg.
  destruct (rmap _ (group_list ks df)) as [rs|e] eqn:Hrs; simpl in Hg; [|discriminate].
  injection Hg as <-. simpl. split; [reflexivity|].
  apply rmap_Forall2 in Hrs.
  assert (Hlen : Forall (fun k => length k = length ks) (group_list ks df)).
  { apply Forall_forall. intros k Hk. now apply group_list_length in Hk. }
  induction Hrs as [|k r gs rs Hkr HF IH]; [constructor|].
  apply Forall_cons in Hlen as [Hk Hlen].
  constructor; [|now apply IH].
  destruct (rmap _ (value_columns ks df)) as [vals|e] eqn:Hvals; simpl in Hkr; [|discriminate].
  injection Hkr as <-. apply rmap_Forall2 in Hvals.
  now apply (group_row_cells ks df k vals).
Qed.

Lemma members_live ks df k :
  no_missing k = true ->
  members ks k (live_rows ks df) = filter (fun r => key_of ks r = k) (rows df).
Proof.
  intros Hk. unfold members, live_rows.
  induction (rows df) as [|r rs IH]; [reflexivity|].
  rewrite (filter_cons _ r rs), (filter_cons (fun r => key_of ks r = k) r rs).
  destruct (decide (key_of ks r = k)) as [Heq|Hne].
  - unfold no_missing in Hk. rewrite Heq, Hk. simpl.
    rewrite filter_cons, decide_True by exact Heq. now rewrite IH.
  - destruct (forallb _ (key_of ks r)); simpl; [|exact IH].
    rewrite filter_cons, decide_False by exact Hne. exact IH.
Qed.

Lemma members_rows ks df k r : r ∈ members ks k (live_rows ks df) -> r ∈ rows df.
Proof.
  unfold members, live_rows. intros H.
  apply list_elem_of_filter in H as [_ H]. now apply list_elem_of_filter in H as [_ H].
Qed.

Lemma sum_cells_summable ks df k c :
  summable c (rows df) ->
  exists v, sum_cells (map (cell_at c) (members ks k (live_rows ks df))) = Ok v.
Proof.
  intros [Hn|Ht].
  - eexists. apply sum_cells_numeric. intros x Hx.
    apply list_elem_of_fmap in Hx as (r & -> & Hr). apply Hn. eapply members_rows, Hr.
  - apply sum_cells_text. intros x Hx.
    apply list_elem_of_fmap in Hx as (r & -> & Hr). apply Ht. eapply members_rows, Hr.
Qed.

Lemma groupby_sum_total df keys ks :
  rmap (key_name df) keys = Ok ks ->
  (forall c, c ∈ columns df -> c ∉ ks -> summable c (rows df)) ->
  exists g, groupby_sum df keys = Ok g.
Proof.
  intros Hkeys Hsum. rewrite (groupby_sum_unfold _ _ _ Hkeys).
  match goal with |- context [rmap ?f (group_list ks df)] =>
    destruct (rmap_total f (group_list ks df)) as [rs Hrs] end.
  - intros k _.
    match goal with |- context [rmap ?f (value_columns ks df)] =>
      destruct (rmap_total f (value_columns ks df)) as [vals Hvals] end.
    + intros c Hc. apply list_elem_of_filter in Hc as [Hn Hc].
      apply sum_cells_summable. now apply Hsum.
    + rewrite Hvals. simpl. eauto.
  - rewrite Hrs. simpl. eauto.
Qed.

Lemma Forall2_keys ks (P : list cell -> row -> Prop) (gs : list (list cell)) (rs : list row) :
  Forall2 (fun k r => key_of ks r = k /\ P k r) gs rs -> map (key_of ks) rs = gs.
Proof. induction 1 as [|k r gs rs [Hk _] _ IH]; simpl; [reflexivity | now rewrite Hk, IH]. Qed.

Lemma Forall2_row ks (P : list cell -> row -> Prop) (gs : list (list cell)) (rs : list row) r :
  Forall2 (fun k r => key_of ks r = k /\ P k r) gs rs -> r ∈ rs ->
  key_of ks r ∈ gs /\ P (key_of ks r) r.
Proof.
  induction 1 as [|k r' gs rs [Hk HP] _ IH]; intros Hr.
  - now apply elem_of_nil in Hr.
  - apply elem_of_cons in Hr as [->|Hr].
    + rewrite Hk. split; [left | exact HP].
    + destruct (IH Hr) as [H1 H2]. split; [now right | exact H2].
Qed.

Lemma groupby_sum_numeric_cell df keys ks g r c :
  rmap (key_name df) keys = Ok ks -> NoDup ks -> NoDup (columns df) ->
  groupby_sum df keys = Ok g ->
  r ∈ rows g -> c ∈ columns df -> c ∉ ks ->
  (forall r', r' ∈ rows df -> exists x, cell_at c r' = Num x) ->
  cell_at c r
  = Num (group_sum (present (map (cell_at c)
                              (filter (fun r' => key_of ks r' = key_of ks r) (rows df))))).
Proof.
  intros Hkeys Hks Hcols Hg Hr Hc Hnk Hnum.
  destruct (groupby_sum_rows _ _ _ _ Hkeys Hks Hcols Hg) as [_ HF].
  destruct (group_list_spec ks df) as [_ M].
  destruct (Forall2_row _ _ _ _ r HF Hr) as [Hk Hs].
  assert (Hv : c ∈ value_columns ks df) by (apply list_elem_of_filter; now split).
  specialize (Hs c Hv).
  apply M in Hk as (_ & _ & _ & Hk).
  rewrite (members_live _ _ _ Hk) in Hs.
  rewrite sum_cells_numeric in Hs.
  - now injection Hs as <-.
  - intros x Hx. apply list_elem_of_fmap in Hx as (r' & -> & Hr').
    apply list_elem_of_filter in Hr' as [_ Hr']. now apply Hnum.
Qed.

Lemma groupby_sum_columns df keys ks g :
  rmap (key_name df) keys = Ok ks -> groupby_sum df keys = Ok g ->
  forall c, c ∈ columns df -> c ∈ columns g.
Proof.
  intros Hkeys Hg c Hc. rewrite (groupby_sum_unfold _ _ _ Hkeys) in Hg.
  destruct (rmap _ (group_list ks df)) as [rs|e]; simpl in Hg; [|discriminate].
  injection Hg as <-. simpl. apply elem_of_app.
  destruct (decide (c ∈ ks)) as [Hin|Hout]; [now left | right].
  apply list_elem_of_filter. now split.
Qed.



(** * The working tables of the actual-versus-predicted functions *)

Section ActualVsPredictedTables.
Import get_actual_vs_predicted_plot_interact.

Context (w : world) (data : loc) (df : DataFrame).
Hypothesis Hdata : heap w !! data = Some df.

Lemma update_figure_all_run date_col group_col :
  frame_of (working_table data date_col group_col (Str "select_all")) w
  = groupby_sum df [date_col].
Proof. unfold working_table. simpl. now apply frame_of_groupby. Qed.

Lemma update_figure_one_run date_col group g :
  group ∈ columns df -> py_eq g (Str "select_all") = false ->
  frame_of (working_table data date_col (Col group) g) w
  = Ok (restrict (in_group group g) df).
Proof.
  intros Hg Hsel. unfold working_table. rewrite Hsel.
  rewrite (frame_of_bind_ok _ _ _ _ _ (getitem_ok _ _ _ _ Hdata Hg)).
  rewrite series_eq_column. now apply frame_of_getitem_mask.
Qed.

Lemma frame_of_ret_some (m : M loc) w0 :
  frame_of (f <- (f <- m ;; ret (Some f)) ;; local "filtered_df" f) w0 = frame_of m w0.
Proof.
  unfold frame_of, bind, ret. destruct (m w0) as [[l|e] w1]; reflexivity.
Qed.

Lemma plotted_table_none_run date_col group_col :
  frame_of (plotted_table data date_col group_col None) w = groupby_sum df [date_col].
Proof.
  unfold plotted_table, actual_vs_predicted_working_table.
  rewrite frame_of_ret_some. now apply frame_of_groupby.
Qed.

Lemma plotted_table_all_run date_col group_col v :
  py_eq v (Str "all") = true ->
  frame_of (plotted_table data date_col group_col (Some v)) w = groupby_sum df [date_col].
Proof.
  intros Hv. unfold plotted_table, actual_vs_predicted_working_table. rewrite Hv.
  rewrite frame_of_ret_some. now apply frame_of_groupby.
Qed.

Lemma plotted_table_one_run date_col group v :
  group ∈ columns df -> py_eq v (Str "all") = false ->
  frame_of (plotted_table data date_col (Col group) (Some v)) w
  = Ok (restrict (in_group group v) df).
Proof.
  intros Hg Hv. unfold plotted_table, actual_vs_predicted_working_table. rewrite Hv.
  unfold frame_of, bind at 1, try_except.
  rewrite (bind_ok _ _ _ _ _ (getitem_ok _ _ _ _ Hdata Hg)).
  rewrite series_eq_column.
  rewrite (bind_ok _ _ _ _ _ (getitem_mask_ok _ _ _ _ Hdata)).
  erewrite bind_ok; [|apply deref_ok; simpl; apply lookup_last_alloc].
  simpl. now rewrite lookup_last_alloc.
Qed.

End ActualVsPredictedTables.

(** * Aggregation and the requested group *)

(** C3 (amended): when a specific sub-group is requested, the
    group-and-sum aggregation is skipped in get_actual_vs_predicted_plot and
    in the update_figure callback, whose working table is the filtered rows
    as they are; in get_quarterly_spends_plot and in the update_graph1
    callbacks of both dashboards the aggregation runs on the rows of the
    requested group all the same; get_spend_vs_activity_plot never
    aggregates. *)
Theorem aggregation_with_a_specific_group (w : world) (data : loc) (df : DataFrame)
    (group : string) (v : cell) :
  heap w !! data = Some df ->
  group ∈ columns df ->
  (forall date_col,
      py_eq v (Str "all") = false ->
      frame_of (plotted_table data date_col (Col group) (Some v)) w
      = Ok (restrict (in_group group v) df)) /\
  (forall date_col,
      py_eq v (Str "select_all") = false ->
      frame_of (get_actual_vs_predicted_plot_interact.working_table
                  data date_col (Col group) v) w
      = Ok (restrict (in_group group v) df)) /\
  (forall vd,
      "variable_description" ∈ columns df ->
      frame_of (quarterly_working_table data (Col group) vd (Some v)) w
      = groupby_sum (restrict (fun r => has_description (Str vd) r && in_group group v r) df)
                    [Col "YEAR_QTR"]) /\
  (forall tp,
      "variable_description" ∈ columns df ->
      py_eq v (Str "all_values") = false ->
      frame_of (get_quarterly_spends_plot_interact.with_group.working_table
                  data (Col group) tp v) w
      = groupby_sum (restrict (fun r => has_description tp r && in_group group v r) df)
                    [Col "YEAR_QTR"]) /\
  (forall date tp act start_date end_date,
      "variable_description" ∈ columns df -> "activity_type" ∈ columns df ->
      date ∈ columns df ->
      (forall r, r ∈ rows df -> comparable date start_date end_date r) ->
      py_eq v (Str "all_values") = false ->
      frame_of (get_spend_vs_activity_plot_interact.with_group.working_table
                  data (Col date) (Col group) tp act v start_date end_date) w
      = groupby_sum
          (restrict (fun r => exact_pred date tp act start_date end_date r
                              && in_group group v r) df)
          (get_spend_vs_activity_plot_interact.group_keys (Col date))) /\
  (forall date vd act start_date end_date,
      "variable_description" ∈ columns df -> "activity_type" ∈ columns df ->
      date ∈ columns df ->
      (forall r, r ∈ rows df -> comparable date start_date end_date r) ->
      frame_of (spend_activity_working_table data vd act start_date end_date
                  (Col date) (Col group) (Some v)) w
      = Ok (restrict (fun r => lower_pred date vd act start_date end_date r
                               && in_group group v r) df)).
Proof.
  intros Hdata Hg. repeat split.
  - intros. now apply plotted_table_one_run.
  - intros. now apply update_figure_one_run.
  - intros. now apply quarterly_working_table_one_run.
  - intros. now apply quarterly_with_group_one_run.
  - intros. now apply with_group_one_run.
  - intros. now apply spend_activity_working_table_one_run.
Qed.

Lemma aggregation_with_a_specific_group_witness :
  frame_of (quarterly_working_table 0%nat (Col "region") "TV" (Some (Str "north")))
           quarterly_world
  = groupby_sum
      (restrict (fun r => has_description (Str "TV") r && in_group "region" (Str "north") r)
                quarterly_frame)
      [Col "YEAR_QTR"].
Proof.
  apply (aggregation_with_a_specific_group quarterly_world 0%nat quarterly_frame
           "region" (Str "north")).
  all: try reflexivity.
  - apply (bool_decide_unpack _). vm_compute. exact I.
  - apply (bool_decide_unpack _). vm_compute. exact I.
Defined.

(** C3 as stated fails: get_quarterly_spends_plot is asked for the group
    "north"; three rows pass the filter, with values 10, 5 and 1, and the
    chart shows the two sums 15 and 1 of the aggregation by quarter. *)
Lemma aggregation_not_skipped_counterexample :
  map (cell_at "value")
      (rows (restrict (fun r => has_description (Str "TV") r
                                && in_group "region" (Str "north") r) quarterly_frame))
  = [Num (F64.of_Z 10); Num (F64.of_Z 5); Num (F64.of_Z 1)] /\
  fst (get_quarterly_spends_plot 0%nat (Col "region") "TV" (Some (Str "north"))
         quarterly_world)
  = Ok (Some (mkFigure [mkTrace "" [Str "2021Q1"; Str "2021Q2"]
                                [Num (F64.of_Z 15); Num (F64.of_Z 1)]])) /\
  frame_of (quarterly_working_table 0%nat (Col "region") "TV" (Some (Str "north")))
           quarterly_world
  <> Ok (restrict (fun r => has_description (Str "TV") r
                            && in_group "region" (Str "north") r) quarterly_frame).
Proof.
  split; [vm_compute; reflexivity|]. split; [vm_compute; reflexivity|].
  intros H. apply (f_equal (fun r => match r with
                                     | Ok d => length (rows d)
                                     | Raise _ => 0%nat
                                     end)) in H.
  vm_compute in H. discriminate.
Qed.

(** * The sentinels of the group selector *)

(** C6 (amended): with the sentinel of the function at hand, which is
    "all_values" in the update_graph1 callbacks, "select_all" in
    update_figure, None in the three static functions and also "all" in
    get_actual_vs_predicted_plot alone, no group-equality predicate is
    applied: the table handed to the aggregation, or plotted as it is,
    holds the rows of every group that satisfy the remaining predicates. *)
Theorem sentinel_applies_no_group_filter (w : world) (data : loc) (df : DataFrame) :
  heap w !! data = Some df ->
  (forall date_col group_col,
      frame_of (plotted_table data date_col group_col None) w
      = groupby_sum df [date_col]) /\
  (forall date_col group_col v,
      py_eq v (Str "all") = true ->
      frame_of (plotted_table data date_col group_col (Some v)) w
      = groupby_sum df [date_col]) /\
  (forall date_col group_col,
      frame_of (get_actual_vs_predicted_plot_interact.working_table
                  data date_col group_col (Str "select_all")) w
      = groupby_sum df [date_col]) /\
  (forall group_col vd,
      "variable_description" ∈ columns df ->
      frame_of (quarterly_working_table data group_col vd None) w
      = groupby_sum (restrict (has_description (Str vd)) df) [Col "YEAR_QTR"]) /\
  (forall group_col tp,
      "variable_description" ∈ columns df ->
      frame_of (get_quarterly_spends_plot_interact.with_group.working_table
                  data group_col tp (Str "all_values")) w
      = groupby_sum (restrict (has_description tp) df) [Col "YEAR_QTR"]) /\
  (forall date group_col tp act start_date end_date,
      "variable_description" ∈ columns df -> "activity_type" ∈ columns df ->
      date ∈ columns df ->
      (forall r, r ∈ rows df -> comparable date start_date end_date r) ->
      frame_of (get_spend_vs_activity_plot_interact.with_group.working_table
                  data (Col date) group_col tp act (Str "all_values") start_date end_date) w
      = groupby_sum (restrict (exact_pred date tp act start_date end_date) df)
                    (get_spend_vs_activity_plot_interact.group_keys (Col date))) /\
  (forall date group_col vd act start_date end_date,
      "variable_description" ∈ columns df -> "activity_type" ∈ columns df ->
      date ∈ columns df ->
      (forall r, r ∈ rows df -> comparable date start_date end_date r) ->
      frame_of (spend_activity_working_table data vd act start_date end_date
                  (Col date) group_col None) w
      = Ok (restrict (lower_pred date vd act start_date end_date) df)) /\
  (forall (rest : row -> bool) r,
      r ∈ rows df -> rest r = true -> r ∈ rows (restrict rest df)).
Proof.
  intros Hdata. repeat split.
  - intros. now apply plotted_table_none_run.
  - intros. now apply plotted_table_all_run.
  - intros. now apply update_figure_all_run.
  - intros. now apply quarterly_working_table_all_run.
  - intros. now apply quarterly_with_group_all_run.
  - intros. now apply with_group_all_run.
  - intros. now apply spend_activity_working_table_all_run.
  - intros rest r Hr Hrest. apply elem_of_restrict. now split.
Qed.

Lemma sentinel_applies_no_group_filter_witness :
  frame_of (quarterly_working_table 0%nat (Col "region") "TV" None) quarterly_world
  = groupby_sum (restrict (has_description (Str "TV")) quarterly_frame) [Col "YEAR_QTR"].
Proof.
  apply (sentinel_applies_no_group_filter quarterly_world 0%nat quarterly_frame).
  all: try reflexivity.
  apply (bool_decide_unpack _). vm_compute. exact I.
Defined.

(** C6 as stated fails: "all" is no sentinel of get_quarterly_spends_plot.
    All four rows of the table satisfy the remaining predicate; with
    group_value None the chart shows their sums by quarter, with group_value
    "all" the equality with "all" is applied to the group column and the
    chart is empty. *)
Lemma all_is_a_group_value_counterexample :
  length (rows (restrict (has_description (Str "TV")) quarterly_frame)) = 4%nat /\
  fst (get_quarterly_spends_plot 0%nat (Col "region") "TV" None quarterly_world)
  = Ok (Some (mkFigure [mkTrace "" [Str "2021Q1"; Str "2021Q2"]
                                [Num (F64.of_Z 22); Num (F64.of_Z 1)]])) /\
  fst (get_quarterly_spends_plot 0%nat (Col "region") "TV" (Some (Str "all"))
         quarterly_world)
  = Ok (Some (mkFigure [mkTrace "" [] []])) /\
  frame_of (quarterly_working_table 0%nat (Col "region") "TV" (Some (Str "all")))
           quarterly_world
  = groupby_sum
      (restrict (fun r => has_description (Str "TV") r && in_group "region" (Str "all") r)
                quarterly_frame)
      [Col "YEAR_QTR"].
Proof. repeat split; vm_compute; reflexivity. Qed.

(** * Case of the selectors *)

(** Every row that passes the Row Filter of get_spend_vs_activity_plot
    satisfies each predicate: both text columns equal the selectors up to
    case, the date lies within the inclusive range, and the group column
    equals the requested value. *)
Lemma lower_filter_sound date vd act start_date end_date group v (r : row) :
  lower_pred date vd act start_date end_date r && in_group group v r = true ->
  lowered (cell_at "variable_description" r) = Str (lower vd) /\
  lowered (cell_at "activity_type" r) = Str (lower act) /\
  py_ge (cell_at date r) start_date = Ok true /\
  py_le (cell_at date r) end_date = Ok true /\
  py_eq (cell_at group r) v = true.
Proof.
  unfold lower_pred, in_group. rewrite !andb_true_iff.
  intros [[[[H1 H2] H3] H4] H5]. repeat split; try assumption.
  - destruct (lowered (cell_at "variable_description" r)); try discriminate.
    simpl in H1. apply bool_decide_eq_true in H1. now subst.
  - destruct (lowered (cell_at "activity_type" r)); try discriminate.
    simpl in H2. apply bool_decide_eq_true in H2. now subst.
  - destruct (py_ge (cell_at date r) start_date) as [[]|]; simpl in H3;
      try discriminate; reflexivity.
  - destruct (py_le (cell_at date r) end_date) as [[]|]; simpl in H4;
      try discriminate; reflexivity.
Qed.

(** The rows of the working table of get_spend_vs_activity_plot are rows
    of the table that satisfy every predicate of the filter. *)
Lemma spend_activity_rows_pass_filter w data df date vd act start_date end_date
    group v t r :
  heap w !! data = Some df ->
  "variable_description" ∈ columns df -> "activity_type" ∈ columns df ->
  date ∈ columns df -> group ∈ columns df ->
  (forall r, r ∈ rows df -> comparable date start_date end_date r) ->
  frame_of (spend_activity_working_table data vd act start_date end_date
              (Col date) (Col group) (Some v)) w = Ok t ->
  r ∈ rows t ->
  r ∈ rows df /\
  lowered (cell_at "variable_description" r) = Str (lower vd) /\
  lowered (cell_at "activity_type" r) = Str (lower act) /\
  py_ge (cell_at date r) start_date = Ok true /\
  py_le (cell_at date r) end_date = Ok true /\
  py_eq (cell_at group r) v = true.
Proof.
  intros Hl Hvd Hact Hdate Hg Hcmp Ht Hr.
  rewrite (spend_activity_working_table_one_run w data df date start_date end_date
             Hl Hvd Hact Hdate Hcmp vd act group v Hg) in Ht.
  injection Ht as <-. apply elem_of_restrict in Hr as [Hp Hr].
  split; [exact Hr|]. now apply lower_filter_sound.
Qed.

(** C4 (the code at the failing input): get_quarterly_spends_plot accepts
    the selector "tv" for a table whose variable description is "TV" (the
    validator lowers both sides, nothing is printed), and then filters with
    the exact equality of line 600, which no row passes: the chart is
    empty, where the selector "TV" plots the sums of the four rows.
    get_spend_vs_activity_plot, which lowers both sides in its filter too,
    selects the three rows of its table for "tv". *)
Theorem quarterly_filter_is_case_sensitive :
  get_quarterly_spends_plot 0%nat (Col "region") "tv" None quarterly_world
  = (Ok (Some (mkFigure [mkTrace "" [] []])),
     mkWorld [quarterly_frame;
              restrict (has_description (Str "tv")) quarterly_frame;
              mkDataFrame ["YEAR_QTR"; "variable_description"; "region"; "value"] []]
             []) /\
  rows (restrict (has_description (Str "tv")) quarterly_frame) = [] /\
  fst (get_quarterly_spends_plot 0%nat (Col "region") "TV" None quarterly_world)
  = Ok (Some (mkFigure [mkTrace "" [Str "2021Q1"; Str "2021Q2"]
                                [Num (F64.of_Z 22); Num (F64.of_Z 1)]])) /\
  frame_of (spend_activity_working_table 0%nat "tv" "impressions" (Date 1) (Date 3)
              (Col "date") PyNone None) scenario_world
  = Ok scenario_frame.
Proof. repeat split; vm_compute; reflexivity. Qed.

(** * The Selector Validator *)

Lemma for_each_print_run (l : list cell) w :
  for_each (fun v => print (PCell v)) l w
  = (Ok tt, mkWorld (heap w) (stdout w ++ map PCell l)).
Proof.
  revert w. induction l as [|c l IH]; intros w; simpl.
  - unfold ret. rewrite app_nil_r. now destruct w.
  - unfold bind, print. rewrite IH. simpl. now rewrite <- app_assoc.
Qed.

Lemma validator_report_run value line (values : list cell) w :
  (print (PText (not_available value line)) ;;;
   for_each (fun v => print (PCell v)) values ;;;
   ret (@None figure)) w
  = (Ok None,
     mkWorld (heap w) (stdout w ++ PText (not_available value line) :: map PCell values)).
Proof.
  unfold bind at 1. unfold print at 1. unfold bind. rewrite for_each_print_run.
  simpl. unfold ret. now rewrite <- app_assoc.
Qed.

Lemma in_map_lower_absent x (cs : list cell) :
  (forall c, c ∈ cs -> exists s, c = Str s /\ lower s <> x) ->
  in_map_lower x cs = Ok false.
Proof.
  induction cs as [|c cs IH]; intros H; [reflexivity|].
  destruct (H c) as (s & -> & Hs); [left|]. simpl.
  rewrite bool_decide_eq_false_2 by exact Hs.
  apply IH. intros c' Hc'. apply H. now right.
Qed.

Lemma in_map_lower_found x (cs : list cell) :
  (forall c, c ∈ cs -> exists s, c = Str s) ->
  (exists s, Str s ∈ cs /\ lower s = x) ->
  in_map_lower x cs = Ok true.
Proof.
  induction cs as [|c cs IH]; intros H (s & Hin & Hs).
  - now apply elem_of_nil in Hin.
  - destruct (H c) as (s' & ->); [left|]. simpl.
    case_bool_decide as Hd; [reflexivity|].
    apply IH; [intros c' Hc'; apply H; now right|].
    exists s. split; [|exact Hs].
    apply elem_of_cons in Hin as [Heq|Hin]; [|exact Hin].
    injection Heq as ->. contradiction.
Qed.

Lemma bind_world {A B} (m : M A) (k : A -> M B) w :
  snd (m w) = w -> (forall a, snd (k a w) = w) -> snd (bind m k w) = w.
Proof.
  intros Hm Hk. unfold bind. destruct (m w) as [[a|e] w'] eqn:E; simpl in *; subst.
  - apply Hk.
  - reflexivity.
Qed.

Lemma getitem_world l c w : snd (getitem l c w) = w.
Proof.
  unfold getitem. apply bind_world; [|reflexivity].
  unfold deref. now destruct (heap w !! l).
Qed.

Lemma tuple_get_world {A} (t : list A) i w : snd (tuple_get t i w) = w.
Proof. unfold tuple_get. now destruct (t !! i). Qed.

Lemma date_bounds_world data date_range date_col w :
  snd (date_bounds data date_range date_col w) = w.
Proof.
  unfold date_bounds. case_bool_decide.
  - apply bind_world; [apply getitem_world | intros d1].
    apply bind_world; [reflexivity | intros a].
    apply bind_world; [apply getitem_world | intros d2].
    apply bind_world; [reflexivity | intros b; reflexivity].
  - apply bind_world; [apply tuple_get_world | intros a].
    apply bind_world; [apply tuple_get_world | intros b; reflexivity].
Qed.

Lemma date_bounds_ok data date_range date_col w sd ed :
  fst (date_bounds data date_range date_col w) = Ok (sd, ed) ->
  date_bounds data date_range date_col w = (Ok (sd, ed), w).
Proof.
  intros H. rewrite (surjective_pairing (date_bounds data date_range date_col w)).
  now rewrite H, date_bounds_world.
Qed.

Lemma elem_of_unique (l : list cell) c : c ∈ unique l <-> c ∈ l.
Proof. apply unique_spec. Qed.

Lemma column_cells_text c (rs : list row) (P : string -> Prop) :
  (forall r, r ∈ rs -> exists s, cell_at c r = Str s /\ P s) ->
  forall x, x ∈ unique (map (cell_at c) rs) -> exists s, x = Str s /\ P s.
Proof.
  intros H x Hx. apply (proj1 (elem_of_unique _ _)) in Hx.
  apply list_elem_of_fmap in Hx as (r & -> & Hr). now apply H.
Qed.

Section Validator.
Context (w : world) (data : loc) (df : DataFrame).
Hypothesis Hdata : heap w !! data = Some df.
Hypothesis Hvd : "variable_description" ∈ columns df.

Lemma quarterly_validator_run group_col x gv :
  (forall r, r ∈ rows df ->
             exists s, cell_at "variable_description" r = Str s /\ lower s <> lower x) ->
  get_quarterly_spends_plot data group_col x gv w
  = (Ok None,
     mkWorld (heap w)
             (stdout w ++ PText (not_available x available)
                        :: map PCell (unique (map (cell_at "variable_description") (rows df))))).
Proof.
  intros Hno. unfold get_quarterly_spends_plot.
  rewrite (bind_ok _ _ _ _ _ (getitem_ok _ _ _ _ Hdata Hvd)).
  unfold lift at 1, bind at 1.
  rewrite in_map_lower_absent by (apply column_cells_text; exact Hno).
  simpl. apply validator_report_run.
Qed.

Lemma spend_activity_variable_validator_run x act date_range date_col group_col gv sd ed :
  fst (date_bounds data date_range date_col w) = Ok (sd, ed) ->
  (forall r, r ∈ rows df ->
             exists s, cell_at "variable_description" r = Str s /\ lower s <> lower x) ->
  get_spend_vs_activity_plot data x act date_range date_col group_col gv w
  = (Ok None,
     mkWorld (heap w)
             (stdout w ++ PText (not_available x availabale)
                        :: map PCell (unique (map (cell_at "variable_description") (rows df))))).
Proof.
  intros Hb Hno. unfold get_spend_vs_activity_plot.
  rewrite (bind_ok _ _ _ _ _ (date_bounds_ok _ _ _ _ _ _ Hb)).
  rewrite (bind_ok _ _ _ _ _ (getitem_ok _ _ _ _ Hdata Hvd)).
  unfold lift at 1, bind at 1.
  rewrite in_map_lower_absent by (apply column_cells_text; exact Hno).
  simpl. apply validator_report_run.
Qed.

Lemma spend_activity_activity_validator_run x act date_range date_col group_col gv sd ed :
  fst (date_bounds data date_range date_col w) = Ok (sd, ed) ->
  "activity_type" ∈ columns df ->
  (forall r, r ∈ rows df -> exists s, cell_at "variable_description" r = Str s) ->
  (exists r s, r ∈ rows df /\ cell_at "variable_description" r = Str s /\ lower s = lower x) ->
  (forall r, r ∈ rows df -> described x r = true ->
             exists s, cell_at "activity_type" r = Str s /\ lower s <> lower act) ->
  get_spend_vs_activity_plot data x act date_range date_col group_col gv w
  = (Ok None,
     mkWorld (heap w ++ [restrict (described x) df])
             (stdout w ++ PText (not_available act availabale)
                        :: map PCell (unique (map (cell_at "activity_type")
                                                  (rows (restrict (described x) df)))))).
Proof.
  intros Hb Hact Htext (r0 & s0 & Hr0 & Hs0 & Hlow) Hno. unfold get_spend_vs_activity_plot.
  rewrite (bind_ok _ _ _ _ _ (date_bounds_ok _ _ _ _ _ _ Hb)).
  rewrite (bind_ok _ _ _ _ _ (getitem_ok _ _ _ _ Hdata Hvd)).
  unfold lift at 1, bind at 1.
  rewrite in_map_lower_found.
  2:{ intros c Hc. destruct (column_cells_text _ _ (fun _ => True)
                               (fun r Hr => match Htext r Hr with
                                            | ex_intro _ s e => ex_intro _ s (conj e I)
                                            end) c Hc) as (s & -> & _).
      eauto. }
  2:{ exists s0. split; [|exact Hlow]. apply elem_of_unique.
      apply list_elem_of_fmap. exists r0. split; [now symmetry | exact Hr0]. }
  simpl.
  rewrite (bind_ok _ _ _ _ _ (getitem_ok _ _ _ _ Hdata Hvd)).
  rewrite series_eq_lower_column.
  rewrite (bind_ok _ _ _ _ _ (getitem_mask_ok _ _ _ (described x) Hdata)).
  erewrite bind_ok.
  2:{ apply getitem_ok with (df := restrict (described x) df);
        [apply lookup_last_alloc | exact Hact]. }
  unfold lift at 1, bind at 1.
  rewrite in_map_lower_absent.
  2:{ apply column_cells_text. intros r Hr. apply elem_of_restrict in Hr as [Hd Hr].
      now apply Hno. }
  simpl. now rewrite validator_report_run.
Qed.

End Validator.

(** C5 (amended): a variable description that is not among the distinct
    values of its column, compared up to case, is reported together with
    the full list of distinct values of that column, by
    get_quarterly_spends_plot and (once the date range is known) by
    get_spend_vs_activity_plot, and the function returns without a chart.
    An activity type that is not among the distinct values of its column is
    reported too, and no chart is produced, but the list that is printed is
    the list of distinct activity types of the rows of the requested
    variable, not of the whole column. *)
Theorem validator_reports_unknown_selector (w : world) (data : loc) (df : DataFrame) :
  heap w !! data = Some df ->
  "variable_description" ∈ columns df ->
  (forall group_col x gv,
      (forall r, r ∈ rows df ->
                 exists s, cell_at "variable_description" r = Str s /\ lower s <> lower x) ->
      get_quarterly_spends_plot data group_col x gv w
      = (Ok None,
         mkWorld (heap w)
                 (stdout w ++ PText (not_available x available)
                            :: map PCell (unique (map (cell_at "variable_description")
                                                      (rows df)))))) /\
  (forall x act date_range date_col group_col gv sd ed,
      fst (date_bounds data date_range date_col w) = Ok (sd, ed) ->
      (forall r, r ∈ rows df ->
                 exists s, cell_at "variable_description" r = Str s /\ lower s <> lower x) ->
      get_spend_vs_activity_plot data x act date_range date_col group_col gv w
      = (Ok None,
         mkWorld (heap w)
                 (stdout w ++ PText (not_available x availabale)
                            :: map PCell (unique (map (cell_at "variable_description")
                                                      (rows df)))))) /\
  (forall x act date_range date_col group_col gv sd ed,
      fst (date_bounds data date_range date_col w) = Ok (sd, ed) ->
      "activity_type" ∈ columns df ->
      (forall r, r ∈ rows df -> exists s, cell_at "variable_description" r = Str s) ->
      (exists r s, r ∈ rows df /\ cell_at "variable_description" r = Str s /\
                   lower s = lower x) ->
      (forall r, r ∈ rows df ->
                 exists s, cell_at "activity_type" r = Str s /\ lower s <> lower act) ->
      get_spend_vs_activity_plot data x act date_range date_col group_col gv w
      = (Ok None,
         mkWorld (heap w ++ [restrict (described x) df])
                 (stdout w ++ PText (not_available act availabale)
                            :: map PCell (unique (map (cell_at "activity_type")
                                                      (rows (restrict (described x) df))))))).
Proof.
  intros Hdata Hvd. repeat split.
  - intros. now apply quarterly_validator_run.
  - intros. eapply spend_activity_variable_validator_run; eassumption.
  - intros x act date_range date_col group_col gv sd ed Hb Hact Htext Hex Hno.
    eapply spend_activity_activity_validator_run; try eassumption.
    intros r Hr _. now apply Hno.
Qed.

Lemma validator_reports_unknown_selector_witness :
  get_quarterly_spends_plot 0%nat (Col "region") "Radio" None quarterly_world
  = (Ok None,
     mkWorld (heap quarterly_world)
             (stdout quarterly_world ++ PText (not_available "Radio" available)
                :: map PCell (unique (map (cell_at "variable_description")
                                          (rows quarterly_frame))))).
Proof.
  apply (validator_reports_unknown_selector quarterly_world 0%nat quarterly_frame).
  - reflexivity.
  - apply (bool_decide_unpack _). vm_compute. exact I.
  - intros r Hr. apply list_elem_of_In in Hr. simpl in Hr.
    destruct Hr as [<-|[<-|[<-|[<-|[]]]]]; eexists; (split; [vm_compute; reflexivity|]);
      vm_compute; discriminate.
Defined.

(** C5 as stated fails: "Clicks" is not among the distinct values
    Impressions, Spots of the activity_type column; the validator reports
    it, with the list of the activity types of TV alone. *)
Lemma activity_list_is_per_variable_counterexample :
  unique (map (cell_at "activity_type") (rows media_frame))
  = [Str "Impressions"; Str "Spots"] /\
  get_spend_vs_activity_plot 0%nat "TV" "Clicks" [] (Col "date") PyNone None media_world
  = (Ok None,
     mkWorld [media_frame; restrict (described "TV") media_frame]
             [PText (not_available "Clicks" availabale); PCell (Str "Impressions")]).
Proof. split; vm_compute; reflexivity. Qed.

(** * The exponential transform *)

Lemma series_exp_cells np_exp (c : row -> cell) (f : row -> spec_float) (rs : list row) :
  (forall r, r ∈ rs -> c r = Num (f r)) ->
  series_exp np_exp (map c rs) = Ok (map (fun r => Num (np_exp (f r))) rs).
Proof.
  unfold series_exp. induction rs as [|r rs IH]; intros H; simpl; [reflexivity|].
  rewrite (H r) by left. simpl.
  rewrite IH by (intros r' Hr'; apply H; now right). reflexivity.
Qed.

Lemma num_at_cell c (r : row) x : cell_at c r = Num x -> cell_at c r = Num (num_at c r).
Proof. intros H. unfold num_at. now rewrite H. Qed.

Lemma insert_last (h : list DataFrame) (a b : DataFrame) :
  <[length h := b]> (h ++ [a]) = h ++ [b].
Proof.
  rewrite insert_app_r_alt by lia. now rewrite Nat.sub_diag.
Qed.

Lemma exp_columns_run np_exp w data df :
  heap w !! data = Some df ->
  "actuals" ∈ columns df -> "preds" ∈ columns df ->
  (forall r, r ∈ rows df ->
             exists a p, cell_at "actuals" r = Num a /\ cell_at "preds" r = Num p) ->
  exp_columns np_exp data w
  = (Ok tt, mkWorld (<[data := exp_frame np_exp df]> (heap w)) (stdout w)).
Proof.
  intros Hl Ha Hp Hnum. unfold exp_columns.
  assert (Hlt : (data < length (heap w))%nat) by (eapply lookup_lt_Some; eassumption).
  rewrite (bind_ok _ _ _ _ _ (getitem_ok _ _ _ _ Hl Ha)).
  unfold lift at 1, bind at 1.
  rewrite (series_exp_cells np_exp _ (num_at "actuals")).
  2:{ intros r Hr. destruct (Hnum r Hr) as (a & p & Hra & _). eapply num_at_cell, Hra. }
  erewrite bind_ok; [|apply setitem_ok; [exact Hl | now rewrite length_map]].
  rewrite set_column_map, bool_decide_eq_true_2 by exact Ha.
  erewrite bind_ok; [|apply getitem_ok; [simpl; now apply list_lookup_insert_eq | exact Hp]].
  simpl rows. rewrite map_map.
  unfold lift at 1, bind at 1.
  rewrite (series_exp_cells np_exp _ (num_at "preds")).
  2:{ intros r Hr. destruct (Hnum r Hr) as (a & p & _ & Hrp).
      rewrite cell_at_insert_ne by discriminate. eapply num_at_cell, Hrp. }
  erewrite setitem_ok; [| simpl; now apply list_lookup_insert_eq | simpl; now rewrite !length_map].
  simpl. f_equal. f_equal. rewrite list_insert_insert_eq. f_equal.
  unfold set_column, exp_frame. simpl. rewrite bool_decide_eq_true_2 by exact Hp.
  f_equal. clear. induction (rows df) as [|r rs IH]; simpl; [reflexivity|].
  now rewrite IH.
Qed.

Lemma px_line_fit_run w l g date :
  heap w !! l = Some g ->
  date ∈ columns g -> "actuals" ∈ columns g -> "preds" ∈ columns g ->
  px_line l (Col date) (ColumnList [Col "actuals"; Col "preds"]) w
  = (Ok (fit_figure date g), w).
Proof.
  intros Hl Hd Ha Hp. unfold px_line.
  rewrite (bind_ok _ _ _ _ _ (deref_ok _ _ _ Hl)).
  unfold lift at 1, bind at 1. simpl. unfold px_trace.
  now rewrite !column_ok by assumption.
Qed.

Lemma filter_map_rows (f : row -> row) (P Q : row -> Prop)
    `{forall r, Decision (P r)} `{forall r, Decision (Q r)} (rs : list row) :
  (forall r, P (f r) <-> Q r) ->
  filter P (map f rs) = map f (filter Q rs).
Proof.
  intros HPQ. induction rs as [|r rs IH]; [reflexivity|].
  simpl. rewrite !filter_cons. destruct (decide (Q r)) as [HQ|HQ].
  - rewrite decide_True by now apply HPQ. simpl. now rewrite IH.
  - rewrite decide_False by (intros HP; now apply HQ, HPQ). exact IH.
Qed.

Section LogScale.
Context (np_exp : spec_float -> spec_float) (df : DataFrame) (date : string).
Hypothesis Hcols : NoDup (columns df).
Hypothesis Hdate : date ∈ columns df.
Hypothesis Hact : "actuals" ∈ columns df.
Hypothesis Hpred : "preds" ∈ columns df.
Hypothesis Hda : date <> "actuals".
Hypothesis Hdp : date <> "preds".
Hypothesis Hnum : forall r, r ∈ rows df ->
    exists a p, cell_at "actuals" r = Num a /\ cell_at "preds" r = Num p.
Hypothesis Hsum : forall c, c ∈ columns df -> c <> date -> summable c (rows df).

Lemma cell_at_exp_row c r :
  c <> "actuals" -> c <> "preds" -> cell_at c (exp_row np_exp r) = cell_at c r.
Proof.
  intros H1 H2. unfold exp_row. rewrite !cell_at_insert_ne by congruence. reflexivity.
Qed.

Lemma scaled_keys is_log : rmap (key_name (scaled np_exp is_log df)) [Col date] = Ok [date].
Proof.
  simpl. unfold key_name. destruct is_log; simpl;
    now rewrite bool_decide_eq_true_2 by exact Hdate.
Qed.

Lemma scaled_summable is_log c :
  c ∈ columns (scaled np_exp is_log df) -> c ∉ [date] ->
  summable c (rows (scaled np_exp is_log df)).
Proof.
  intros Hc Hk.
  assert (Hne : c <> date) by (intros ->; apply Hk; left).
  destruct is_log; simpl in *; [|now apply Hsum].
  destruct (decide (c = "actuals")) as [->|Hca].
  { left. intros r Hr. apply list_elem_of_fmap in Hr as (r' & -> & _).
    eexists. unfold exp_row. rewrite cell_at_insert_ne by discriminate.
    apply cell_at_insert. }
  destruct (decide (c = "preds")) as [->|Hcp].
  { left. intros r Hr. apply list_elem_of_fmap in Hr as (r' & -> & _).
    eexists. unfold exp_row. apply cell_at_insert. }
  destruct (Hsum c Hc Hne) as [H|H]; [left | right];
    intros r Hr; apply list_elem_of_fmap in Hr as (r' & -> & Hr');
    rewrite cell_at_exp_row by assumption; now apply H.
Qed.

Lemma scaled_total is_log : exists g, groupby_sum (scaled np_exp is_log df) [Col date] = Ok g.
Proof.
  apply (groupby_sum_total _ _ [date]); [apply scaled_keys | apply scaled_summable].
Qed.

Lemma scaled_sum is_log g r c :
  c = "actuals" \/ c = "preds" ->
  groupby_sum (scaled np_exp is_log df) [Col date] = Ok g ->
  r ∈ rows g ->
  cell_at c r
  = Num (group_sum (present (map (scaled_value np_exp is_log c)
                              (filter (fun r' => cell_at date r' = cell_at date r)
                                      (rows df))))).
Proof.
  intros Hc Hg Hr.
  assert (Hcd : c <> date) by (destruct Hc as [->| ->]; congruence).
  assert (Hcin : c ∈ columns df) by (destruct Hc as [->| ->]; assumption).
  rewrite (groupby_sum_numeric_cell _ _ [date] g r c (scaled_keys is_log)); try assumption.
  - f_equal. f_equal. f_equal.
    rewrite (list_filter_iff _ (fun r' => cell_at date r' = cell_at date r)).
    2:{ intros r'. unfold key_of. simpl. split; [now intros [= ->] | now intros ->]. }
    destruct is_log; simpl.
    + rewrite (filter_map_rows (exp_row np_exp) _
                 (fun r' => cell_at date r' = cell_at date r)).
      2:{ intros r'. now rewrite cell_at_exp_row by congruence. }
      rewrite map_map. apply map_ext. intros r'. unfold scaled_value, exp_row.
      destruct Hc as [->| ->].
      * rewrite cell_at_insert_ne by discriminate. apply cell_at_insert.
      * apply cell_at_insert.
    + apply map_ext_in. intros r' Hr'. apply list_elem_of_In in Hr'.
      apply list_elem_of_filter in Hr' as [_ Hr'].
      destruct (Hnum r' Hr') as (a & p & Ha & Hp). unfold scaled_value.
      destruct Hc as [->| ->]; eapply num_at_cell; eassumption.
  - apply NoDup_singleton.
  - now destruct is_log.
  - now destruct is_log.
  - intros Hin. apply list_elem_of_singleton in Hin. contradiction.
  - intros r' Hr'. destruct is_log; simpl in Hr'.
    + apply list_elem_of_fmap in Hr' as (r0 & -> & _). unfold exp_row.
      destruct Hc as [->| ->]; eexists.
      * rewrite cell_at_insert_ne by discriminate. apply cell_at_insert.
      * apply cell_at_insert.
    + destruct (Hnum r' Hr') as (a & p & Ha & Hp). destruct Hc as [->| ->]; eauto.
Qed.

Lemma groupby_sum_reset_index_ok w l d keys g :
  heap w !! l = Some d -> groupby_sum d keys = Ok g ->
  groupby_sum_reset_index l keys w
  = (Ok (length (heap w)), mkWorld (heap w ++ [g]) (stdout w)).
Proof.
  intros Hl Hg. unfold groupby_sum_reset_index.
  rewrite (bind_ok _ _ _ _ _ (deref_ok _ _ _ Hl)).
  unfold lift at 1, bind at 1. now rewrite Hg.
Qed.

Lemma scale_step {B} (k : loc -> M B) w l (is_log : bool) :
  heap w !! l = Some df ->
  (data <- copy l ;;
   (if is_log then exp_columns np_exp data else ret tt) ;;;
   k data) w
  = k (length (heap w)) (mkWorld (heap w ++ [scaled np_exp is_log df]) (stdout w)).
Proof.
  intros Hl. rewrite (bind_ok _ _ _ _ _ (copy_ok _ _ _ Hl)).
  destruct is_log; simpl; [|reflexivity].
  erewrite bind_ok; [reflexivity|].
  erewrite exp_columns_run; try eassumption; [|simpl; apply lookup_last_alloc].
  simpl. now rewrite insert_last.
Qed.

Lemma plot_all_groups_run w data g is_log :
  heap w !! data = Some (scaled np_exp is_log df) ->
  groupby_sum (scaled np_exp is_log df) [Col date] = Ok g ->
  (f <- groupby_sum_reset_index data [Col date] ;;
   px_line f (Col date) (ColumnList [Col "actuals"; Col "preds"])) w
  = (Ok (fit_figure date g), mkWorld (heap w ++ [g]) (stdout w)).
Proof.
  intros Hl Hg.
  rewrite (bind_ok _ _ _ _ _ (groupby_sum_reset_index_ok _ _ _ _ _ Hl Hg)).
  apply px_line_fit_run; [simpl; apply lookup_last_alloc | | | ];
    apply (groupby_sum_columns _ _ _ _ (scaled_keys is_log) Hg); now destruct is_log.
Qed.

Lemma get_actual_vs_predicted_plot_all_run w l dv is_log group_col gv g :
  heap w !! l = Some df -> all_groups gv = true ->
  groupby_sum (scaled np_exp is_log df) [Col date] = Ok g ->
  get_actual_vs_predicted_plot np_exp l (Col date) dv is_log group_col gv w
  = (Ok (Some (fit_figure date g)),
     mkWorld (heap w ++ [scaled np_exp is_log df; g]) (stdout w)).
Proof.
  intros Hl Hall Hg. unfold get_actual_vs_predicted_plot.
  rewrite (scale_step _ _ _ _ Hl).
  set (w1 := mkWorld (heap w ++ [scaled np_exp is_log df]) (stdout w)).
  assert (Hd : heap w1 !! length (heap w) = Some (scaled np_exp is_log df))
    by apply lookup_last_alloc.
  assert (Hwt : actual_vs_predicted_working_table (length (heap w)) (Col date) group_col gv w1
                = (Ok (Some (length (heap w1))), mkWorld (heap w1 ++ [g]) (stdout w1))).
  { unfold actual_vs_predicted_working_table.
    destruct gv as [v|]; simpl in Hall; [rewrite Hall|];
      now rewrite (bind_ok _ _ _ _ _ (groupby_sum_reset_index_ok _ _ _ _ _ Hd Hg)). }
  rewrite (bind_ok _ _ _ _ _ Hwt). simpl local. unfold ret at 1, bind at 1.
  erewrite bind_ok.
  2:{ apply px_line_fit_run; [simpl; apply lookup_last_alloc | | | ];
        apply (groupby_sum_columns _ _ _ _ (scaled_keys is_log) Hg); now destruct is_log. }
  unfold ret. simpl. now rewrite <- app_assoc.
Qed.

Lemma dashboard_all_run w l is_log group g :
  heap w !! l = Some df -> group ∈ columns df ->
  groupby_sum (scaled np_exp is_log df) [Col date] = Ok g ->
  (data <- get_actual_vs_predicted_plot_interact.setup np_exp l (Col group) is_log ;;
   get_actual_vs_predicted_plot_interact.update_figure data (Col date) (Col group)
     (Str "select_all")) w
  = (Ok (fit_figure date g),
     mkWorld (heap w ++ [scaled np_exp is_log df; g]) (stdout w)).
Proof.
  intros Hl Hgc Hg.
  set (w1 := mkWorld (heap w ++ [scaled np_exp is_log df]) (stdout w)).
  assert (Hd : heap w1 !! length (heap w) = Some (scaled np_exp is_log df))
    by apply lookup_last_alloc.
  assert (Hsetup : get_actual_vs_predicted_plot_interact.setup np_exp l (Col group) is_log w
                   = (Ok (length (heap w)), w1)).
  { unfold get_actual_vs_predicted_plot_interact.setup.
    rewrite (scale_step _ _ _ _ Hl). fold w1.
    erewrite bind_ok; [reflexivity|].
    apply (getitem_ok _ _ _ _ Hd). now destruct is_log. }
  rewrite (bind_ok _ _ _ _ _ Hsetup).
  unfold get_actual_vs_predicted_plot_interact.update_figure,
    get_actual_vs_predicted_plot_interact.working_table. simpl py_eq. cbv iota.
  rewrite (plot_all_groups_run _ _ _ _ Hd Hg). simpl. now rewrite <- app_assoc.
Qed.

Lemma get_actual_vs_predicted_plot_one_run w l dv is_log group v :
  heap w !! l = Some df -> group ∈ columns df -> py_eq v (Str "all") = false ->
  get_actual_vs_predicted_plot np_exp l (Col date) dv is_log (Col group) (Some v) w
  = (Ok (Some (fit_figure date (restrict (in_group group v) (scaled np_exp is_log df)))),
     mkWorld (heap w ++ [scaled np_exp is_log df;
                         restrict (in_group group v) (scaled np_exp is_log df)])
             (stdout w ++ [PFrame (restrict (in_group group v) (scaled np_exp is_log df))])).
Proof.
  intros Hl Hgc Hv. unfold get_actual_vs_predicted_plot.
  rewrite (scale_step _ _ _ _ Hl).
  set (d := scaled np_exp is_log df).
  set (w1 := mkWorld (heap w ++ [d]) (stdout w)).
  assert (Hd : heap w1 !! length (heap w) = Some d) by apply lookup_last_alloc.
  assert (Hcols' : columns d = columns df) by (subst d; now destruct is_log).
  assert (Hwt : actual_vs_predicted_working_table (length (heap w)) (Col date) (Col group)
                  (Some v) w1
                = (Ok (Some (length (heap w1))),
                   mkWorld (heap w1 ++ [restrict (in_group group v) d])
                           (stdout w1 ++ [PFrame (restrict (in_group group v) d)]))).
  { unfold actual_vs_predicted_working_table. rewrite Hv. unfold try_except.
    erewrite bind_ok; [|apply (getitem_ok _ _ _ _ Hd); now rewrite Hcols'].
    rewrite series_eq_column.
    rewrite (bind_ok _ _ _ _ _ (getitem_mask_ok _ _ _ _ Hd)).
    erewrite bind_ok; [|apply deref_ok; simpl; apply lookup_last_alloc].
    reflexivity. }
  rewrite (bind_ok _ _ _ _ _ Hwt). simpl local. unfold ret at 1, bind at 1.
  erewrite bind_ok.
  2:{ apply px_line_fit_run; [simpl; apply lookup_last_alloc | | | ];
        simpl; now rewrite Hcols'. }
  unfold ret. simpl. now rewrite <- app_assoc.
Qed.

End LogScale.

(** C10: with is_log true the exponential is applied to every cell of the
    actuals and preds columns of the copy before any filtering or grouping.
    Under the "all groups" view, in get_actual_vs_predicted_plot as in the
    dashboard, the chart is drawn from the aggregation by date of the
    transformed table, so each plotted value is the sum, over the rows of
    that date, of the exponentials of the values, as pandas computes it (the
    compensated float64 summation in row order); for a specific
    group the chart is drawn from the rows of that group of the transformed
    table.  With is_log false the same holds with the values as they are.
    The date column holds text, dates or missing values. *)
Theorem log_scale_sums_exponentials (np_exp : spec_float -> spec_float)
    (w : world) (act_vs_preds : loc) (df : DataFrame) (date dv_col group : string) :
  heap w !! act_vs_preds = Some df ->
  NoDup (columns df) ->
  date ∈ columns df -> "actuals" ∈ columns df -> "preds" ∈ columns df ->
  group ∈ columns df ->
  date <> "actuals" -> date <> "preds" ->
  (forall r, r ∈ rows df ->
             exists a p, cell_at "actuals" r = Num a /\ cell_at "preds" r = Num p) ->
  (forall c, c ∈ columns df -> c <> date -> summable c (rows df)) ->
  key_columns [date] (rows df) ->
  forall is_log : bool,
  exists g,
    groupby_sum (scaled np_exp is_log df) [Col date] = Ok g /\
    (forall group_col gv,
        all_groups gv = true ->
        get_actual_vs_predicted_plot np_exp act_vs_preds (Col date) dv_col is_log
          group_col gv w
        = (Ok (Some (fit_figure date g)),
           mkWorld (heap w ++ [scaled np_exp is_log df; g]) (stdout w))) /\
    (data <- get_actual_vs_predicted_plot_interact.setup np_exp act_vs_preds
               (Col group) is_log ;;
     get_actual_vs_predicted_plot_interact.update_figure data (Col date) (Col group)
       (Str "select_all")) w
    = (Ok (fit_figure date g),
       mkWorld (heap w ++ [scaled np_exp is_log df; g]) (stdout w)) /\
    (forall r,
        r ∈ rows g ->
        cell_at "actuals" r
        = Num (group_sum (present (map (scaled_value np_exp is_log "actuals")
                                    (filter (fun r' => cell_at date r' = cell_at date r)
                                            (rows df))))) /\
        cell_at "preds" r
        = Num (group_sum (present (map (scaled_value np_exp is_log "preds")
                                    (filter (fun r' => cell_at date r' = cell_at date r)
                                            (rows df)))))) /\
    (forall v,
        py_eq v (Str "all") = false ->
        fst (get_actual_vs_predicted_plot np_exp act_vs_preds (Col date) dv_col is_log
               (Col group) (Some v) w)
        = Ok (Some (fit_figure date (restrict (in_group group v)
                                              (scaled np_exp is_log df))))).
Proof.
  intros Hl Hcols Hdate Hact Hpred Hgroup Hda Hdp Hnum Hsum _ is_log.
  destruct (scaled_total np_exp df date Hdate Hsum is_log) as [g Hg].
  exists g. split; [exact Hg|]. split; [|split; [|split]].
  - intros group_col gv Hall. now apply get_actual_vs_predicted_plot_all_run.
  - now apply dashboard_all_run.
  - intros r Hr. split; eapply scaled_sum; eauto.
  - intros v Hv. erewrite get_actual_vs_predicted_plot_one_run; eauto.
Qed.

Lemma log_scale_sums_exponentials_witness :
  exists g,
    groupby_sum (scaled exp_at_zero true fit_frame) [Col "date"] = Ok g /\
    get_actual_vs_predicted_plot exp_at_zero 0%nat (Col "date") "sales" true PyNone None
      fit_world
    = (Ok (Some (fit_figure "date" g)),
       mkWorld (heap fit_world ++ [scaled exp_at_zero true fit_frame; g])
               (stdout fit_world)).
Proof.
  destruct (log_scale_sums_exponentials exp_at_zero fit_world 0%nat fit_frame
              "date" "sales" "region") with (is_log := true)
    as (g & Hg & Hrun & _).
  - reflexivity.
  - apply (bool_decide_unpack _). vm_compute. exact I.
  - apply (bool_decide_unpack _). vm_compute. exact I.
  - apply (bool_decide_unpack _). vm_compute. exact I.
  - apply (bool_decide_unpack _). vm_compute. exact I.
  - apply (bool_decide_unpack _). vm_compute. exact I.
  - discriminate.
  - discriminate.
  - intros r Hr. apply list_elem_of_In in Hr. simpl in Hr.
    destruct Hr as [<-|[<-|[<-|[]]]]; eexists _, _; split; vm_compute; reflexivity.
  - intros c Hc Hne. apply list_elem_of_In in Hc. simpl in Hc.
    destruct Hc as [<-|[<-|[<-|[<-|[]]]]].
    + congruence.
    + right. intros r Hr. apply list_elem_of_In in Hr. simpl in Hr.
      destruct Hr as [<-|[<-|[<-|[]]]]; eexists; vm_compute; reflexivity.
    + left. intros r Hr. apply list_elem_of_In in Hr. simpl in Hr.
      destruct Hr as [<-|[<-|[<-|[]]]]; eexists; vm_compute; reflexivity.
    + left. intros r Hr. apply list_elem_of_In in Hr. simpl in Hr.
      destruct Hr as [<-|[<-|[<-|[]]]]; eexists; vm_compute; reflexivity.
  - intros r k Hr Hk. apply list_elem_of_In in Hr. apply list_elem_of_In in Hk.
    simpl in Hr, Hk. destruct Hk as [<-|[]].
    destruct Hr as [<-|[<-|[<-|[]]]]; left; right; eexists; vm_compute; reflexivity.
  - exists g. split; [exact Hg | now apply Hrun].
Defined.

(** With any [np_exp] that maps 0 to 1, two rows of one date with log
    values 0 are plotted as 1 + 1 = 2, which is not the exponential of the
    summed log values, [np_exp (0 + 0) = 1]. *)
Example sum_of_exponentials_differs (np_exp : spec_float -> spec_float) :
  np_exp F64.zero = F64.of_Z 1 ->
  fst (get_actual_vs_predicted_plot np_exp 0%nat (Col "date") "sales" true PyNone None
         fit_world)
  = Ok (Some (mkFigure [mkTrace "actuals" [Date 1; Date 2]
                                [Num (F64.of_Z 2); Num (F64.of_Z 1)];
                        mkTrace "preds" [Date 1; Date 2]
                                [Num (F64.of_Z 2); Num (F64.of_Z 1)]])) /\
  F64.of_Z 2 <> np_exp (F64.add F64.zero F64.zero).
Proof.
  intros H. split.
  - assert (Hrow : forall d region,
              exp_row np_exp (fit_row d region 0 0) = exp_row exp_at_zero (fit_row d region 0 0)).
    { intros d region. unfold exp_row.
      replace (num_at "preds" (fit_row d region 0 0)) with F64.zero
        by (vm_compute; reflexivity).
      replace (num_at "actuals" (fit_row d region 0 0)) with F64.zero
        by (vm_compute; reflexivity).
      rewrite H. reflexivity. }
    assert (Hs : scaled np_exp true fit_frame = scaled exp_at_zero true fit_frame).
    { unfold scaled, exp_frame, fit_frame. simpl. now rewrite !Hrow. }
    assert (Hg : exists g,
               groupby_sum (scaled exp_at_zero true fit_frame) [Col "date"] = Ok g /\
               fit_figure "date" g
               = mkFigure [mkTrace "actuals" [Date 1; Date 2]
                                   [Num (F64.of_Z 2); Num (F64.of_Z 1)];
                           mkTrace "preds" [Date 1; Date 2]
                                   [Num (F64.of_Z 2); Num (F64.of_Z 1)]]).
    { eexists. split; vm_compute; reflexivity. }
    destruct Hg as (g & Hg & Hfig). rewrite <- Hs in Hg.
    rewrite (get_actual_vs_predicted_plot_all_run np_exp fit_frame "date") with (g := g).
    + simpl. now rewrite Hfig.
    + apply (bool_decide_unpack _). vm_compute. exact I.
    + apply (bool_decide_unpack _). vm_compute. exact I.
    + apply (bool_decide_unpack _). vm_compute. exact I.
    + intros r Hr. apply list_elem_of_In in Hr. simpl in Hr.
      destruct Hr as [<-|[<-|[<-|[]]]]; eexists _, _; split; vm_compute; reflexivity.
    + reflexivity.
    + reflexivity.
    + exact Hg.
  - vm_compute. vm_compute in H. rewrite H. discriminate.
Qed.

(** * The derived column and the rest of the table *)

Lemma cell_at_with_cost_per_act c (r : row) :
  c <> "cost_per_act" -> cell_at c (with_cost_per_act r) = cell_at c r.
Proof. intros H. unfold with_cost_per_act. now rewrite cell_at_insert_ne by congruence. Qed.

Lemma num_at_with_cost_per_act c (r : row) :
  c <> "cost_per_act" -> num_at c (with_cost_per_act r) = num_at c r.
Proof. intros H. unfold num_at. now rewrite cell_at_with_cost_per_act. Qed.

Lemma with_cost_per_act_idem (r : row) :
  with_cost_per_act (with_cost_per_act r) = with_cost_per_act r.
Proof.
  unfold with_cost_per_act at 1.
  rewrite !num_at_with_cost_per_act by discriminate.
  unfold with_cost_per_act. now rewrite insert_insert_eq.
Qed.

Lemma cost_per_act_in_derived t : "cost_per_act" ∈ columns (derived t).
Proof.
  unfold derived. simpl. case_bool_decide; [assumption|].
  apply elem_of_app. right. constructor.
Qed.

Lemma columns_derived t c : c ∈ columns t -> c ∈ columns (derived t).
Proof.
  intros H. unfold derived. simpl. case_bool_decide; [assumption|].
  apply elem_of_app. now left.
Qed.

Lemma derived_idem t : derived (derived t) = derived t.
Proof.
  unfold derived at 1. rewrite bool_decide_eq_true_2 by apply cost_per_act_in_derived.
  unfold derived. simpl. f_equal. rewrite map_map. apply map_ext.
  intros r. apply with_cost_per_act_idem.
Qed.

Lemma numeric_measures_derived rs :
  numeric_measures rs -> numeric_measures (map with_cost_per_act rs).
Proof.
  intros H r Hr. apply list_elem_of_fmap in Hr as (r' & -> & Hr').
  destruct (H r' Hr') as (s & a & Hs & Ha). exists s, a.
  now rewrite !cell_at_with_cost_per_act by discriminate.
Qed.

Lemma add_cost_per_act_derived w temp t :
  heap w !! temp = Some t ->
  "Spend" ∈ columns t -> "Activity" ∈ columns t -> numeric_measures (rows t) ->
  add_cost_per_act temp w
  = (Ok tt, mkWorld (<[temp := derived t]> (heap w)) (stdout w)).
Proof. intros. now apply add_cost_per_act_run. Qed.

(** X1: the Derived Metric Calculator adds the column cost_per_act as the
    last column when the table has none and keeps the list of columns
    otherwise, keeps the number of rows, leaves every cell of every other
    column as it was, and is idempotent: run a second time on its own
    result, it changes nothing. *)
Theorem cost_per_act_touches_one_column (w : world) (temp : loc) (t : DataFrame) :
  heap w !! temp = Some t ->
  "Spend" ∈ columns t -> "Activity" ∈ columns t -> numeric_measures (rows t) ->
  exists w',
    add_cost_per_act temp w = (Ok tt, w') /\
    heap w' !! temp = Some (derived t) /\
    stdout w' = stdout w /\
    (forall l, l <> temp -> heap w' !! l = heap w !! l) /\
    columns (derived t)
    = (if bool_decide ("cost_per_act" ∈ columns t) then columns t
       else columns t ++ ["cost_per_act"]) /\
    length (rows (derived t)) = length (rows t) /\
    (forall c, c <> "cost_per_act" -> column_of c (derived t) = column_of c t) /\
    add_cost_per_act temp w' = (Ok tt, w').
Proof.
  intros Hl HS HA Hnum.
  assert (Hlt : (temp < length (heap w))%nat) by (eapply lookup_lt_Some; eassumption).
  eexists. split; [exact (add_cost_per_act_derived _ _ _ Hl HS HA Hnum)|]. simpl.
  split; [now apply list_lookup_insert_eq|]. split; [reflexivity|].
  split; [intros l Hne; now apply list_lookup_insert_ne|].
  split; [reflexivity|]. split; [now rewrite length_map|]. split.
  - intros c Hc. unfold column_of, derived. simpl. rewrite map_map.
    apply map_ext. intros r. now apply cell_at_with_cost_per_act.
  - rewrite (add_cost_per_act_derived _ temp (derived t)).
    + simpl. now rewrite list_insert_insert_eq, derived_idem.
    + simpl. now apply list_lookup_insert_eq.
    + now apply columns_derived.
    + now apply columns_derived.
    + now apply numeric_measures_derived.
Qed.

Lemma scenario_numeric : numeric_measures (rows scenario_frame).
Proof.
  intros r Hr. apply list_elem_of_In in Hr. simpl in Hr.
  destruct Hr as [<-|[<-|[<-|[]]]]; eexists _, _; split; vm_compute; reflexivity.
Qed.

Lemma cost_per_act_touches_one_column_witness :
  exists w',
    add_cost_per_act 0%nat scenario_world = (Ok tt, w') /\
    heap w' !! 0%nat = Some (derived scenario_frame).
Proof.
  destruct (cost_per_act_touches_one_column scenario_world 0%nat scenario_frame)
    as (w' & Hrun & Hl & _).
  - reflexivity.
  - apply (bool_decide_unpack _). vm_compute. exact I.
  - apply (bool_decide_unpack _). vm_compute. exact I.
  - exact scenario_numeric.
  - exists w'. split; [exact Hrun | exact Hl].
Defined.

(** * A successful call of [get_spend_vs_activity_plot] *)

Lemma found_in_column c x (rs : list row) :
  text_column c rs ->
  (exists r s, r ∈ rs /\ cell_at c r = Str s /\ lower s = x) ->
  in_map_lower x (unique (map (cell_at c) rs)) = Ok true.
Proof.
  intros Htext (r & s & Hr & Hs & Hlow). apply in_map_lower_found.
  - intros v Hv. apply (proj1 (elem_of_unique _ _)) in Hv.
    apply list_elem_of_fmap in Hv as (r' & -> & Hr'). now apply Htext.
  - exists s. split; [|exact Hlow]. apply elem_of_unique.
    apply list_elem_of_fmap. exists r. split; [now symmetry | exact Hr].
Qed.

Lemma lookup_grown (h : list DataFrame) (extra : list DataFrame) l df :
  h !! l = Some df -> (h ++ extra) !! l = Some df.
Proof. intros H. rewrite lookup_app_l; [exact H | eapply lookup_lt_Some, H]. Qed.

Section StaticSpendPlot.
Context (w : world) (data : loc) (df : DataFrame) (date : string)
        (variable_description activity_type : string)
        (date_range : list cell) (start_date end_date : cell)
        (group_col : label) (group_value : option cell).
Hypothesis Hdata : heap w !! data = Some df.
Hypothesis Hvd : "variable_description" ∈ columns df.
Hypothesis Hact : "activity_type" ∈ columns df.
Hypothesis Hdate : date ∈ columns df.
Hypothesis Hspend : "Spend" ∈ columns df.
Hypothesis Hactivity : "Activity" ∈ columns df.
Hypothesis Hgroup : group_column_ok df group_col group_value.
Hypothesis Hbounds :
  fst (date_bounds data date_range (Col date) w) = Ok (start_date, end_date).
Hypothesis Hcmp : forall r, r ∈ rows df -> comparable date start_date end_date r.
Hypothesis Hvtext : text_column "variable_description" (rows df).
Hypothesis Hatext : text_column "activity_type" (rows df).
Hypothesis Hnum : numeric_measures (rows df).
Hypothesis Hmatch :
  exists r s, r ∈ rows df /\ cell_at "variable_description" r = Str s /\
              lower s = lower variable_description /\
              exists a, cell_at "activity_type" r = Str a /\ lower a = lower activity_type.

Let p : row -> bool :=
  static_pred date variable_description activity_type start_date end_date
              group_col group_value.

Lemma static_working_table_ok w1 :
  heap w1 !! data = Some df ->
  spend_activity_working_table data variable_description activity_type
    start_date end_date (Col date) group_col group_value w1
  = (Ok (length (heap w1)), mkWorld (heap w1 ++ [restrict p df]) (stdout w1)).
Proof.
  intros Hl. unfold spend_activity_working_table, p, static_pred.
  destruct group_value as [v|].
  - destruct Hgroup as (g & -> & Hg).
    rewrite (bind_ok _ _ _ _ _
               (lower_mask_run _ _ _ _ variable_description activity_type _ _
                  Hl Hvd Hact Hdate Hcmp)).
    rewrite (bind_ok _ _ _ _ _ (getitem_ok _ _ _ _ Hl Hg)).
    rewrite series_eq_column, mask_and_map. simpl label_text.
    now rewrite (getitem_mask_ok _ _ _ _ Hl).
  - rewrite (bind_ok _ _ _ _ _
               (lower_mask_run _ _ _ _ variable_description activity_type _ _
                  Hl Hvd Hact Hdate Hcmp)).
    now rewrite (getitem_mask_ok _ _ _ _ Hl).
Qed.

Lemma restrict_numeric (q : row -> bool) : numeric_measures (rows (restrict q df)).
Proof. intros r Hr. apply elem_of_restrict in Hr as [_ Hr]. now apply Hnum. Qed.

Lemma static_figure_run w2 temp t :
  heap w2 !! temp = Some (derived t) -> date ∈ columns t ->
  "Spend" ∈ columns t -> "Activity" ∈ columns t ->
  (x1 <- getitem temp (Col date) ;;
   y1 <- getitem temp (Col "Spend") ;;
   let fig := add_trace make_subplots (go_Scatter x1 y1 "Spends") in
   x2 <- getitem temp (Col date) ;;
   y2 <- getitem temp (Col "Activity") ;;
   let fig := add_trace fig (go_Scatter x2 y2 ("Activity (" +:+ activity_type +:+ ")")) in
   x3 <- getitem temp (Col date) ;;
   y3 <- getitem temp (Col "cost_per_act") ;;
   let fig := add_trace fig (go_Scatter x3 y3 "Cost_Per_Activity") in
   ret (Some fig)) w2
  = (Ok (Some (spend_activity_figure date activity_type (derived t))), w2).
Proof.
  intros Hl Hd HS HA.
  rewrite (bind_ok _ _ _ _ _ (getitem_ok _ _ _ _ Hl (columns_derived _ _ Hd))).
  rewrite (bind_ok _ _ _ _ _ (getitem_ok _ _ _ _ Hl (columns_derived _ _ HS))).
  rewrite (bind_ok _ _ _ _ _ (getitem_ok _ _ _ _ Hl (columns_derived _ _ Hd))).
  rewrite (bind_ok _ _ _ _ _ (getitem_ok _ _ _ _ Hl (columns_derived _ _ HA))).
  rewrite (bind_ok _ _ _ _ _ (getitem_ok _ _ _ _ Hl (columns_derived _ _ Hd))).
  rewrite (bind_ok _ _ _ _ _ (getitem_ok _ _ _ _ Hl (cost_per_act_in_derived _))).
  reflexivity.
Qed.

Lemma get_spend_vs_activity_plot_ok :
  get_spend_vs_activity_plot data variable_description activity_type date_range
    (Col date) group_col group_value w
  = (Ok (Some (spend_activity_figure date activity_type (derived (restrict p df)))),
     mkWorld (heap w ++ [restrict (described variable_description) df;
                         derived (restrict p df)])
             (stdout w)).
Proof.
  destruct Hmatch as (r0 & s0 & Hr0 & Hs0 & Hlow & a0 & Ha0 & Halow).
  unfold get_spend_vs_activity_plot.
  rewrite (bind_ok _ _ _ _ _ (date_bounds_ok _ _ _ _ _ _ Hbounds)).
  rewrite (bind_ok _ _ _ _ _ (getitem_ok _ _ _ _ Hdata Hvd)).
  unfold lift at 1, bind at 1.
  rewrite found_in_column by (try assumption; eauto). simpl.
  rewrite (bind_ok _ _ _ _ _ (getitem_ok _ _ _ _ Hdata Hvd)).
  rewrite series_eq_lower_column.
  rewrite (bind_ok _ _ _ _ _ (getitem_mask_ok _ _ _ (described variable_description) Hdata)).
  set (sub := restrict (described variable_description) df).
  set (w1 := mkWorld (heap w ++ [sub]) (stdout w)).
  assert (Hsub : heap w1 !! length (heap w) = Some sub) by apply lookup_last_alloc.
  assert (Hdata1 : heap w1 !! data = Some df) by now apply lookup_grown.
  assert (Hr0sub : r0 ∈ rows sub).
  { apply elem_of_restrict. split; [|exact Hr0].
    unfold described. rewrite Hs0. simpl. apply bool_decide_eq_true_2. exact Hlow. }
  rewrite (bind_ok _ _ _ _ _ (getitem_ok _ _ _ _ Hsub Hact)).
  unfold lift at 1, bind at 1.
  rewrite found_in_column.
  2:{ intros r Hr. apply elem_of_restrict in Hr as [_ Hr]. now apply Hatext. }
  2:{ exists r0, a0. repeat split; assumption. }
  simpl.
  rewrite (bind_ok _ _ _ _ _ (static_working_table_ok w1 Hdata1)).
  set (t := restrict p df).
  erewrite bind_ok.
  2:{ apply add_cost_per_act_derived with (t := t);
        [simpl; apply lookup_last_alloc | exact Hspend | exact Hactivity
        | apply restrict_numeric]. }
  simpl heap. rewrite insert_last.
  erewrite static_figure_run; [| simpl; apply lookup_last_alloc | assumption..].
  subst w1. simpl. now rewrite <- app_assoc.
Qed.

End StaticSpendPlot.

(** X2: a call of get_spend_vs_activity_plot whose selectors match a row of
    the table up to case returns a figure and prints nothing.  The figure
    has the three traces Spends, Activity (...) and Cost_Per_Activity, all
    over the dates of the rows that pass the filter, in table order; the
    call allocates two frames (the rows of the variable, and the working
    table with its derived column) and changes nothing else. *)
Theorem get_spend_vs_activity_plot_returns_figure (w : world) (data : loc) (df : DataFrame)
    (date variable_description activity_type : string)
    (date_range : list cell) (start_date end_date : cell)
    (group_col : label) (group_value : option cell) :
  heap w !! data = Some df ->
  "variable_description" ∈ columns df -> "activity_type" ∈ columns df ->
  date ∈ columns df -> "Spend" ∈ columns df -> "Activity" ∈ columns df ->
  group_column_ok df group_col group_value ->
  fst (date_bounds data date_range (Col date) w) = Ok (start_date, end_date) ->
  (forall r, r ∈ rows df -> comparable date start_date end_date r) ->
  text_column "variable_description" (rows df) ->
  text_column "activity_type" (rows df) ->
  numeric_measures (rows df) ->
  (exists r s, r ∈ rows df /\ cell_at "variable_description" r = Str s /\
               lower s = lower variable_description /\
               exists a, cell_at "activity_type" r = Str a /\
                         lower a = lower activity_type) ->
  get_spend_vs_activity_plot data variable_description activity_type date_range
    (Col date) group_col group_value w
  = (Ok (Some (spend_activity_figure date activity_type
                 (derived (restrict (static_pred date variable_description activity_type
                                       start_date end_date group_col group_value) df)))),
     mkWorld (heap w ++ [restrict (described variable_description) df;
                         derived (restrict (static_pred date variable_description
                                              activity_type start_date end_date
                                              group_col group_value) df)])
             (stdout w)).
Proof. intros. now apply get_spend_vs_activity_plot_ok. Qed.

Lemma in_columns (c : string) (df : DataFrame) :
  bool_decide (c ∈ columns df) = true -> c ∈ columns df.
Proof. apply bool_decide_eq_true_1. Qed.

Lemma scenario_text c :
  c = "variable_description" \/ c = "activity_type" -> text_column c (rows scenario_frame).
Proof.
  intros Hc r Hr. apply list_elem_of_In in Hr. simpl in Hr.
  destruct Hc as [->| ->]; destruct Hr as [<-|[<-|[<-|[]]]]; eexists; vm_compute; reflexivity.
Qed.

Lemma scenario_comparable r :
  r ∈ rows scenario_frame -> comparable "date" (Date 1) (Date 3) r.
Proof.
  intros Hr. apply list_elem_of_In in Hr. simpl in Hr.
  destruct Hr as [<-|[<-|[<-|[]]]]; split; eexists; vm_compute; reflexivity.
Qed.

Lemma get_spend_vs_activity_plot_returns_figure_witness :
  get_spend_vs_activity_plot 0%nat "tv" "IMPRESSIONS" [] (Col "date") PyNone None
    scenario_world
  = (Ok (Some (spend_activity_figure "date" "IMPRESSIONS"
                 (derived (restrict (static_pred "date" "tv" "IMPRESSIONS"
                                       (Date 1) (Date 3) PyNone None) scenario_frame)))),
     mkWorld (heap scenario_world ++
                [restrict (described "tv") scenario_frame;
                 derived (restrict (static_pred "date" "tv" "IMPRESSIONS"
                                      (Date 1) (Date 3) PyNone None) scenario_frame)])
             (stdout scenario_world)).
Proof.
  apply (get_spend_vs_activity_plot_returns_figure scenario_world 0%nat scenario_frame).
  - reflexivity.
  - apply in_columns. vm_compute. reflexivity.
  - apply in_columns. vm_compute. reflexivity.
  - apply in_columns. vm_compute. reflexivity.
  - apply in_columns. vm_compute. reflexivity.
  - apply in_columns. vm_compute. reflexivity.
  - exact I.
  - vm_compute. reflexivity.
  - exact scenario_comparable.
  - apply scenario_text. now left.
  - apply scenario_text. now right.
  - exact scenario_numeric.
  - exists (scenario_row 1 100 10), "TV". split; [left|].
    split; [vm_compute; reflexivity|]. split; [vm_compute; reflexivity|].
    exists "Impressions". split; vm_compute; reflexivity.
Defined.

(** * The date range *)

Lemma min_fold_dates (zs : list Z) (m : Z) :
  fold_left
    (fun acc c =>
       m <-? acc ;;
       if is_na c then Ok m
       else if is_na m then Ok c
       else b <-? py_le c m ;; Ok (if b then c else m))
    (map Date zs) (Ok (Date m))
  = Ok (Date (fold_left Z.min zs m)).
Proof.
  revert m. induction zs as [|z zs IH]; intros m; [reflexivity|].
  simpl. rewrite <- IH. f_equal. f_equal.
  destruct (Z.leb_spec z m); f_equal; lia.
Qed.

Lemma max_fold_dates (zs : list Z) (m : Z) :
  fold_left
    (fun acc c =>
       m <-? acc ;;
       if is_na c then Ok m
       else if is_na m then Ok c
       else b <-? py_ge c m ;; Ok (if b then c else m))
    (map Date zs) (Ok (Date m))
  = Ok (Date (fold_left Z.max zs m)).
Proof.
  revert m. induction zs as [|z zs IH]; intros m; [reflexivity|].
  simpl. rewrite <- IH. f_equal. f_equal.
  destruct (Z.leb_spec m z); f_equal; lia.
Qed.

Lemma fold_min_le (zs : list Z) (m : Z) :
  fold_left Z.min zs m <= m /\ forall z, z ∈ zs -> fold_left Z.min zs m <= z.
Proof.
  revert m. induction zs as [|a zs IH]; intros m; simpl.
  - split; [lia|]. intros z Hz. now apply elem_of_nil in Hz.
  - destruct (IH (Z.min m a)) as [H1 H2]. split; [lia|].
    intros z Hz. apply elem_of_cons in Hz as [->|Hz]; [lia | now apply H2].
Qed.

Lemma fold_max_ge (zs : list Z) (m : Z) :
  m <= fold_left Z.max zs m /\ forall z, z ∈ zs -> z <= fold_left Z.max zs m.
Proof.
  revert m. induction zs as [|a zs IH]; intros m; simpl.
  - split; [lia|]. intros z Hz. now apply elem_of_nil in Hz.
  - destruct (IH (Z.max m a)) as [H1 H2]. split; [lia|].
    intros z Hz. apply elem_of_cons in Hz as [->|Hz]; [lia | now apply H2].
Qed.

(** The extrema of a series of dates bound every date of the series. *)
Lemma series_bounds_dates (zs : list Z) :
  exists lo hi,
    series_min (map Date zs) = Ok lo /\ series_max (map Date zs) = Ok hi /\
    forall z, z ∈ zs -> py_ge (Date z) lo = Ok true /\ py_le (Date z) hi = Ok true.
Proof.
  destruct zs as [|a zs].
  - exists NaN, NaN. repeat split; try reflexivity; now apply elem_of_nil in H.
  - exists (Date (fold_left Z.min zs a)), (Date (fold_left Z.max zs a)).
    split; [apply (min_fold_dates zs a)|]. split; [apply (max_fold_dates zs a)|].
    destruct (fold_min_le zs a) as [Hm1 Hm2]. destruct (fold_max_ge zs a) as [HM1 HM2].
    intros z Hz. unfold py_ge, py_le.
    apply elem_of_cons in Hz as [->|Hz]; split; f_equal; apply Z.leb_le;
      auto.
Qed.

Lemma date_series c (rs : list row) :
  date_column c rs -> map (cell_at c) rs = map Date (map (date_at c) rs).
Proof.
  intros H. rewrite map_map. induction rs as [|r rs IH]; [reflexivity|].
  simpl. rewrite IH by (intros r' Hr'; apply H; now right).
  destruct (H r) as [z Hz]; [left|]. unfold date_at. now rewrite Hz.
Qed.

Lemma restrict_ext (p q : row -> bool) df :
  (forall r, r ∈ rows df -> p r = q r) -> restrict p df = restrict q df.
Proof.
  intros H. unfold restrict. f_equal.
  induction (rows df) as [|r rs IH]; [reflexivity|].
  rewrite !filter_cons. rewrite (H r) by left.
  rewrite IH by (intros r' Hr'; apply H; now right). reflexivity.
Qed.

(** X3: with date_range left empty, get_spend_vs_activity_plot takes the
    least and the greatest date of the date column as its range, so the
    date predicate excludes no row: the filter keeps exactly the rows whose
    variable description and activity type match up to case.  On a table
    without rows the two bounds are missing values and the lookup succeeds
    all the same. *)
Theorem default_date_range_keeps_every_row (w : world) (data : loc) (df : DataFrame)
    (date : string) :
  heap w !! data = Some df ->
  date ∈ columns df ->
  date_column date (rows df) ->
  exists start_date end_date,
    date_bounds data [] (Col date) w = (Ok (start_date, end_date), w) /\
    (forall r, r ∈ rows df ->
               py_ge (cell_at date r) start_date = Ok true /\
               py_le (cell_at date r) end_date = Ok true) /\
    (rows df = [] -> start_date = NaN /\ end_date = NaN) /\
    (forall variable_description activity_type,
        restrict (lower_pred date variable_description activity_type start_date end_date) df
        = restrict (text_pred variable_description activity_type) df).
Proof.
  intros Hl Hd Hdates.
  destruct (series_bounds_dates (map (date_at date) (rows df)))
    as (lo & hi & Hmin & Hmax & Hb).
  rewrite <- (date_series _ _ Hdates) in Hmin, Hmax.
  assert (Hin : forall r, r ∈ rows df ->
                  py_ge (cell_at date r) lo = Ok true /\ py_le (cell_at date r) hi = Ok true).
  { intros r Hr. destruct (Hdates r Hr) as [z Hz]. rewrite Hz. apply Hb.
    apply list_elem_of_fmap. exists r. split; [|exact Hr]. unfold date_at. now rewrite Hz. }
  exists lo, hi. split; [|split; [exact Hin|split]].
  - unfold date_bounds. simpl.
    rewrite (bind_ok _ _ _ _ _ (getitem_ok _ _ _ _ Hl Hd)).
    unfold lift at 1, bind at 1. rewrite Hmin.
    rewrite (bind_ok _ _ _ _ _ (getitem_ok _ _ _ _ Hl Hd)).
    unfold lift at 1, bind at 1. now rewrite Hmax.
  - intros Hnil. rewrite Hnil in Hmin, Hmax. simpl in Hmin, Hmax.
    injection Hmin as <-. injection Hmax as <-. now split.
  - intros vd act. apply restrict_ext. intros r Hr. unfold lower_pred, text_pred.
    destruct (Hin r Hr) as [-> ->]. simpl. now rewrite !andb_true_r.
Qed.

Lemma scenario_dates : date_column "date" (rows scenario_frame).
Proof.
  intros r Hr. apply list_elem_of_In in Hr. simpl in Hr.
  destruct Hr as [<-|[<-|[<-|[]]]]; eexists; vm_compute; reflexivity.
Qed.

Lemma default_date_range_keeps_every_row_witness :
  exists start_date end_date,
    date_bounds 0%nat [] (Col "date") scenario_world
    = (Ok (start_date, end_date), scenario_world) /\
    forall r, r ∈ rows scenario_frame ->
              py_ge (cell_at "date" r) start_date = Ok true /\
              py_le (cell_at "date" r) end_date = Ok true.
Proof.
  destruct (default_date_range_keeps_every_row scenario_world 0%nat scenario_frame "date")
    as (lo & hi & Hrun & Hin & _).
  - reflexivity.
  - apply in_columns. vm_compute. reflexivity.
  - exact scenario_dates.
  - exists lo, hi. split; [exact Hrun | exact Hin].
Defined.

(** X4: a date_range with a single element makes get_spend_vs_activity_plot
    fail with IndexError at line 331, before the table is read: nothing is
    validated, printed or allocated, whatever the table and the selectors;
    of a date_range with more than two elements only the first two are
    used. *)
Theorem one_element_date_range_raises (w : world) (data : loc)
    (variable_description activity_type : string) (start_date : cell)
    (date_col group_col : label) (group_value : option cell) :
  get_spend_vs_activity_plot data variable_description activity_type [start_date]
    date_col group_col group_value w
  = (Raise IndexError, w) /\
  (forall end_date more,
      get_spend_vs_activity_plot data variable_description activity_type
        (start_date :: end_date :: more) date_col group_col group_value w
      = get_spend_vs_activity_plot data variable_description activity_type
          [start_date; end_date] date_col group_col group_value w).
Proof. split; [reflexivity|]. intros end_date more. reflexivity. Qed.

(** * The dashboard callback of the spend-versus-activity plot *)

Lemma px_line_one_run w l d x y :
  heap w !! l = Some d -> x ∈ columns d -> y ∈ columns d ->
  px_line l (Col x) (OneColumn (Col y)) w
  = (Ok (mkFigure [mkTrace "" (column_of x d) (column_of y d)]), w).
Proof.
  intros Hl Hx Hy. unfold px_line.
  rewrite (bind_ok _ _ _ _ _ (deref_ok _ _ _ Hl)).
  unfold lift at 1, bind at 1. simpl. unfold px_trace.
  now rewrite !column_ok by assumption.
Qed.

Section Callback.
Import get_spend_vs_activity_plot_interact.
Context (w : world) (data : loc) (df : DataFrame) (date : string)
        (touchpoint activity start_date end_date : cell).
Hypothesis Hdata : heap w !! data = Some df.
Hypothesis Hvd : "variable_description" ∈ columns df.
Hypothesis Hact : "activity_type" ∈ columns df.
Hypothesis Hdate : date ∈ columns df.
Hypothesis Hspend : "Spend" ∈ columns df.
Hypothesis Hactivity : "Activity" ∈ columns df.
Hypothesis Hcmp : forall r, r ∈ rows df -> comparable date start_date end_date r.
Hypothesis Hnum : numeric_measures (rows df).

Let t : DataFrame := restrict (exact_pred date touchpoint activity start_date end_date) df.
Let w' : world := mkWorld (heap w ++ [derived t]) (stdout w).

Lemma callback_table_run (k : loc -> M (figure * figure)) :
  (temp <- no_group.working_table data (Col date) touchpoint activity
             start_date end_date ;;
   add_cost_per_act temp ;;;
   k temp) w
  = k (length (heap w)) w'.
Proof.
  assert (Hwt : no_group.working_table data (Col date) touchpoint activity
                  start_date end_date w
                = (Ok (length (heap w)), mkWorld (heap w ++ [t]) (stdout w))).
  { unfold no_group.working_table.
    rewrite (bind_ok _ _ _ _ _
               (exact_mask_run _ _ _ _ touchpoint activity _ _ Hdata Hvd Hact Hdate Hcmp)).
    apply (getitem_mask_ok _ _ _ _ Hdata). }
  rewrite (bind_ok _ _ _ _ _ Hwt).
  erewrite bind_ok.
  2:{ apply add_cost_per_act_derived with (t := t);
        [simpl; apply lookup_last_alloc | exact Hspend | exact Hactivity |].
      intros r Hr. apply elem_of_restrict in Hr as [_ Hr]. now apply Hnum. }
  simpl heap. now rewrite insert_last.
Qed.

Lemma callback_figures_run plot_type :
  spend_activity_figures (length (heap w)) (Col date) plot_type w'
  = (if bool_decide (plot_type = "Time Series")
     then Ok (time_series_figure date (derived t), cost_figure date (derived t))
     else if bool_decide (plot_type = "Scatter Plot")
          then Ok (scatter_figure (derived t), cost_figure date (derived t))
          else Raise (UnboundLocalError "fig"),
     w').
Proof.
  assert (Hl : heap w' !! length (heap w) = Some (derived t)) by apply lookup_last_alloc.
  assert (Hd : date ∈ columns (derived t)) by now apply columns_derived.
  assert (HS : "Spend" ∈ columns (derived t)) by now apply columns_derived.
  assert (HA : "Activity" ∈ columns (derived t)) by now apply columns_derived.
  unfold spend_activity_figures.
  rewrite (bind_ok _ _ _ _ _
             (px_line_one_run _ _ _ _ _ Hl Hd (cost_per_act_in_derived t))).
  case_bool_decide; [|case_bool_decide].
  - unfold bind at 1.
    rewrite (bind_ok _ _ _ _ _ (getitem_ok _ _ _ _ Hl Hd)).
    rewrite (bind_ok _ _ _ _ _ (getitem_ok _ _ _ _ Hl HS)).
    rewrite (bind_ok _ _ _ _ _ (getitem_ok _ _ _ _ Hl Hd)).
    rewrite (bind_ok _ _ _ _ _ (getitem_ok _ _ _ _ Hl HA)).
    reflexivity.
  - unfold bind at 1. unfold px_scatter.
    rewrite (bind_ok _ _ _ _ _ (px_line_one_run _ _ _ _ _ Hl HA HS)).
    reflexivity.
  - reflexivity.
Qed.

Lemma no_group_update_graph1_run plot_type :
  no_group.update_graph1 data (Col date) touchpoint activity plot_type start_date end_date w
  = (if bool_decide (plot_type = "Time Series")
     then Ok (time_series_figure date (derived t), cost_figure date (derived t))
     else if bool_decide (plot_type = "Scatter Plot")
          then Ok (scatter_figure (derived t), cost_figure date (derived t))
          else Raise (UnboundLocalError "fig"),
     w').
Proof.
  unfold no_group.update_graph1.
  rewrite (callback_table_run (fun temp => spend_activity_figures temp (Col date) plot_type)).
  apply callback_figures_run.
Qed.

End Callback.

(** X5: the callback of the dashboard without a group column returns a
    pair of figures built from one working table, the rows that pass the
    exact-match filter with their derived column: for "Time Series" the
    traces Spends and Activity over the dates, for "Scatter Plot" one trace
    of Spend over Activity, and in both cases the cost-per-activity line
    over the dates.  It prints nothing and allocates that one table. *)
Theorem callback_returns_two_figures (w : world) (data : loc) (df : DataFrame)
    (date : string) (touchpoint activity start_date end_date : cell) :
  heap w !! data = Some df ->
  "variable_description" ∈ columns df -> "activity_type" ∈ columns df ->
  date ∈ columns df -> "Spend" ∈ columns df -> "Activity" ∈ columns df ->
  (forall r, r ∈ rows df -> comparable date start_date end_date r) ->
  numeric_measures (rows df) ->
  get_spend_vs_activity_plot_interact.no_group.update_graph1
    data (Col date) touchpoint activity "Time Series" start_date end_date w
  = (Ok (time_series_figure date
           (derived (restrict (exact_pred date touchpoint activity start_date end_date) df)),
         cost_figure date
           (derived (restrict (exact_pred date touchpoint activity start_date end_date) df))),
     mkWorld (heap w ++ [derived (restrict (exact_pred date touchpoint activity
                                              start_date end_date) df)])
             (stdout w)) /\
  get_spend_vs_activity_plot_interact.no_group.update_graph1
    data (Col date) touchpoint activity "Scatter Plot" start_date end_date w
  = (Ok (scatter_figure
           (derived (restrict (exact_pred date touchpoint activity start_date end_date) df)),
         cost_figure date
           (derived (restrict (exact_pred date touchpoint activity start_date end_date) df))),
     mkWorld (heap w ++ [derived (restrict (exact_pred date touchpoint activity
                                              start_date end_date) df)])
             (stdout w)).
Proof.
  intros. split.
  - now rewrite (no_group_update_graph1_run w data df date touchpoint activity
                   start_date end_date).
  - now rewrite (no_group_update_graph1_run w data df date touchpoint activity
                   start_date end_date).
Qed.

Lemma callback_returns_two_figures_witness :
  fst (get_spend_vs_activity_plot_interact.no_group.update_graph1
         0%nat (Col "date") (Str "TV") (Str "Impressions") "Scatter Plot"
         (Date 1) (Date 3) scenario_world)
  = Ok (scatter_figure
          (derived (restrict (exact_pred "date" (Str "TV") (Str "Impressions")
                                (Date 1) (Date 3)) scenario_frame)),
        cost_figure "date"
          (derived (restrict (exact_pred "date" (Str "TV") (Str "Impressions")
                                (Date 1) (Date 3)) scenario_frame))).
Proof.
  destruct (callback_returns_two_figures scenario_world 0%nat scenario_frame "date"
              (Str "TV") (Str "Impressions") (Date 1) (Date 3)) as [_ H].
  - reflexivity.
  - apply in_columns. vm_compute. reflexivity.
  - apply in_columns. vm_compute. reflexivity.
  - apply in_columns. vm_compute. reflexivity.
  - apply in_columns. vm_compute. reflexivity.
  - apply in_columns. vm_compute. reflexivity.
  - exact scenario_comparable.
  - exact scenario_numeric.
  - now rewrite H.
Defined.

(** X6: for a plot_type that is neither "Time Series" nor "Scatter Plot"
    the callback builds its working table and the cost-per-activity figure
    and then fails with UnboundLocalError on [fig], which neither branch of
    lines 99-131 has assigned. *)
Theorem callback_unknown_plot_type_raises (w : world) (data : loc) (df : DataFrame)
    (date : string) (touchpoint activity start_date end_date : cell) (plot_type : string) :
  heap w !! data = Some df ->
  "variable_description" ∈ columns df -> "activity_type" ∈ columns df ->
  date ∈ columns df -> "Spend" ∈ columns df -> "Activity" ∈ columns df ->
  (forall r, r ∈ rows df -> comparable date start_date end_date r) ->
  numeric_measures (rows df) ->
  plot_type <> "Time Series" -> plot_type <> "Scatter Plot" ->
  get_spend_vs_activity_plot_interact.no_group.update_graph1
    data (Col date) touchpoint activity plot_type start_date end_date w
  = (Raise (UnboundLocalError "fig"),
     mkWorld (heap w ++ [derived (restrict (exact_pred date touchpoint activity
                                              start_date end_date) df)])
             (stdout w)).
Proof.
  intros Hl Hvd Hact Hd HS HA Hcmp Hnum H1 H2.
  rewrite (no_group_update_graph1_run w data df date touchpoint activity
             start_date end_date) by assumption.
  now rewrite !bool_decide_eq_false_2 by assumption.
Qed.

Lemma callback_unknown_plot_type_raises_witness :
  fst (get_spend_vs_activity_plot_interact.no_group.update_graph1
         0%nat (Col "date") (Str "TV") (Str "Impressions") "Bar Chart"
         (Date 1) (Date 3) scenario_world)
  = Raise (UnboundLocalError "fig").
Proof.
  rewrite (callback_unknown_plot_type_raises scenario_world 0%nat scenario_frame "date"
             (Str "TV") (Str "Impressions") (Date 1) (Date 3) "Bar Chart").
  - reflexivity.
  - reflexivity.
  - apply in_columns. vm_compute. reflexivity.
  - apply in_columns. vm_compute. reflexivity.
  - apply in_columns. vm_compute. reflexivity.
  - apply in_columns. vm_compute. reflexivity.
  - apply in_columns. vm_compute. reflexivity.
  - exact scenario_comparable.
  - exact scenario_numeric.
  - discriminate.
  - discriminate.
Defined.

(** * Values that are not text in a validated column *)

Lemma in_map_lower_app_absent x (pre rest : list cell) :
  (forall v, v ∈ pre -> exists s, v = Str s /\ lower s <> x) ->
  in_map_lower x (pre ++ rest) = in_map_lower x rest.
Proof.
  induction pre as [|v pre IH]; intros H; [reflexivity|].
  destruct (H v) as (s & -> & Hs); [left|]. simpl.
  rewrite bool_decide_eq_false_2 by exact Hs.
  apply IH. intros v' Hv'. apply H. now right.
Qed.

Lemma in_map_lower_not_text x c (rest : list cell) :
  not_text c -> in_map_lower x (c :: rest) = Raise TypeError.
Proof. intros H. destruct c as [s| |]; [now destruct (H s) | reflexivity..]. Qed.

(** X7: the validators test [x in map(str.lower, values)] lazily over the
    distinct values in order of first appearance.  When a value that is not
    text (a missing value) comes before any value that matches the selector
    up to case, get_quarterly_spends_plot fails with TypeError and prints
    nothing; when a matching text value comes first, the value that is not
    text is never lowered and the validation succeeds. *)
Theorem validator_meets_a_value_that_is_not_text (w : world) (data : loc) (df : DataFrame)
    (x : string) (pre post : list cell) (c : cell) :
  heap w !! data = Some df ->
  "variable_description" ∈ columns df ->
  unique (map (cell_at "variable_description") (rows df)) = pre ++ c :: post ->
  (forall v, v ∈ pre -> exists s, v = Str s /\ lower s <> lower x) ->
  (not_text c ->
   forall group_col group_value,
     get_quarterly_spends_plot data group_col x group_value w = (Raise TypeError, w)) /\
  ((exists s, c = Str s /\ lower s = lower x) ->
   in_map_lower (lower x) (unique (map (cell_at "variable_description") (rows df)))
   = Ok true).
Proof.
  intros Hl Hvd Hu Hpre. split.
  - intros Hc group_col group_value. unfold get_quarterly_spends_plot.
    rewrite (bind_ok _ _ _ _ _ (getitem_ok _ _ _ _ Hl Hvd)).
    unfold lift at 1, bind at 1.
    now rewrite Hu, in_map_lower_app_absent, in_map_lower_not_text.
  - intros (s & -> & Hs). rewrite Hu, in_map_lower_app_absent by exact Hpre.
    simpl. now rewrite bool_decide_eq_true_2.
Qed.

Lemma validator_meets_a_value_that_is_not_text_witness :
  get_quarterly_spends_plot 0%nat PyNone "Radio" None (mkWorld [gap_frame] [])
  = (Raise TypeError, mkWorld [gap_frame] []).
Proof.
  apply (validator_meets_a_value_that_is_not_text (mkWorld [gap_frame] []) 0%nat gap_frame
           "Radio" [Str "TV"] [Str "Radio"] NaN).
  - reflexivity.
  - apply in_columns. vm_compute. reflexivity.
  - vm_compute. reflexivity.
  - intros v Hv. apply list_elem_of_singleton in Hv as ->.
    eexists. split; [reflexivity|]. vm_compute. discriminate.
  - intros s. discriminate.
Defined.

(** * Columns that a function needs *)

Lemma groupby_sum_missing_key df c :
  c ∉ columns df -> groupby_sum df [Col c] = Raise (KeyError (Col c)).
Proof.
  intros H. unfold groupby_sum. simpl. unfold key_name.
  now rewrite bool_decide_eq_false_2.
Qed.

Lemma columns_of_groupby df keys ks g c :
  rmap (key_name df) keys = Ok ks -> groupby_sum df keys = Ok g ->
  c ∈ columns g -> c ∈ columns df.
Proof.
  intros Hkeys Hg Hc. rewrite (groupby_sum_unfold _ _ _ Hkeys) in Hg.
  destruct (rmap _ (group_list ks df)) as [rs|e]; simpl in Hg; [|discriminate].
  injection Hg as <-. simpl in Hc. apply elem_of_app in Hc as [Hc|Hc].
  - eapply key_names_are_columns; eassumption.
  - now apply list_elem_of_filter in Hc as [_ Hc].
Qed.

Lemma px_line_missing_y w l d x y :
  heap w !! l = Some d -> y ∉ columns d ->
  px_line l x (OneColumn (Col y)) w = (Raise ValueError, w).
Proof.
  intros Hl Hy. unfold px_line.
  rewrite (bind_ok _ _ _ _ _ (deref_ok _ _ _ Hl)).
  unfold lift at 1, bind at 1. simpl. unfold px_trace.
  rewrite (column_missing d (Col y)) by (now intros n [= <-]).
  now destruct (column d x).
Qed.

(** X8: the columns get_quarterly_spends_plot needs.  Without a
    variable_description column it fails with KeyError at once, before
    anything is printed or allocated.  With a selector that matches a row
    up to case but without a YEAR_QTR column, it fails with KeyError in the
    aggregation, after the filtered table was allocated.  With both but
    without a value column, the aggregation is done and the chart emitter
    fails with ValueError. *)
Theorem quarterly_missing_columns (w : world) (data : loc) (df : DataFrame)
    (group_col : label) (x : string) :
  heap w !! data = Some df ->
  ("variable_description" ∉ columns df ->
   forall group_value,
     get_quarterly_spends_plot data group_col x group_value w
     = (Raise (KeyError (Col "variable_description")), w)) /\
  ("variable_description" ∈ columns df ->
   text_column "variable_description" (rows df) ->
   (exists r s, r ∈ rows df /\ cell_at "variable_description" r = Str s /\
                lower s = lower x) ->
   ("YEAR_QTR" ∉ columns df ->
    get_quarterly_spends_plot data group_col x None w
    = (Raise (KeyError (Col "YEAR_QTR")),
       mkWorld (heap w ++ [restrict (has_description (Str x)) df]) (stdout w))) /\
   (forall g,
       groupby_sum (restrict (has_description (Str x)) df) [Col "YEAR_QTR"] = Ok g ->
       "YEAR_QTR" ∈ columns df -> "value" ∉ columns df ->
       get_quarterly_spends_plot data group_col x None w
       = (Raise ValueError,
          mkWorld (heap w ++ [restrict (has_description (Str x)) df; g]) (stdout w)))).
Proof.
  intros Hl. split.
  - intros Hno group_value. unfold get_quarterly_spends_plot.
    erewrite bind_raise; [reflexivity|].
    apply (getitem_missing _ _ _ _ Hl). now intros n [= <-].
  - intros Hvd Htext Hmatch.
    assert (Hstart : get_quarterly_spends_plot data group_col x None w
                     = (temp <- quarterly_working_table data group_col x None ;;
                        fig <- px_line temp (Col "YEAR_QTR") (OneColumn (Col "value")) ;;
                        ret (Some fig)) w).
    { unfold get_quarterly_spends_plot.
      rewrite (bind_ok _ _ _ _ _ (getitem_ok _ _ _ _ Hl Hvd)).
      unfold lift at 1, bind at 1.
      now rewrite found_in_column. }
    rewrite Hstart. clear Hstart.
    set (t := restrict (has_description (Str x)) df).
    set (w1 := mkWorld (heap w ++ [t]) (stdout w)).
    assert (Ht : heap w1 !! length (heap w) = Some t) by apply lookup_last_alloc.
    assert (Hfilter : forall k : loc -> M loc,
              (vd <- getitem data (Col "variable_description") ;;
               temp <- getitem_mask data (series_eq vd (Str x)) ;;
               k temp) w = k (length (heap w)) w1).
    { intros k. rewrite (bind_ok _ _ _ _ _ (getitem_ok _ _ _ _ Hl Hvd)).
      rewrite series_eq_column.
      now rewrite (bind_ok _ _ _ _ _ (getitem_mask_ok _ _ _ _ Hl)). }
    split.
    + intros Hq. erewrite bind_raise; [reflexivity|].
      unfold quarterly_working_table.
      rewrite (Hfilter (fun temp => groupby_sum_reset_index temp [Col "YEAR_QTR"])).
      unfold groupby_sum_reset_index.
      rewrite (bind_ok _ _ _ _ _ (deref_ok _ _ _ Ht)).
      unfold lift at 1, bind at 1. now rewrite groupby_sum_missing_key.
    + intros g Hg Hq Hv. erewrite bind_ok.
      2:{ unfold quarterly_working_table.
          rewrite (Hfilter (fun temp => groupby_sum_reset_index temp [Col "YEAR_QTR"])).
          apply (groupby_sum_reset_index_ok _ _ _ _ _ Ht Hg). }
      erewrite bind_raise.
      2:{ apply px_line_missing_y with (d := g); [simpl; apply lookup_last_alloc|].
          intros Hin. apply Hv.
          eapply (columns_of_groupby t [Col "YEAR_QTR"] ["YEAR_QTR"]) in Hin;
            [exact Hin | | exact Hg].
          simpl. unfold key_name. now rewrite bool_decide_eq_true_2. }
      subst w1. simpl. now rewrite <- app_assoc.
Qed.

Lemma quarterly_missing_columns_witness :
  get_quarterly_spends_plot 0%nat PyNone "TV" (Some (Str "north"))
    (mkWorld [overflow_frame] [])
  = (Raise (KeyError (Col "variable_description")), mkWorld [overflow_frame] []).
Proof.
  apply (quarterly_missing_columns (mkWorld [overflow_frame] []) 0%nat overflow_frame).
  - reflexivity.
  - apply (bool_decide_eq_false_1 _). vm_compute. reflexivity.
Defined.

(** * The order of the groups *)

Lemma SFcompare_antisym x y :
  default Eq (SFcompare y x) = CompOpp (default Eq (SFcompare x y)).
Proof.
  destruct x as [sx|sx| |sx mx ex], y as [sy|sy| |sy my ey]; simpl;
    try reflexivity; try (destruct sx; reflexivity); try (destruct sy; reflexivity);
    try (destruct sx, sy; reflexivity).
  pose proof (Pos.compare_cont_antisym mx my Eq) as H. simpl in H.
  destruct sx, sy; simpl; try reflexivity;
    rewrite (Z.compare_antisym ex ey); destruct (Z.compare ex ey); simpl;
    try reflexivity; rewrite <- H; now destruct (Pos.compare_cont Eq mx my).
Qed.

Lemma cell_compare_antisym a b : cell_compare b a = CompOpp (cell_compare a b).
Proof.
  destruct a as [x|x|x], b as [y|y|y]; simpl; try reflexivity.
  - rewrite (String.compare_antisym x y). now destruct (String.compare y x).
  - apply SFcompare_antisym.
  - apply Z.compare_antisym.
Qed.

Lemma key_compare_antisym k1 k2 : key_compare k2 k1 = CompOpp (key_compare k1 k2).
Proof.
  revert k2. induction k1 as [|a k1 IH]; intros [|b k2]; simpl; try reflexivity.
  rewrite (cell_compare_antisym a b). destruct (cell_compare a b); simpl; auto.
Qed.

Lemma key_le_total k h : key_compare k h <> Lt -> key_le h k.
Proof.
  intros H. unfold key_le. rewrite key_compare_antisym.
  destruct (key_compare k h); simpl; congruence.
Qed.

Lemma insert_key_HdRel h k t :
  key_le h k -> HdRel key_le h t -> HdRel key_le h (insert_key k t).
Proof.
  intros Hk Ht. destruct t as [|a t]; simpl; [now constructor|].
  destruct (key_compare k a); constructor; try assumption; now inversion Ht.
Qed.

Lemma insert_key_sorted k l : Sorted key_le l -> Sorted key_le (insert_key k l).
Proof.
  induction l as [|h t IH]; intros Hs; simpl; [repeat constructor|].
  inversion Hs as [|? ? Ht Hh]; subst.
  destruct (key_compare k h) eqn:E.
  - constructor; [now apply IH|]. apply insert_key_HdRel; [|exact Hh].
    apply key_le_total. congruence.
  - constructor; [exact Hs|]. constructor. unfold key_le. congruence.
  - constructor; [now apply IH|]. apply insert_key_HdRel; [|exact Hh].
    apply key_le_total. congruence.
Qed.

Lemma sort_keys_sorted l : Sorted key_le (sort_keys l).
Proof.
  induction l as [|k l IH]; simpl; [constructor | now apply insert_key_sorted].
Qed.

Lemma singleton_keys_sorted (cs : list cell) :
  Sorted key_le (map (fun c => [c]) cs) -> Sorted cell_le cs.
Proof.
  induction cs as [|a cs IH]; intros H; [constructor|].
  inversion H as [|? ? Ht Hh]; subst. constructor; [now apply IH|].
  destruct cs as [|b cs]; constructor. inversion Hh as [|? ? Hab]; subst.
  unfold key_le in Hab. simpl in Hab. unfold cell_le.
  now destruct (cell_compare a b).
Qed.

Lemma cell_compare_eq a b :
  text_or_date a -> cell_compare a b = Eq -> a = b.
Proof.
  intros [[s ->]|[z ->]]; destruct b as [y|y|y]; simpl; try discriminate.
  - intros H. apply String.compare_eq_iff in H. now subst.
  - intros H. apply Z.compare_eq in H. now subst.
Qed.

Lemma sorted_distinct_strict (cs : list cell) :
  Sorted cell_le cs -> NoDup cs -> (forall c, c ∈ cs -> text_or_date c) ->
  Sorted cell_lt cs.
Proof.
  induction cs as [|a cs IH]; intros Hs Hnd Ht; [constructor|].
  inversion Hs as [|? ? Hs' Hh]; subst. apply NoDup_cons in Hnd as [Ha Hnd].
  constructor; [apply IH; auto; intros c Hc; apply Ht; now right|].
  destruct cs as [|b cs]; constructor. inversion Hh as [|? ? Hab]; subst.
  unfold cell_le in Hab. unfold cell_lt.
  destruct (cell_compare a b) eqn:E; try congruence.
  exfalso. apply Ha. apply cell_compare_eq in E; [subst; left | apply Ht; left].
Qed.

(** The key column of an aggregation by one column: one value per group. *)
Lemma groupby_key_column df c g :
  c ∈ columns df -> NoDup (columns df) ->
  groupby_sum df [Col c] = Ok g ->
  map (fun v => [v]) (column_of c g) = group_list [c] df.
Proof.
  intros Hc Hcols Hg.
  assert (Hkeys : rmap (key_name df) [Col c] = Ok [c]).
  { simpl. unfold key_name. now rewrite bool_decide_eq_true_2. }
  destruct (groupby_sum_rows _ _ _ _ Hkeys (NoDup_singleton c) Hcols Hg) as [_ HF].
  rewrite <- (Forall2_keys _ _ _ _ HF). unfold column_of. now rewrite map_map.
Qed.

Lemma singleton_inj_NoDup (cs : list cell) :
  NoDup (map (fun v => [v]) cs) -> NoDup cs.
Proof.
  intros H. eapply NoDup_fmap_1. exact H.
Qed.

Lemma groupby_key_column_spec df c g :
  c ∈ columns df -> NoDup (columns df) ->
  groupby_sum df [Col c] = Ok g ->
  NoDup (column_of c g) /\
  Sorted cell_le (column_of c g) /\
  (forall v, v ∈ column_of c g <->
             exists r, r ∈ rows df /\ cell_at c r = v /\ is_na v = false).
Proof.
  intros Hc Hcols Hg. pose proof (groupby_key_column _ _ _ Hc Hcols Hg) as Hk.
  destruct (group_list_spec [c] df) as [N M]. rewrite <- Hk in N, M.
  split; [now apply singleton_inj_NoDup|]. split.
  - apply singleton_keys_sorted. rewrite Hk. apply sort_keys_sorted.
  - intros v. split.
    + intros Hv. destruct (proj1 (M [v])) as (r & Hr & Hkr & Hm).
      { apply list_elem_of_fmap. now exists v. }
      exists r. split; [exact Hr|]. simpl in Hkr. injection Hkr as Hkr.
      split; [exact Hkr|]. simpl in Hm. now destruct (is_na v).
    + intros (r & Hr & Hv & Hna).
      assert (Hin : [v] ∈ map (fun v => [v]) (column_of c g)).
      { apply M. exists r. split; [exact Hr|]. split; [simpl; now rewrite Hv|].
        simpl. now rewrite Hna. }
      apply list_elem_of_fmap in Hin as (v' & [= ->] & Hv'). exact Hv'.
Qed.

(** * A successful call of [get_quarterly_spends_plot] *)

Lemma frame_of_ok_inv (m : M loc) w g :
  frame_of m w = Ok g -> exists l w', m w = (Ok l, w') /\ heap w' !! l = Some g.
Proof.
  unfold frame_of. destruct (m w) as [[l|e] w1]; [|discriminate].
  destruct (heap w1 !! l) as [d|] eqn:E; [|discriminate].
  intros [= <-]. eauto.
Qed.

Lemma summable_restrict c (p : row -> bool) df :
  summable c (rows df) -> summable c (rows (restrict p df)).
Proof.
  intros [H|H]; [left | right]; intros r Hr;
    apply elem_of_restrict in Hr as [_ Hr]; now apply H.
Qed.




(** * The charts of actuals against predictions *)

Lemma column_of_scaled np_exp is_log df c :
  c <> "actuals" -> c <> "preds" ->
  column_of c (scaled np_exp is_log df) = column_of c df.
Proof.
  intros H1 H2. destruct is_log; [|reflexivity].
  unfold column_of. simpl. rewrite map_map. apply map_ext.
  intros r. now apply cell_at_exp_row.
Qed.

Lemma elem_of_column_of c df v :
  v ∈ column_of c df <-> exists r, r ∈ rows df /\ cell_at c r = v.
Proof.
  unfold column_of. rewrite list_elem_of_fmap. split; intros (r & H1 & H2); eauto.
Qed.

(** X10: in the "all groups" view get_actual_vs_predicted_plot draws one
    point per date of the table, the dates in strictly ascending order,
    whatever the order and the number of the rows of a date in the table;
    it prints nothing and allocates its copy and the aggregated table. *)
Theorem all_groups_chart_has_one_point_per_date (np_exp : spec_float -> spec_float)
    (w : world) (act_vs_preds : loc) (df : DataFrame) (date dv_col : string)
    (is_log : bool) (group_col : label) (group_value : option cell) :
  heap w !! act_vs_preds = Some df ->
  NoDup (columns df) ->
  date ∈ columns df -> "actuals" ∈ columns df -> "preds" ∈ columns df ->
  date <> "actuals" -> date <> "preds" ->
  numeric_fit (rows df) ->
  (forall r, r ∈ rows df -> text_or_date (cell_at date r)) ->
  (forall c, c ∈ columns df -> c <> date -> summable c (rows df)) ->
  all_groups group_value = true ->
  exists g,
    get_actual_vs_predicted_plot np_exp act_vs_preds (Col date) dv_col is_log
      group_col group_value w
    = (Ok (Some (fit_figure date g)),
       mkWorld (heap w ++ [scaled np_exp is_log df; g]) (stdout w)) /\
    NoDup (column_of date g) /\
    Sorted cell_lt (column_of date g) /\
    (forall d, d ∈ column_of date g <-> d ∈ column_of date df) /\
    length (rows g) = length (column_of date g).
Proof.
  intros Hl Hcols Hd Ha Hp Hda Hdp Hnum Hdates Hsum Hall.
  destruct (scaled_total np_exp df date Hd Hsum is_log) as [g Hg].
  exists g. split; [eapply get_actual_vs_predicted_plot_all_run; eauto|].
  assert (Hd' : date ∈ columns (scaled np_exp is_log df)) by now destruct is_log.
  assert (Hcols' : NoDup (columns (scaled np_exp is_log df))) by now destruct is_log.
  destruct (groupby_key_column_spec _ date g Hd' Hcols' Hg) as (Hnd & Hsorted & Hmem).
  assert (Hiff : forall d, d ∈ column_of date g <-> d ∈ column_of date df).
  { intros d. rewrite Hmem, <- (column_of_scaled np_exp is_log df date Hda Hdp).
    rewrite elem_of_column_of. split.
    - intros (r & Hr & Hc & _). eauto.
    - intros (r & Hr & Hc). exists r. split; [exact Hr|]. split; [exact Hc|].
      assert (Hin : d ∈ column_of date df).
      { rewrite <- (column_of_scaled np_exp is_log df date Hda Hdp).
        apply elem_of_column_of. eauto. }
      apply elem_of_column_of in Hin as (r0 & Hr0 & <-).
      destruct (Hdates r0 Hr0) as [[s ->]|[z ->]]; reflexivity. }
  split; [exact Hnd|]. split; [|split; [exact Hiff|]].
  - apply sorted_distinct_strict; [exact Hsorted | exact Hnd|].
    intros c Hc. apply Hiff, elem_of_column_of in Hc as (r & Hr & <-). now apply Hdates.
  - unfold column_of. now rewrite length_map.
Qed.

Lemma fit_numeric : numeric_fit (rows fit_frame).
Proof.
  intros r Hr. apply list_elem_of_In in Hr. simpl in Hr.
  destruct Hr as [<-|[<-|[<-|[]]]]; eexists _, _; split; vm_compute; reflexivity.
Qed.

Lemma fit_summable c :
  c ∈ columns fit_frame -> c <> "date" -> summable c (rows fit_frame).
Proof.
  intros Hc Hne. apply list_elem_of_In in Hc. simpl in Hc.
  destruct Hc as [<-|[<-|[<-|[<-|[]]]]].
  - congruence.
  - right. intros r Hr. apply list_elem_of_In in Hr. simpl in Hr.
    destruct Hr as [<-|[<-|[<-|[]]]]; eexists; vm_compute; reflexivity.
  - left. intros r Hr. apply list_elem_of_In in Hr. simpl in Hr.
    destruct Hr as [<-|[<-|[<-|[]]]]; eexists; vm_compute; reflexivity.
  - left. intros r Hr. apply list_elem_of_In in Hr. simpl in Hr.
    destruct Hr as [<-|[<-|[<-|[]]]]; eexists; vm_compute; reflexivity.
Qed.

Lemma fit_dates r : r ∈ rows fit_frame -> text_or_date (cell_at "date" r).
Proof.
  intros Hr. apply list_elem_of_In in Hr. simpl in Hr.
  destruct Hr as [<-|[<-|[<-|[]]]]; right; eexists; vm_compute; reflexivity.
Qed.

Lemma all_groups_chart_has_one_point_per_date_witness :
  exists g,
    get_actual_vs_predicted_plot exp_at_zero 0%nat (Col "date") "sales" false
      (Col "region") (Some (Str "all")) fit_world
    = (Ok (Some (fit_figure "date" g)),
       mkWorld (heap fit_world ++ [scaled exp_at_zero false fit_frame; g])
               (stdout fit_world)) /\
    Sorted cell_lt (column_of "date" g).
Proof.
  destruct (all_groups_chart_has_one_point_per_date exp_at_zero fit_world 0%nat fit_frame
              "date" "sales" false (Col "region") (Some (Str "all")))
    as (g & Hrun & _ & Hs & _).
  - reflexivity.
  - apply (bool_decide_unpack _). vm_compute. exact I.
  - apply in_columns. vm_compute. reflexivity.
  - apply in_columns. vm_compute. reflexivity.
  - apply in_columns. vm_compute. reflexivity.
  - discriminate.
  - discriminate.
  - exact fit_numeric.
  - exact fit_dates.
  - exact fit_summable.
  - reflexivity.
  - exists g. split; [exact Hrun | exact Hs].
Defined.

(** X11: a call of get_actual_vs_predicted_plot for a specific group of an
    existing group column prints the filtered table (line 755) and nothing
    else, and draws one point per row of that group, in table order, from
    the transformed copy, without aggregation; filtering the transformed
    copy is the same as transforming the filtered table when the group
    column is neither actuals nor preds. *)
Theorem specific_group_prints_the_filtered_table (np_exp : spec_float -> spec_float)
    (w : world) (act_vs_preds : loc) (df : DataFrame) (date dv_col group : string)
    (is_log : bool) (v : cell) :
  heap w !! act_vs_preds = Some df ->
  date ∈ columns df -> "actuals" ∈ columns df -> "preds" ∈ columns df ->
  group ∈ columns df ->
  numeric_fit (rows df) ->
  py_eq v (Str "all") = false ->
  get_actual_vs_predicted_plot np_exp act_vs_preds (Col date) dv_col is_log
    (Col group) (Some v) w
  = (Ok (Some (fit_figure date (restrict (in_group group v) (scaled np_exp is_log df)))),
     mkWorld (heap w ++ [scaled np_exp is_log df;
                         restrict (in_group group v) (scaled np_exp is_log df)])
             (stdout w ++ [PFrame (restrict (in_group group v)
                                            (scaled np_exp is_log df))])) /\
  (group <> "actuals" -> group <> "preds" ->
   restrict (in_group group v) (scaled np_exp is_log df)
   = scaled np_exp is_log (restrict (in_group group v) df)).
Proof.
  intros Hl Hd Ha Hp Hg Hnum Hv. split.
  - eapply get_actual_vs_predicted_plot_one_run; eauto.
  - intros H1 H2. clear Hnum. destruct is_log; [|reflexivity].
    unfold restrict, scaled, exp_frame. simpl. f_equal.
    induction (rows df) as [|r rs IH]; [reflexivity|].
    assert (He : in_group group v (exp_row np_exp r) = in_group group v r).
    { unfold in_group. now rewrite (cell_at_exp_row np_exp group r H1 H2). }
    simpl. rewrite !filter_cons.
    destruct (decide (in_group group v (exp_row np_exp r))) as [Hy|Hn];
      destruct (decide (in_group group v r)) as [Hy'|Hn'];
      rewrite He in *; try contradiction; simpl; [f_equal|]; exact IH.
Qed.

Lemma specific_group_prints_the_filtered_table_witness :
  stdout (snd (get_actual_vs_predicted_plot exp_at_zero 0%nat (Col "date") "sales" true
                 (Col "region") (Some (Str "north")) fit_world))
  = [PFrame (restrict (in_group "region" (Str "north")) (scaled exp_at_zero true fit_frame))].
Proof.
  destruct (specific_group_prints_the_filtered_table exp_at_zero fit_world 0%nat fit_frame
              "date" "sales" "region" true (Str "north")) as [H _].
  - reflexivity.
  - apply in_columns. vm_compute. reflexivity.
  - apply in_columns. vm_compute. reflexivity.
  - apply in_columns. vm_compute. reflexivity.
  - apply in_columns. vm_compute. reflexivity.
  - exact fit_numeric.
  - reflexivity.
  - now rewrite H.
Defined.

(** X12: get_actual_vs_predicted_plot_interact has no handler for a group
    column that is not in the table: for is_log true as for false it fails
    with KeyError when the options of the dropdown read the column (line
    669), after the copy was made and, for is_log true, transformed, and
    before the callback is defined or the server started; the tables that
    existed and the printed output are as before. *)
Theorem dashboard_without_group_column_raises (np_exp : spec_float -> spec_float)
    (w : world) (data : loc) (df : DataFrame) (group_col : label) (is_log : bool) :
  heap w !! data = Some df ->
  (forall n, group_col = Col n -> n ∉ columns df) ->
  (is_log = true ->
   "actuals" ∈ columns df /\ "preds" ∈ columns df /\ numeric_fit (rows df)) ->
  get_actual_vs_predicted_plot_interact.setup np_exp data group_col is_log w
  = (Raise (KeyError group_col),
     mkWorld (heap w ++ [scaled np_exp is_log df]) (stdout w)).
Proof.
  intros Hl Hc Hlog.
  unfold get_actual_vs_predicted_plot_interact.setup.
  destruct is_log.
  - destruct (Hlog eq_refl) as (Ha & Hp & Hnum).
    rewrite (scale_step np_exp df Ha Hp Hnum
               (fun data => getitem data group_col ;;; ret data) w data true Hl).
    erewrite bind_raise; [reflexivity|].
    apply getitem_missing with (df := scaled np_exp true df);
      [apply lookup_last_alloc | exact Hc].
  - rewrite (bind_ok _ _ _ _ _ (copy_ok _ _ _ Hl)).
    unfold bind at 1. simpl.
    erewrite bind_raise; [reflexivity|].
    apply getitem_missing with (df := df); [apply lookup_last_alloc | exact Hc].
Qed.

Lemma dashboard_without_group_column_raises_witness :
  get_actual_vs_predicted_plot_interact.setup exp_at_zero 0%nat (Col "country") true
    fit_world
  = (Raise (KeyError (Col "country")),
     mkWorld (heap fit_world ++ [scaled exp_at_zero true fit_frame]) (stdout fit_world)).
Proof.
  apply (dashboard_without_group_column_raises exp_at_zero fit_world 0%nat fit_frame).
  - reflexivity.
  - intros n [= <-]. apply (bool_decide_eq_false_1 _). vm_compute. reflexivity.
  - intros _. split; [|split].
    + apply in_columns. vm_compute. reflexivity.
    + apply in_columns. vm_compute. reflexivity.
    + exact fit_numeric.
Defined.

(** * The callbacks of the quarterly dashboard *)

Lemma as_optional_bind {A B} (m : M A) (k : A -> M B) w :
  (a <- m ;; b <- k a ;; ret (Some b)) w = as_optional ((a <- m ;; k a) w).
Proof.
  unfold bind, ret. destruct (m w) as [[a|e] w1]; simpl; [|reflexivity].
  destruct (k a w1) as [[b|e] w2]; reflexivity.
Qed.

(** X13: the callback of the quarterly dashboard without a group column
    has no validator and does not aggregate: it draws one point per row
    whose variable description equals the selected value, in table order,
    allocates that one table and prints nothing; for a value that no row
    has, it returns a chart without points instead of a message. *)
Theorem quarterly_callback_plots_rows_unaggregated (w : world) (data : loc)
    (df : DataFrame) (touchpoint : cell) :
  heap w !! data = Some df ->
  "variable_description" ∈ columns df -> "YEAR_QTR" ∈ columns df -> "value" ∈ columns df ->
  get_quarterly_spends_plot_interact.no_group.update_graph1 data touchpoint w
  = (Ok (quarterly_figure (restrict (has_description touchpoint) df)),
     mkWorld (heap w ++ [restrict (has_description touchpoint) df]) (stdout w)) /\
  ((forall r, r ∈ rows df -> py_eq (cell_at "variable_description" r) touchpoint = false) ->
   fst (get_quarterly_spends_plot_interact.no_group.update_graph1 data touchpoint w)
   = Ok (mkFigure [mkTrace "" [] []])).
Proof.
  intros Hl Hvd Hq Hv.
  assert (Hrun : get_quarterly_spends_plot_interact.no_group.update_graph1 data touchpoint w
                 = (Ok (quarterly_figure (restrict (has_description touchpoint) df)),
                    mkWorld (heap w ++ [restrict (has_description touchpoint) df])
                            (stdout w))).
  { assert (Hwt : get_quarterly_spends_plot_interact.no_group.working_table
                    data touchpoint w
                  = (Ok (length (heap w)),
                     mkWorld (heap w ++ [restrict (has_description touchpoint) df])
                             (stdout w))).
    { unfold get_quarterly_spends_plot_interact.no_group.working_table.
      rewrite (bind_ok _ _ _ _ _ (getitem_ok _ _ _ _ Hl Hvd)).
      rewrite series_eq_column.
      apply (getitem_mask_ok _ _ _ _ Hl). }
    unfold get_quarterly_spends_plot_interact.no_group.update_graph1.
    rewrite (bind_ok _ _ _ _ _ Hwt).
    apply px_line_one_run with (d := restrict (has_description touchpoint) df);
      [apply lookup_last_alloc | exact Hq | exact Hv]. }
  split; [exact Hrun|].
  intros Hnone. rewrite Hrun. simpl. unfold quarterly_figure, column_of.
  assert (He : rows (restrict (has_description touchpoint) df) = []).
  { simpl. induction (rows df) as [|r rs IH]; [reflexivity|].
    rewrite filter_cons.
    assert (Hr : has_description touchpoint r = false) by (apply Hnone; left).
    destruct (decide (has_description touchpoint r)) as [Hy|_].
    - rewrite Hr in Hy. contradiction.
    - apply IH. intros r' Hr'. apply Hnone. now right. }
  now rewrite He.
Qed.

Lemma quarterly_callback_plots_rows_unaggregated_witness :
  fst (get_quarterly_spends_plot_interact.no_group.update_graph1 0%nat (Str "tv")
         quarterly_world)
  = Ok (mkFigure [mkTrace "" [] []]).
Proof.
  apply (quarterly_callback_plots_rows_unaggregated quarterly_world 0%nat quarterly_frame
           (Str "tv")).
  - reflexivity.
  - apply in_columns. vm_compute. reflexivity.
  - apply in_columns. vm_compute. reflexivity.
  - apply in_columns. vm_compute. reflexivity.
  - intros r Hr. apply list_elem_of_In in Hr. simpl in Hr.
    destruct Hr as [<-|[<-|[<-|[<-|[]]]]]; vm_compute; reflexivity.
Defined.

(** X14: once its validator has found the selector, get_quarterly_spends_plot
    hands to px.line the table that the grouped callback of the dashboard
    hands to it, with the dropdown on all_values for group_value None and
    on the group value otherwise: the two charts have the same traces, or
    the two calls raise the same error, and both leave the same tables and
    the same printed output.  The titles set afterwards are not compared. *)
Theorem static_quarterly_draws_the_callback_traces (w : world) (data : loc)
    (df : DataFrame) (group_col : label) (x : string) (group_value : option cell) :
  heap w !! data = Some df ->
  "variable_description" ∈ columns df ->
  text_column "variable_description" (rows df) ->
  (exists r s, r ∈ rows df /\ cell_at "variable_description" r = Str s /\
               lower s = lower x) ->
  (forall v, group_value = Some v -> py_eq v (Str "all_values") = false) ->
  traces_drawn (fst (get_quarterly_spends_plot data group_col x group_value w))
  = traces_drawn
      (fst (as_optional
              (get_quarterly_spends_plot_interact.with_group.update_graph1 data group_col
                 (Str x) (dropdown_value group_value) w))) /\
  snd (get_quarterly_spends_plot data group_col x group_value w)
  = snd (get_quarterly_spends_plot_interact.with_group.update_graph1 data group_col
           (Str x) (dropdown_value group_value) w).
Proof.
  intros Hl Hvd Htext Hmatch Hgeo.
  assert (He : get_quarterly_spends_plot data group_col x group_value w
               = as_optional
                   (get_quarterly_spends_plot_interact.with_group.update_graph1 data
                      group_col (Str x) (dropdown_value group_value) w)).
  { unfold get_quarterly_spends_plot.
    rewrite (bind_ok _ _ _ _ _ (getitem_ok _ _ _ _ Hl Hvd)).
    unfold lift at 1, bind at 1.
    rewrite found_in_column by assumption. simpl.
    unfold get_quarterly_spends_plot_interact.with_group.update_graph1,
      get_quarterly_spends_plot_interact.with_group.working_table, quarterly_working_table.
    destruct group_value as [v|]; simpl.
    - rewrite (Hgeo v eq_refl). apply as_optional_bind.
    - apply as_optional_bind. }
  rewrite He. split; [reflexivity|].
  now destruct (get_quarterly_spends_plot_interact.with_group.update_graph1 data group_col
                  (Str x) (dropdown_value group_value) w) as [[f|e] w'].
Qed.

Lemma static_quarterly_draws_the_callback_traces_witness :
  traces_drawn (fst (get_quarterly_spends_plot 0%nat (Col "region") "TV"
                       (Some (Str "north")) quarterly_world))
  = traces_drawn
      (fst (as_optional
              (get_quarterly_spends_plot_interact.with_group.update_graph1 0%nat
                 (Col "region") (Str "TV") (Str "north") quarterly_world))).
Proof.
  apply (static_quarterly_draws_the_callback_traces quarterly_world 0%nat quarterly_frame
           (Col "region") "TV" (Some (Str "north"))).
  - reflexivity.
  - apply in_columns. vm_compute. reflexivity.
  - intros r Hr. apply list_elem_of_In in Hr. simpl in Hr.
    destruct Hr as [<-|[<-|[<-|[<-|[]]]]]; eexists; vm_compute; reflexivity.
  - exists (quarter_row "2021Q1" "north" 10), "TV". split; [left|].
    split; vm_compute; reflexivity.
  - intros v [= <-]. reflexivity.
Defined.

(** * The grouped callback of the spend dashboard *)

Lemma figures_run w2 temp t date plot_type :
  heap w2 !! temp = Some (derived t) ->
  date ∈ columns t -> "Spend" ∈ columns t -> "Activity" ∈ columns t ->
  spend_activity_figures temp (Col date) plot_type w2
  = (if bool_decide (plot_type = "Time Series")
     then Ok (time_series_figure date (derived t), cost_figure date (derived t))
     else if bool_decide (plot_type = "Scatter Plot")
          then Ok (scatter_figure (derived t), cost_figure date (derived t))
          else Raise (UnboundLocalError "fig"),
     w2).
Proof.
  intros Hl Hd0 HS0 HA0.
  assert (Hd : date ∈ columns (derived t)) by now apply columns_derived.
  assert (HS : "Spend" ∈ columns (derived t)) by now apply columns_derived.
  assert (HA : "Activity" ∈ columns (derived t)) by now apply columns_derived.
  unfold spend_activity_figures.
  rewrite (bind_ok _ _ _ _ _
             (px_line_one_run _ _ _ _ _ Hl Hd (cost_per_act_in_derived t))).
  case_bool_decide; [|case_bool_decide].
  - unfold bind at 1.
    rewrite (bind_ok _ _ _ _ _ (getitem_ok _ _ _ _ Hl Hd)).
    rewrite (bind_ok _ _ _ _ _ (getitem_ok _ _ _ _ Hl HS)).
    rewrite (bind_ok _ _ _ _ _ (getitem_ok _ _ _ _ Hl Hd)).
    rewrite (bind_ok _ _ _ _ _ (getitem_ok _ _ _ _ Hl HA)).
    reflexivity.
  - unfold bind at 1. unfold px_scatter.
    rewrite (bind_ok _ _ _ _ _ (px_line_one_run _ _ _ _ _ Hl HA HS)).
    reflexivity.
  - reflexivity.
Qed.

Lemma grouped_table_run w data df date sd ed group tp act geo :
  heap w !! data = Some df ->
  "variable_description" ∈ columns df -> "activity_type" ∈ columns df ->
  date ∈ columns df ->
  (forall r, r ∈ rows df -> comparable date sd ed r) ->
  (py_eq geo (Str "all_values") = false -> group ∈ columns df) ->
  frame_of (get_spend_vs_activity_plot_interact.with_group.working_table
              data (Col date) (Col group) tp act geo sd ed) w
  = groupby_sum (restrict (grouped_pred date tp act sd ed group geo) df)
                (get_spend_vs_activity_plot_interact.group_keys (Col date)).
Proof.
  intros Hl Hvd Hact Hd Hcmp Hg.
  destruct (py_eq geo (Str "all_values")) eqn:E.
  - assert (Hfil : restrict (grouped_pred date tp act sd ed group geo) df
                   = restrict (exact_pred date tp act sd ed) df).
    { apply restrict_ext. intros r _. unfold grouped_pred. now rewrite E. }
    rewrite Hfil.
    unfold get_spend_vs_activity_plot_interact.with_group.working_table. rewrite E.
    pose proof (with_group_all_run w data df date sd ed Hl Hvd Hact Hd Hcmp
                  (Col group) tp act) as H.
    unfold get_spend_vs_activity_plot_interact.with_group.working_table in H.
    simpl in H. exact H.
  - assert (Hfil : restrict (grouped_pred date tp act sd ed group geo) df
                   = restrict (fun r => exact_pred date tp act sd ed r
                                        && in_group group geo r) df).
    { apply restrict_ext. intros r _. unfold grouped_pred. now rewrite E. }
    rewrite Hfil.
    exact (with_group_one_run w data df date sd ed Hl Hvd Hact Hd Hcmp
             group tp act geo (Hg eq_refl) E).
Qed.

(** X15: the grouped callback of the spend dashboard computes the cost per
    activity after the aggregation: its figures are drawn over the per-key
    sums of the filtered rows, and the cost per activity of a key is the
    cleaned float64 quotient of its summed Spend by its summed Activity,
    not a sum of the quotients of the rows; the two sums are the
    compensated float64 sums that pandas computes in row order.  The key
    columns hold text, dates or missing values. *)
Theorem grouped_callback_cost_is_ratio_of_sums (w : world) (data : loc) (df : DataFrame)
    (date group : string) (touchpoint activity geo start_date end_date : cell) :
  heap w !! data = Some df ->
  NoDup (columns df) ->
  "variable_description" ∈ columns df -> "activity_type" ∈ columns df ->
  "variable_activity_root" ∈ columns df ->
  date ∈ columns df -> "Spend" ∈ columns df -> "Activity" ∈ columns df ->
  NoDup (group_key_names date) ->
  "Spend" ∉ group_key_names date -> "Activity" ∉ group_key_names date ->
  (py_eq geo (Str "all_values") = false -> group ∈ columns df) ->
  (forall r, r ∈ rows df -> comparable date start_date end_date r) ->
  numeric_measures (rows df) ->
  (forall c, c ∈ columns df -> c ∉ group_key_names date -> summable c (rows df)) ->
  key_columns (group_key_names date) (rows df) ->
  exists g,
    groupby_sum (restrict (grouped_pred date touchpoint activity start_date end_date
                             group geo) df)
                (get_spend_vs_activity_plot_interact.group_keys (Col date)) = Ok g /\
    fst (get_spend_vs_activity_plot_interact.with_group.update_graph1
           data (Col date) (Col group) touchpoint activity "Time Series" geo
           start_date end_date w)
    = Ok (time_series_figure date (derived g), cost_figure date (derived g)) /\
    fst (get_spend_vs_activity_plot_interact.with_group.update_graph1
           data (Col date) (Col group) touchpoint activity "Scatter Plot" geo
           start_date end_date w)
    = Ok (scatter_figure (derived g), cost_figure date (derived g)) /\
    (forall r, r ∈ rows g ->
       cell_at "cost_per_act" (with_cost_per_act r)
       = Num (cleaned (F64.div
           (group_sum (present (map (cell_at "Spend")
              (filter (fun r' => key_of (group_key_names date) r'
                                 = key_of (group_key_names date) r)
                 (rows (restrict (grouped_pred date touchpoint activity start_date
                                    end_date group geo) df))))))
           (group_sum (present (map (cell_at "Activity")
              (filter (fun r' => key_of (group_key_names date) r'
                                 = key_of (group_key_names date) r)
                 (rows (restrict (grouped_pred date touchpoint activity start_date
                                    end_date group geo) df))))))))).
Proof.
  intros Hl Hcols Hvd Hact Hroot Hd HS HA Hnd HSk HAk Hg Hcmp Hnum Hsum _.
  set (t := restrict (grouped_pred date touchpoint activity start_date end_date group geo)
              df).
  assert (Hkeys : rmap (key_name t) (get_spend_vs_activity_plot_interact.group_keys
                                       (Col date))
                  = Ok (group_key_names date)).
  { simpl. unfold key_name. simpl.
    now rewrite !bool_decide_eq_true_2 by assumption. }
  destruct (groupby_sum_total t _ _ Hkeys) as [g Hgr].
  { intros c Hc Hk. apply summable_restrict. now apply Hsum. }
  assert (Hnumt : forall c, c = "Spend" \/ c = "Activity" ->
            forall r', r' ∈ rows t -> exists x, cell_at c r' = Num x).
  { intros c Hc r' Hr'. apply elem_of_restrict in Hr' as [_ Hr'].
    destruct (Hnum r' Hr') as (s & a & Hs & Ha). destruct Hc as [->| ->]; eauto. }
  assert (Hcell : forall c, c = "Spend" \/ c = "Activity" -> forall r, r ∈ rows g ->
            cell_at c r
            = Num (group_sum (present (map (cell_at c)
                     (filter (fun r' => key_of (group_key_names date) r'
                                        = key_of (group_key_names date) r) (rows t)))))).
  { intros c Hc r Hr.
    apply (groupby_sum_numeric_cell t _ _ g r c Hkeys Hnd Hcols Hgr Hr).
    - destruct Hc as [->| ->]; assumption.
    - destruct Hc as [->| ->]; assumption.
    - now apply Hnumt. }
  assert (Hnumg : numeric_measures (rows g)).
  { intros r Hr. eexists _, _. split; apply Hcell; auto. }
  exists g. split; [exact Hgr|].
  pose proof (grouped_table_run w data df date start_date end_date group touchpoint
                activity geo Hl Hvd Hact Hd Hcmp Hg) as Hf.
  fold t in Hf. rewrite Hgr in Hf.
  apply frame_of_ok_inv in Hf as (l & w1 & Hrun & Hlg).
  assert (Hlt : (l < length (heap w1))%nat) by (eapply lookup_lt_Some; eauto).
  assert (Hcg : forall c, c ∈ columns df -> c ∈ columns g).
  { intros c Hc. now apply (groupby_sum_columns t _ _ g Hkeys Hgr). }
  assert (Hstep : forall pt,
            get_spend_vs_activity_plot_interact.with_group.update_graph1
              data (Col date) (Col group) touchpoint activity pt geo start_date end_date w
            = spend_activity_figures l (Col date) pt
                (mkWorld (<[l := derived g]> (heap w1)) (stdout w1))).
  { intros pt. unfold get_spend_vs_activity_plot_interact.with_group.update_graph1.
    rewrite (bind_ok _ _ _ _ _ Hrun).
    erewrite bind_ok; [reflexivity|].
    apply add_cost_per_act_derived; auto. }
  split; [|split].
  - rewrite Hstep.
    rewrite (figures_run _ l g date "Time Series"); auto.
    simpl. now apply list_lookup_insert_eq.
  - rewrite Hstep.
    rewrite (figures_run _ l g date "Scatter Plot"); auto.
    simpl. now apply list_lookup_insert_eq.
  - intros r Hr. unfold with_cost_per_act, cell_at at 1.
    rewrite lookup_insert_eq. simpl. unfold num_at.
    rewrite (Hcell "Spend" (or_introl eq_refl) r Hr).
    rewrite (Hcell "Activity" (or_intror eq_refl) r Hr). reflexivity.
Qed.

Lemma two_rows_rows r :
  r ∈ rows two_rows_frame -> r = spend_row 1 10 2 \/ r = spend_row 1 5 3.
Proof.
  intros Hr. apply list_elem_of_In in Hr. simpl in Hr.
  destruct Hr as [<-|[<-|[]]]; auto.
Qed.

Lemma grouped_callback_cost_is_ratio_of_sums_witness :
  fst (get_spend_vs_activity_plot_interact.with_group.update_graph1
         0%nat (Col "date") (Col "region") (Str "TV") (Str "Impressions") "Time Series"
         (Str "all_values") (Date 1) (Date 1) (mkWorld [two_rows_frame] []))
  = Ok (time_series_figure "date" (derived one_row_frame),
        cost_figure "date" (derived one_row_frame)).
Proof.
  destruct (grouped_callback_cost_is_ratio_of_sums (mkWorld [two_rows_frame] []) 0%nat
              two_rows_frame "date" "region" (Str "TV") (Str "Impressions")
              (Str "all_values") (Date 1) (Date 1))
    as (g & Hg & Hrun & _).
  - reflexivity.
  - apply (bool_decide_unpack _). vm_compute. exact I.
  - apply in_columns. vm_compute. reflexivity.
  - apply in_columns. vm_compute. reflexivity.
  - apply in_columns. vm_compute. reflexivity.
  - apply in_columns. vm_compute. reflexivity.
  - apply in_columns. vm_compute. reflexivity.
  - apply in_columns. vm_compute. reflexivity.
  - apply (bool_decide_unpack _). vm_compute. exact I.
  - apply (bool_decide_unpack _). vm_compute. exact I.
  - apply (bool_decide_unpack _). vm_compute. exact I.
  - discriminate.
  - intros r Hr. destruct (two_rows_rows r Hr) as [-> | ->];
      split; eexists; vm_compute; reflexivity.
  - intros r Hr. destruct (two_rows_rows r Hr) as [-> | ->];
      eexists _, _; split; vm_compute; reflexivity.
  - intros c Hc Hk. apply list_elem_of_In in Hc. simpl in Hc.
    destruct Hc as [<-|[<-|[<-|[<-|[<-|[<-|[]]]]]]];
      try (exfalso; apply Hk; apply (bool_decide_unpack _); vm_compute; exact I);
      left; intros r Hr; destruct (two_rows_rows r Hr) as [-> | ->];
      eexists; vm_compute; reflexivity.
  - intros r k Hr Hk. apply list_elem_of_In in Hk. simpl in Hk.
    destruct Hk as [<-|[<-|[<-|[<-|[]]]]];
      destruct (two_rows_rows r Hr) as [-> | ->];
      left; first [left; eexists; vm_compute; reflexivity
                  | right; eexists; vm_compute; reflexivity].
  - assert (He : groupby_sum
                   (restrict (grouped_pred "date" (Str "TV") (Str "Impressions") (Date 1)
                                (Date 1) "region" (Str "all_values")) two_rows_frame)
                   (get_spend_vs_activity_plot_interact.group_keys (Col "date"))
                 = Ok one_row_frame) by (vm_compute; reflexivity).
    rewrite He in Hg. injection Hg as <-. exact Hrun.
Defined.
